(** * SpaceFinders: the reservation lifecycle of the client application

    A shallow embedding of the Angular components that carry the
    reservation workflow:

    - [PropertyDetailsComponent] (property-details.component.ts): the
      booking form, its date-range validator, the three-step stepper and
      the price arithmetic;
    - [PaymentPageComponent] (the payment page): the two-phase
      "charge, then reserve" protocol;
    - [MyBookingsComponent] (my-bookings.component.ts): the three-bucket
      classifier, cancellation and modification;
    - [ClientDashboardComponent] (client-dashboard.component.ts): the
      two-bucket classifier and the "recent" list.

    Component methods are state transformers that also record the effects
    they request from the browser (HTTP calls, timers, navigation); the
    callbacks passed to [subscribe] are separate transformers, run when the
    response arrives.  Console logging, the HTML templates and the fields
    that only the templates read are left out. *)

From Stdlib Require Import ZArith List String Ascii Bool Lia.
From Stdlib Require Import Sorting.Sorted Sorting.Permutation.
Import ListNotations.

Local Open Scope string_scope.
Local Open Scope list_scope.
Local Open Scope Z_scope.

(* ====================================================================== *)
(** * The host: numbers, dates, and the functions of the JS runtime        *)
(* ====================================================================== *)

(** The numbers this code computes with are time values, differences of
    time values, night counts and amounts: integers, or NaN when a date
    string did not parse.  Time values are bounded by 8.64e15 < 2^53, so
    [+], [-] and the comparisons are exact on them. *)
Inductive number : Type :=
| NaN
| Num (z : Z).

Definition num_sub (a b : number) : number :=
  match a, b with
  | Num x, Num y => Num (x - y)
  | _, _ => NaN
  end.

Definition num_mul (a b : number) : number :=
  match a, b with
  | Num x, Num y => Num (x * y)
  | _, _ => NaN
  end.

(** [a < b], [a <= b], [a > b], [a >= b]: false as soon as one side is NaN. *)
Definition num_lt (a b : number) : bool :=
  match a, b with
  | Num x, Num y => x <? y
  | _, _ => false
  end.

Definition num_le (a b : number) : bool :=
  match a, b with
  | Num x, Num y => x <=? y
  | _, _ => false
  end.

Definition num_gt (a b : number) : bool := num_lt b a.
Definition num_ge (a b : number) : bool := num_le b a.

(** [Math.ceil(n / d)] for an integer [n] and a positive integer [d],
    with the quotient taken exactly.  For [d] = 86,400,000 the double
    quotient rounds to the same ceiling as long as [|n|] stays below
    2^27 days, some 367,000 years. *)
Definition ceil_div (n d : Z) : Z := - ((- n) / d).

Definition Math_ceil_div (a : number) (d : Z) : number :=
  match a with
  | Num n => Num (ceil_div n d)
  | NaN => NaN
  end.

(** A [Date] object holds one time value: milliseconds since the epoch, or
    NaN ("Invalid Date"). *)
Record Date : Type := DateOf { getTime : number }.

(** Relational operators on two [Date]s compare their time values. *)
Definition Date_lt (a b : Date) : bool := num_lt (getTime a) (getTime b).
Definition Date_le (a b : Date) : bool := num_le (getTime a) (getTime b).
Definition Date_gt (a b : Date) : bool := num_gt (getTime a) (getTime b).
Definition Date_ge (a b : Date) : bool := num_ge (getTime a) (getTime b).

(** What the components take from the runtime and its local time zone. *)
Class Host : Type := {
  (** [Date.parse(s)]: the time value of a date string, or NaN. *)
  Date_parse : string -> number;
  (** the time value of local midnight of the day that holds [t]:
      what [d.setHours(0, 0, 0, 0)] leaves in a valid [d]. *)
  startOfDay : Z -> Z;
  (** [d.toISOString().split('T')[0]] of a valid date. *)
  toISODate : Z -> string;
  (** [parseInt(s, 10)]. *)
  parseInt10 : string -> number
}.

Section HostDates.
Context {host : Host}.

(** [new Date(s)] for a string [s]. *)
Definition new_Date (s : string) : Date := DateOf (Date_parse s).

(** [new Date()] when the clock reads [now]. *)
Definition Date_now (now : Z) : Date := DateOf (Num now).

(** [d.setHours(0, 0, 0, 0)]; an invalid date stays invalid. *)
Definition setHours0 (d : Date) : Date :=
  match getTime d with
  | Num t => DateOf (Num (startOfDay t))
  | NaN => d
  end.

(** [const today = new Date(); today.setHours(0, 0, 0, 0);] *)
Definition today_of (now : Z) : Date := setHours0 (Date_now now).

End HostDates.

(** [s.trim()]: white space and line terminators of the ASCII range. *)
Definition is_space (c : ascii) : bool :=
  let n := nat_of_ascii c in
  ((9 <=? n) && (n <=? 13))%nat || (n =? 32)%nat.

Fixpoint trimStart (s : string) : string :=
  match s with
  | String c rest => if is_space c then trimStart rest else s
  | EmptyString => EmptyString
  end.

Fixpoint string_rev_onto (s acc : string) : string :=
  match s with
  | String c rest => string_rev_onto rest (String c acc)
  | EmptyString => acc
  end.

Definition string_rev (s : string) : string := string_rev_onto s EmptyString.

Definition trim (s : string) : string :=
  string_rev (trimStart (string_rev (trimStart s))).

(** [x || d] on strings: the empty string is falsy. *)
Definition str_or (x d : string) : string :=
  if String.eqb x "" then d else x.

(* ====================================================================== *)
(** * Component methods as state transformers with recorded effects        *)
(* ====================================================================== *)

(** What a method asks of the browser; [R] are the HTTP requests of the
    component, [T] its timer callbacks, [N] its navigation targets. *)
Inductive Effect (R T N : Type) : Type :=
| Http (request : R)
| SetTimeout (ms : Z) (callback : T)
| Navigate (target : N)
| Throw (exn : string).

Arguments Http {R T N} request.
Arguments SetTimeout {R T N} ms callback.
Arguments Navigate {R T N} target.
Arguments Throw {R T N} exn.

(** A method body: from the component's fields to a result, the new
    fields and the effects requested on the way, oldest first. *)
Definition Action (S E A : Type) : Type := S -> A * S * list E.

Definition ret {S E A : Type} (a : A) : Action S E A :=
  fun s => (a, s, []).

Definition bind {S E A B : Type} (m : Action S E A) (k : A -> Action S E B)
  : Action S E B :=
  fun s =>
    let r1 := m s in
    let r2 := k (fst (fst r1)) (snd (fst r1)) in
    (fst (fst r2), snd (fst r2), snd r1 ++ snd r2).

Definition get {S E : Type} : Action S E S := fun s => (s, s, []).
Definition modify {S E : Type} (f : S -> S) : Action S E unit :=
  fun s => (tt, f s, []).
Definition emit {S E : Type} (e : E) : Action S E unit :=
  fun s => (tt, s, [e]).

Declare Scope action_scope.
Delimit Scope action_scope with action.
Notation "x <- m ;; k" := (bind m (fun x => k))
  (at level 61, m at next level, right associativity) : action_scope.
Notation "m ;; k" := (bind m (fun _ => k))
  (at level 61, right associativity) : action_scope.

(** The fields after a method ran, and the effects it requested. *)
Definition state_after {S E A : Type} (r : A * S * list E) : S := snd (fst r).
Definition effects_of {S E A : Type} (r : A * S * list E) : list E := snd r.

(* ====================================================================== *)
(** * Stable sorting: [Array.prototype.sort] with a consistent comparator  *)
(* ====================================================================== *)

(** [SortCompare] turns the comparator's number into an order: a NaN
    result counts as [+0]. *)
Definition sortCompare_sign (v : number) : Z :=
  match v with
  | Num z => z
  | NaN => 0
  end.

Section StableSort.
Context {A : Type}.
Variable cmp : A -> A -> number.

(** [x] goes in front of the first element it does not sort after, so it
    stays in front of later elements that compare equal to it. *)
Fixpoint sort_insert (x : A) (l : list A) : list A :=
  match l with
  | [] => [x]
  | y :: l' =>
      if sortCompare_sign (cmp x y) <=? 0 then x :: l
      else y :: sort_insert x l'
  end.

(** The one result ECMAScript allows for a consistent comparator: the
    elements in comparator order, equal ones in their original order. *)
Fixpoint Array_sort (l : list A) : list A :=
  match l with
  | [] => []
  | x :: l' => sort_insert x (Array_sort l')
  end.

End StableSort.

(** [arr.slice(0, n)] for [n >= 0]. *)
Definition Array_slice0 {A : Type} (n : nat) (l : list A) : list A := firstn n l.

(* ====================================================================== *)
(** * Records exchanged with the backend                                   *)
(* ====================================================================== *)

(** [interface BookingResponse] (my-bookings and client-dashboard). *)
Module BookingResponse.
Record t : Type := {
  bookingId : Z;
  propertyId : Z;
  propertyName : string;
  propertyImage : string;
  city : string;
  userId : Z;
  username : string;
  checkinDate : string;
  checkoutDate : string;
  isPaymentStatus : bool;
  isBookingStatus : string;
  hasExtraCot : bool;
  hasDeepClean : bool
}.
End BookingResponse.

(** [interface PaymentData]: built by the property page, handed to the
    payment page through the router's navigation state. *)
Module PaymentData.
Record t : Type := {
  propertyId : Z;
  propertyName : string;
  propertyImage : string;
  propertyLocation : string;
  pricePerNight : Z;
  bookingId : option Z;
  checkinDate : string;
  checkoutDate : string;
  numberOfNights : number;
  maxGuests : Z;
  hasExtraCot : bool;
  hasDeepClean : bool;
  totalAmount : number;
  userId : number
}.
End PaymentData.

(** [interface ApiResponse<T>]. *)
Record ApiResponse (T : Type) : Type := {
  success : bool;
  message : string;
  data : option T
}.

Arguments success {T} _.
Arguments message {T} _.
Arguments data {T} _.

(** The parts of an [HttpErrorResponse] the handlers read: [status] and
    [error?.message]. *)
Record HttpErrorResponse : Type := {
  status : Z;
  error_message : option string
}.

(** [error.error?.message || fallback]. *)
Definition server_message_or (e : HttpErrorResponse) (fallback : string) : string :=
  match error_message e with
  | Some m => str_or m fallback
  | None => fallback
  end.

(* ====================================================================== *)
(** * A concrete host: the UTC zone, date-only ISO strings                 *)
(* ====================================================================== *)

Definition msPerDay : Z := 1000 * 60 * 60 * 24.

Definition digit_of (c : ascii) : option Z :=
  let n := Z.of_nat (nat_of_ascii c) in
  if (48 <=? n) && (n <=? 57) then Some (n - 48) else None.

(** The decimal value of a string of digits; [None] on any other character
    and on the empty string. *)
Fixpoint digits_value (s : string) (acc : Z) : option Z :=
  match s with
  | String c EmptyString =>
      match digit_of c with
      | Some d => Some (10 * acc + d)
      | None => None
      end
  | String c rest =>
      match digit_of c with
      | Some d => digits_value rest (10 * acc + d)
      | None => None
      end
  | EmptyString => None
  end.

Definition is_leap (y : Z) : bool :=
  ((y mod 4 =? 0) && negb (y mod 100 =? 0)) || (y mod 400 =? 0).

Definition days_in_month (y m : Z) : Z :=
  if m =? 2 then (if is_leap y then 29 else 28)
  else if (m =? 4) || (m =? 6) || (m =? 9) || (m =? 11) then 30
  else 31.

(** Days from 1970-01-01 to the civil date [y]-[m]-[d]. *)
Definition days_from_civil (y m d : Z) : Z :=
  let y' := if m <=? 2 then y - 1 else y in
  let era := y' / 400 in
  let yoe := y' - era * 400 in
  let doy := (153 * (if 2 <? m then m - 3 else m + 9) + 2) / 5 + d - 1 in
  let doe := yoe * 365 + yoe / 4 - yoe / 100 + doy in
  era * 146097 + doe - 719468.

(** The civil date [(y, m, d)] of a day count from 1970-01-01. *)
Definition civil_from_days (z0 : Z) : Z * Z * Z :=
  let z := z0 + 719468 in
  let era := z / 146097 in
  let doe := z - era * 146097 in
  let yoe := (doe - doe / 1460 + doe / 36524 - doe / 146096) / 365 in
  let doy := doe - (365 * yoe + yoe / 4 - yoe / 100) in
  let mp := (5 * doy + 2) / 153 in
  let d := doy - (153 * mp + 2) / 5 + 1 in
  let m := if mp <? 10 then mp + 3 else mp - 9 in
  ((yoe + era * 400) + (if m <=? 2 then 1 else 0), m, d).

(** [Date.parse] on the form [YYYY-MM-DD], read as UTC midnight; this host
    takes every other string as unparseable. *)
Definition parse_iso_date (s : string) : number :=
  if negb (Nat.eqb (String.length s) 10) then NaN
  else
    match digits_value (substring 0 4 s) 0,
          digits_value (substring 5 2 s) 0,
          digits_value (substring 8 2 s) 0 with
    | Some y, Some m, Some d =>
        if String.eqb (substring 4 1 s) "-" && String.eqb (substring 7 1 s) "-"
           && (1 <=? m) && (m <=? 12) && (1 <=? d) && (d <=? days_in_month y m)
        then Num (days_from_civil y m d * msPerDay)
        else NaN
    | _, _, _ => NaN
    end.

Definition digit_char (d : Z) : ascii := ascii_of_nat (Z.to_nat (48 + d mod 10)).

(** The last [width] decimal digits of [n >= 0], most significant first. *)
Fixpoint pad_digits (width : nat) (n : Z) (acc : string) : string :=
  match width with
  | O => acc
  | S w => pad_digits w (n / 10) (String (digit_char n) acc)
  end.

(** The date part of [toISOString]: four-digit years, or a sign and six
    digits outside 0..9999. *)
Definition iso_date_of (t : Z) : string :=
  let '(y, m, d) := civil_from_days (t / msPerDay) in
  let year :=
    if (0 <=? y) && (y <=? 9999) then pad_digits 4 y ""
    else String.append (if y <? 0 then "-" else "+") (pad_digits 6 (Z.abs y) "") in
  String.append year
    (String.append "-"
       (String.append (pad_digits 2 m "") (String.append "-" (pad_digits 2 d "")))).

(** The digits at the front of [s], as [parseInt] reads them. *)
Fixpoint leading_digits (s : string) (acc : option Z) : option Z :=
  match s with
  | String c rest =>
      match digit_of c with
      | Some d =>
          leading_digits rest
            (Some (10 * (match acc with Some a => a | None => 0 end) + d))
      | None => acc
      end
  | EmptyString => acc
  end.

Definition parse_int10 (s : string) : number :=
  let s1 := trimStart s in
  let '(sign, body) :=
    match s1 with
    | String "-" rest => (-1, rest)
    | String "+" rest => (1, rest)
    | _ => (1, s1)
    end in
  match leading_digits body None with
  | Some n => Num (sign * n)
  | None => NaN
  end.

Definition utcHost : Host := {|
  Date_parse := parse_iso_date;
  startOfDay := fun t => t - t mod msPerDay;
  toISODate := iso_date_of;
  parseInt10 := parse_int10
|}.

(* ====================================================================== *)
(** * property-details.component.ts                                        *)
(* ====================================================================== *)

(** [interface PropertyDetails]: the fields the booking flow reads. *)
Module PropertyDetails.
Record t : Type := {
  propertyId : Z;
  propertyName : string;
  maxNoOfGuests : Z;
  pricePerDay : Z;
  imageURL : string;
  city : string;
  state : string
}.
End PropertyDetails.

Module PropertyDetailsComponent.

(** The error objects of the form-group validator:
    [{ invalidDateRange: true }] and [{ pastDate: true }]. *)
Inductive ValidationErrors : Type :=
| invalidDateRange
| pastDate.

(** [bookingForm.value]; a date control holds a [Date] or [null]. *)
Record BookingFormValue : Type := {
  checkinDate : option Date;
  checkoutDate : option Date;
  hasExtraCot : bool;
  hasDeepClean : bool
}.

(** The reactive form group: its value, the result of its group validator
    as of the last change of value, and which controls were touched. *)
Record FormGroup : Type := {
  value : BookingFormValue;
  errors : option ValidationErrors;
  touched_checkinDate : bool;
  touched_checkoutDate : bool;
  touched_hasExtraCot : bool;
  touched_hasDeepClean : bool
}.

(** HTTP requests: [POST /client/alwaysTrue] with the payment data. *)
Inductive Request : Type :=
| Post_alwaysTrue (paymentData : PaymentData.t).

(** Timer callbacks: [() => (this.errorMessage = '')] and
    [() => (this.successMessage = '')]. *)
Inductive Timer : Type :=
| ClearErrorMessage
| ClearSuccessMessage.

(** [router.navigate([route], { state: { paymentData } })]. *)
Record Navigation : Type := {
  route : string;
  nav_paymentData : option PaymentData.t
}.

Definition Eff : Type := Effect Request Timer Navigation.

(** The component's fields, and the session entry it reads. *)
Record Component : Type := {
  property : option PropertyDetails.t;
  propertyId : option Z;
  currentStep : Z;
  showBookingForm : bool;
  isLoading : bool;
  isBooking : bool;
  errorMessage : string;
  successMessage : string;
  bookingForm : FormGroup;
  session_userId : option string
}.

Definition set_currentStep (n : Z) (c : Component) : Component :=
  {| property := property c; propertyId := propertyId c; currentStep := n;
     showBookingForm := showBookingForm c; isLoading := isLoading c;
     isBooking := isBooking c; errorMessage := errorMessage c;
     successMessage := successMessage c; bookingForm := bookingForm c;
     session_userId := session_userId c |}.

Definition set_showBookingForm (b : bool) (c : Component) : Component :=
  {| property := property c; propertyId := propertyId c;
     currentStep := currentStep c; showBookingForm := b;
     isLoading := isLoading c; isBooking := isBooking c;
     errorMessage := errorMessage c; successMessage := successMessage c;
     bookingForm := bookingForm c; session_userId := session_userId c |}.

Definition set_messages (err ok : string) (c : Component) : Component :=
  {| property := property c; propertyId := propertyId c;
     currentStep := currentStep c; showBookingForm := showBookingForm c;
     isLoading := isLoading c; isBooking := isBooking c;
     errorMessage := err; successMessage := ok;
     bookingForm := bookingForm c; session_userId := session_userId c |}.

Definition set_errorMessage (err : string) (c : Component) : Component :=
  set_messages err (successMessage c) c.

Definition set_bookingForm (f : FormGroup) (c : Component) : Component :=
  {| property := property c; propertyId := propertyId c;
     currentStep := currentStep c; showBookingForm := showBookingForm c;
     isLoading := isLoading c; isBooking := isBooking c;
     errorMessage := errorMessage c; successMessage := successMessage c;
     bookingForm := f; session_userId := session_userId c |}.

Section Methods.
Context {host : Host}.

Local Open Scope action_scope.

(** [private dateRangeValidator(form: FormGroup)], run when the clock
    reads [now]. *)
Definition dateRangeValidator (now : Z) (form : BookingFormValue)
  : option ValidationErrors :=
  match checkinDate form, checkoutDate form with
  | Some cin, Some cout =>
      let checkin := cin in
      let checkout := cout in
      if Date_le checkout checkin then Some invalidDateRange
      else
        let today := today_of now in
        if Date_lt checkin today then Some pastDate else None
  | _, _ => None
  end.

(** [bookingForm.reset({...})]: new value, nothing touched, validators
    re-run. *)
Definition FormGroup_reset (now : Z) (v : BookingFormValue) : FormGroup :=
  {| value := v; errors := dateRangeValidator now v;
     touched_checkinDate := false; touched_checkoutDate := false;
     touched_hasExtraCot := false; touched_hasDeepClean := false |}.

(** The user changes the controls: new value, validators re-run. *)
Definition FormGroup_setValue (now : Z) (v : BookingFormValue) (f : FormGroup)
  : FormGroup :=
  {| value := v; errors := dateRangeValidator now v;
     touched_checkinDate := touched_checkinDate f;
     touched_checkoutDate := touched_checkoutDate f;
     touched_hasExtraCot := touched_hasExtraCot f;
     touched_hasDeepClean := touched_hasDeepClean f |}.

(** [get('checkinDate')?.markAsTouched(); get('checkoutDate')?.markAsTouched()] *)
Definition markDatesTouched (f : FormGroup) : FormGroup :=
  {| value := value f; errors := errors f;
     touched_checkinDate := true; touched_checkoutDate := true;
     touched_hasExtraCot := touched_hasExtraCot f;
     touched_hasDeepClean := touched_hasDeepClean f |}.

(** [private markFormGroupTouched(formGroup)] *)
Definition markFormGroupTouched (f : FormGroup) : FormGroup :=
  {| value := value f; errors := errors f;
     touched_checkinDate := true; touched_checkoutDate := true;
     touched_hasExtraCot := true; touched_hasDeepClean := true |}.

(** [bookingForm.invalid]: a required control is empty, or the group
    validator reported an error. *)
Definition FormGroup_invalid (f : FormGroup) : bool :=
  match checkinDate (value f), checkoutDate (value f), errors f with
  | Some _, Some _, None => false
  | _, _, _ => true
  end.

Definition emptyFormValue : BookingFormValue :=
  {| checkinDate := None; checkoutDate := None;
     hasExtraCot := false; hasDeepClean := false |}.

(** [private showError(message)] *)
Definition showError (msg : string) : Action Component Eff unit :=
  modify (set_messages msg "") ;;
  emit (SetTimeout 5000 ClearErrorMessage).

(** [private showSuccess(message)] *)
Definition showSuccess (msg : string) : Action Component Eff unit :=
  modify (set_messages "" msg) ;;
  emit (SetTimeout 3000 ClearSuccessMessage).

(** [openBookingForm()] *)
Definition openBookingForm (now : Z) : Action Component Eff unit :=
  modify (set_showBookingForm true) ;;
  modify (set_bookingForm (FormGroup_reset now emptyFormValue)) ;;
  modify (set_currentStep 0) ;;
  modify (set_errorMessage "").

(** [closeBookingForm()] *)
Definition closeBookingForm (now : Z) : Action Component Eff unit :=
  modify (set_showBookingForm false) ;;
  modify (set_bookingForm (FormGroup_reset now emptyFormValue)) ;;
  modify (set_currentStep 0) ;;
  modify (set_errorMessage "").

(** [previousStep()] *)
Definition previousStep : Action Component Eff unit :=
  c <- get ;;
  if 0 <? currentStep c then modify (set_currentStep (currentStep c - 1))
  else ret tt.

(** [calculateNights(checkinDate: string, checkoutDate: string)] *)
Definition calculateNights (checkinDate checkoutDate : string) : number :=
  let cin := new_Date checkinDate in
  let cout := new_Date checkoutDate in
  let diff := num_sub (getTime cout) (getTime cin) in
  Math_ceil_div diff (1000 * 60 * 60 * 24).

(** [calculateTotalPrice(pricePerDay: number, nights: number)] *)
Definition calculateTotalPrice (pricePerDay nights : number) : number :=
  num_mul pricePerDay nights.

(** [private bookRoomService(paymentData)]: the call goes out only when
    deep clean is chosen. *)
Definition bookRoomService (paymentData : PaymentData.t)
  : Action Component Eff unit :=
  if PaymentData.hasDeepClean paymentData
  then emit (Http (Post_alwaysTrue paymentData))
  else ret tt.

(** [d.toISOString().split('T')[0]]; [toISOString] throws a [RangeError]
    on an invalid date. *)
Definition Date_toISODate (d : Date) : option string :=
  match getTime d with
  | Num t => Some (toISODate t)
  | NaN => None
  end.

(** [submitBooking()] *)
Definition submitBooking : Action Component Eff unit :=
  c <- get ;;
  match FormGroup_invalid (bookingForm c), property c with
  | false, Some prop =>
      match session_userId c with
      | None | Some "" =>
          showError "Please login first" ;;
          emit (Navigate {| route := "/home"; nav_paymentData := None |})
      | Some userIdStr =>
          let userId := parseInt10 userIdStr in
          let fv := value (bookingForm c) in
          match checkinDate fv, checkoutDate fv with
          | Some din, Some dout =>
              match Date_toISODate din, Date_toISODate dout with
              | Some checkinDate, Some checkoutDate =>
                  let nights := calculateNights checkinDate checkoutDate in
                  let totalAmount :=
                    calculateTotalPrice
                      (Num (PropertyDetails.pricePerDay prop)) nights in
                  let paymentData :=
                    {| PaymentData.propertyId := PropertyDetails.propertyId prop;
                       PaymentData.propertyName := PropertyDetails.propertyName prop;
                       PaymentData.propertyImage := PropertyDetails.imageURL prop;
                       PaymentData.propertyLocation :=
                         String.append (PropertyDetails.city prop)
                           (String.append ", " (PropertyDetails.state prop));
                       PaymentData.pricePerNight := PropertyDetails.pricePerDay prop;
                       PaymentData.bookingId := None;
                       PaymentData.checkinDate := checkinDate;
                       PaymentData.checkoutDate := checkoutDate;
                       PaymentData.numberOfNights := nights;
                       PaymentData.maxGuests := PropertyDetails.maxNoOfGuests prop;
                       PaymentData.hasExtraCot := hasExtraCot fv;
                       PaymentData.hasDeepClean := hasDeepClean fv;
                       PaymentData.totalAmount := totalAmount;
                       PaymentData.userId := userId |} in
                  bookRoomService paymentData ;;
                  emit (Navigate {| route := "/client/payment-page";
                                    nav_paymentData := Some paymentData |})
              | _, _ => emit (Throw "RangeError")
              end
          | _, _ => emit (Throw "TypeError")
          end
      end
  | _, _ => modify (fun c => set_bookingForm (markFormGroupTouched (bookingForm c)) c)
  end.

(** [nextStep()] *)
Definition nextStep : Action Component Eff unit :=
  c <- get ;;
  if currentStep c =? 0 then
    let cin := checkinDate (value (bookingForm c)) in
    let cout := checkoutDate (value (bookingForm c)) in
    match cin, cout with
    | Some _, Some _ =>
        match errors (bookingForm c) with
        | Some invalidDateRange =>
            showError "Check-out date must be after check-in date"
        | Some pastDate =>
            showError "Check-in date cannot be in the past"
        | None => modify (set_currentStep 1)
        end
    | _, _ =>
        showError "Please select both check-in and check-out dates" ;;
        modify (fun c => set_bookingForm (markDatesTouched (bookingForm c)) c)
    end
  else if currentStep c =? 1 then modify (set_currentStep 2)
  else if currentStep c =? 2 then submitBooking
  else ret tt.

(** The user fills in the form controls while the clock reads [now]. *)
Definition userEditsForm (now : Z) (v : BookingFormValue)
  : Action Component Eff unit :=
  modify (fun c => set_bookingForm (FormGroup_setValue now v (bookingForm c)) c).

End Methods.

End PropertyDetailsComponent.

(* ====================================================================== *)
(** * The payment page: charge, then reserve                               *)
(* ====================================================================== *)

Module PaymentPageComponent.

(** [interface PaymentRequest] *)
Record PaymentRequest : Type := {
  pr_bookingId : option Z;
  pr_userId : number;
  pr_accountNumber : string;
  pr_amount : number
}.

(** The body of the reservation-creation call. *)
Record BookingRequest : Type := {
  br_propertyId : Z;
  br_userId : number;
  br_checkinDate : string;
  br_checkoutDate : string;
  br_hasExtraCot : bool;
  br_hasDeepClean : bool
}.

(** HTTP requests: [POST /client/alwaysTrue] (the charge) and
    [POST /client/makeBooking] (the reservation). *)
Inductive Request : Type :=
| Post_alwaysTrue (paymentRequest : PaymentRequest)
| Post_makeBooking (bookingRequest : BookingRequest).

(** Timer callbacks: clearing the error banner, and the delayed
    [router.navigate] calls. *)
Inductive Timer : Type :=
| ClearErrorMessage
| NavigateTo (route : string).

Definition Eff : Type := Effect Request Timer string.

Record Component : Type := {
  paymentData : option PaymentData.t;
  accountNumber : string;
  isProcessing : bool;
  errorMessage : string;
  successMessage : string
}.

Definition set_accountNumber (a : string) (c : Component) : Component :=
  {| paymentData := paymentData c; accountNumber := a;
     isProcessing := isProcessing c; errorMessage := errorMessage c;
     successMessage := successMessage c |}.

Definition set_isProcessing (b : bool) (c : Component) : Component :=
  {| paymentData := paymentData c; accountNumber := accountNumber c;
     isProcessing := b; errorMessage := errorMessage c;
     successMessage := successMessage c |}.

Definition set_errorMessage (m : string) (c : Component) : Component :=
  {| paymentData := paymentData c; accountNumber := accountNumber c;
     isProcessing := isProcessing c; errorMessage := m;
     successMessage := successMessage c |}.

Definition set_successMessage (m : string) (c : Component) : Component :=
  {| paymentData := paymentData c; accountNumber := accountNumber c;
     isProcessing := isProcessing c; errorMessage := errorMessage c;
     successMessage := m |}.

Local Open Scope action_scope.

(** [private showError(message)] *)
Definition showError (msg : string) : Action Component Eff unit :=
  modify (set_errorMessage msg) ;;
  modify (set_successMessage "") ;;
  emit (SetTimeout 5000 ClearErrorMessage).

(** [private showSuccess(message)]: no timer on this page. *)
Definition showSuccess (msg : string) : Action Component Eff unit :=
  modify (set_successMessage msg) ;;
  modify (set_errorMessage "").

(** [private handleError(context, error)]: sets the error banner and, on
    401, schedules the redirect; the success banner is left as it is. *)
Definition handleError (context : string) (error : HttpErrorResponse)
  : Action Component Eff unit :=
  if status error =? 0 then
    modify (set_errorMessage
      "Cannot connect to server. Please check if the backend is running.")
  else if status error =? 401 then
    modify (set_errorMessage "Unauthorized. Please login again.") ;;
    emit (SetTimeout 2000 (NavigateTo "/home"))
  else if 500 <=? status error then
    modify (set_errorMessage "Server error. Please try again later.")
  else
    modify (set_errorMessage
      (server_message_or error "An unexpected error occurred.")).

(** [private makeBooking()] up to the reservation call. *)
Definition makeBooking : Action Component Eff unit :=
  c <- get ;;
  match paymentData c with
  | None => showError "Missing booking data for confirmation."
  | Some pd =>
      let bookingRequest :=
        {| br_propertyId := PaymentData.propertyId pd;
           br_userId := PaymentData.userId pd;
           br_checkinDate := PaymentData.checkinDate pd;
           br_checkoutDate := PaymentData.checkoutDate pd;
           br_hasExtraCot := PaymentData.hasExtraCot pd;
           br_hasDeepClean := PaymentData.hasDeepClean pd |} in
      emit (Http (Post_makeBooking bookingRequest))
  end.

(** The [next] callback of the reservation call. *)
Definition makeBooking_next (response : ApiResponse unit)
  : Action Component Eff unit :=
  if success response then
    showSuccess "Booking confirmed successfully!" ;;
    emit (SetTimeout 2000 (NavigateTo "/client/my-bookings"))
  else showError "Booking confirmation failed.".

(** The [error] callback of the reservation call. *)
Definition makeBooking_error (error : HttpErrorResponse)
  : Action Component Eff unit :=
  handleError "Failed to confirm booking" error.

(** [processPayment()] up to the charge call. *)
Definition processPayment : Action Component Eff unit :=
  c <- get ;;
  if String.eqb (accountNumber c) "" || String.eqb (trim (accountNumber c)) ""
  then showError "Please enter your account number"
  else
    match paymentData c with
    | None => showError "Payment data is missing"
    | Some pd =>
        modify (set_isProcessing true) ;;
        modify (set_errorMessage "") ;;
        let paymentRequest :=
          {| pr_bookingId :=
               match PaymentData.bookingId pd with
               | Some 0 => None
               | other => other
               end;
             pr_userId := PaymentData.userId pd;
             pr_accountNumber := trim (accountNumber c);
             pr_amount := PaymentData.totalAmount pd |} in
        emit (Http (Post_alwaysTrue paymentRequest))
    end.

(** The [next] callback of the charge call. *)
Definition processPayment_next (isSuccessful : bool)
  : Action Component Eff unit :=
  (if isSuccessful then
     showSuccess "Payment processed successfully!" ;;
     modify (set_accountNumber "") ;;
     makeBooking
   else showError "Payment processing failed") ;;
  modify (set_isProcessing false).

(** The [error] callback of the charge call. *)
Definition processPayment_error (error : HttpErrorResponse)
  : Action Component Eff unit :=
  handleError "Payment processing failed" error ;;
  modify (set_isProcessing false).

(** How the two external calls can end. *)
Inductive ChargeOutcome : Type :=
| ChargeResult (isSuccessful : bool)
| ChargeError (error : HttpErrorResponse).

Inductive ReserveOutcome : Type :=
| ReserveResponse (response : ApiResponse unit)
| ReserveError (error : HttpErrorResponse).

Definition onCharge (o : ChargeOutcome) : Action Component Eff unit :=
  match o with
  | ChargeResult ok => processPayment_next ok
  | ChargeError e => processPayment_error e
  end.

Definition onReserve (o : ReserveOutcome) : Action Component Eff unit :=
  match o with
  | ReserveResponse r => makeBooking_next r
  | ReserveError e => makeBooking_error e
  end.

Definition is_charge_call (e : Eff) : bool :=
  match e with
  | Http (Post_alwaysTrue _) => true
  | _ => false
  end.

Definition is_reserve_call (e : Eff) : bool :=
  match e with
  | Http (Post_makeBooking _) => true
  | _ => false
  end.

(** Run [m], then [k] if [m] issued a call that [issued] recognises: the
    callback of a call runs only when the call went out. *)
Definition then_on (issued : Eff -> bool)
  (m k : Action Component Eff unit) : Action Component Eff unit :=
  fun c =>
    let r := m c in
    if existsb issued (effects_of r) then
      let r' := k (state_after r) in
      (tt, state_after r', effects_of r ++ effects_of r')
    else r.

(** One reservation attempt: the user submits the payment form, the charge
    call ends as [charge], and the reservation call, if one was issued,
    ends as [reserve]. *)
Definition attempt (charge : ChargeOutcome) (reserve : ReserveOutcome)
  : Action Component Eff unit :=
  then_on is_reserve_call
    (then_on is_charge_call processPayment (onCharge charge))
    (onReserve reserve).

(** The user types an account number. *)
Definition userTypesAccount (a : string) : Action Component Eff unit :=
  modify (set_accountNumber a).

End PaymentPageComponent.

(* ====================================================================== *)
(** * my-bookings.component.ts                                             *)
(* ====================================================================== *)

Module MyBookingsComponent.

Inductive ValidationErrors : Type :=
| invalidDateRange
| pastDate.

(** [modifyForm.value]: every control is [null] after [reset()]. *)
Record ModifyFormValue : Type := {
  checkinDate : option Date;
  checkoutDate : option Date;
  hasExtraCot : option bool;
  hasDeepClean : option bool
}.

Record FormGroup : Type := {
  value : ModifyFormValue;
  errors : option ValidationErrors;
  touched : bool
}.

(** [interface ModifyBookingRequest] *)
Record ModifyBookingRequest : Type := {
  mr_bookingId : Z;
  mr_checkinDate : string;
  mr_checkoutDate : string;
  mr_hasExtraCot : option bool;
  mr_hasDeepClean : option bool
}.

(** HTTP requests: [GET /client/viewBooking/:userId],
    [DELETE /client/cancelBooking/:bookingId], [PUT /client/modifyBooking]. *)
Inductive Request : Type :=
| Get_viewBooking (userId : number)
| Delete_cancelBooking (bookingId : Z)
| Put_modifyBooking (modifyRequest : ModifyBookingRequest).

Inductive Timer : Type :=
| ClearErrorMessage
| ClearSuccessMessage
| NavigateTo (route : string).

Definition Eff : Type := Effect Request Timer string.

Record Component : Type := {
  allBookings : list BookingResponse.t;
  upcomingBookings : list BookingResponse.t;
  pastBookings : list BookingResponse.t;
  currentBookings : list BookingResponse.t;
  isLoading : bool;
  isCancelling : bool;
  isModifying : bool;
  selectedBooking : option BookingResponse.t;
  showModifyDialog : bool;
  errorMessage : string;
  successMessage : string;
  modifyForm : FormGroup;
  session_userId : option string
}.

Definition set_allBookings (l : list BookingResponse.t) (c : Component) : Component :=
  {| allBookings := l; upcomingBookings := upcomingBookings c;
     pastBookings := pastBookings c; currentBookings := currentBookings c;
     isLoading := isLoading c; isCancelling := isCancelling c;
     isModifying := isModifying c; selectedBooking := selectedBooking c;
     showModifyDialog := showModifyDialog c; errorMessage := errorMessage c;
     successMessage := successMessage c; modifyForm := modifyForm c;
     session_userId := session_userId c |}.

Definition set_buckets (up past cur : list BookingResponse.t) (c : Component)
  : Component :=
  {| allBookings := allBookings c; upcomingBookings := up;
     pastBookings := past; currentBookings := cur;
     isLoading := isLoading c; isCancelling := isCancelling c;
     isModifying := isModifying c; selectedBooking := selectedBooking c;
     showModifyDialog := showModifyDialog c; errorMessage := errorMessage c;
     successMessage := successMessage c; modifyForm := modifyForm c;
     session_userId := session_userId c |}.

Definition set_isLoading (b : bool) (c : Component) : Component :=
  {| allBookings := allBookings c; upcomingBookings := upcomingBookings c;
     pastBookings := pastBookings c; currentBookings := currentBookings c;
     isLoading := b; isCancelling := isCancelling c;
     isModifying := isModifying c; selectedBooking := selectedBooking c;
     showModifyDialog := showModifyDialog c; errorMessage := errorMessage c;
     successMessage := successMessage c; modifyForm := modifyForm c;
     session_userId := session_userId c |}.

Definition set_isCancelling (b : bool) (c : Component) : Component :=
  {| allBookings := allBookings c; upcomingBookings := upcomingBookings c;
     pastBookings := pastBookings c; currentBookings := currentBookings c;
     isLoading := isLoading c; isCancelling := b;
     isModifying := isModifying c; selectedBooking := selectedBooking c;
     showModifyDialog := showModifyDialog c; errorMessage := errorMessage c;
     successMessage := successMessage c; modifyForm := modifyForm c;
     session_userId := session_userId c |}.

Definition set_isModifying (b : bool) (c : Component) : Component :=
  {| allBookings := allBookings c; upcomingBookings := upcomingBookings c;
     pastBookings := pastBookings c; currentBookings := currentBookings c;
     isLoading := isLoading c; isCancelling := isCancelling c;
     isModifying := b; selectedBooking := selectedBooking c;
     showModifyDialog := showModifyDialog c; errorMessage := errorMessage c;
     successMessage := successMessage c; modifyForm := modifyForm c;
     session_userId := session_userId c |}.

Definition set_dialog (sel : option BookingResponse.t) (show : bool)
  (f : FormGroup) (c : Component) : Component :=
  {| allBookings := allBookings c; upcomingBookings := upcomingBookings c;
     pastBookings := pastBookings c; currentBookings := currentBookings c;
     isLoading := isLoading c; isCancelling := isCancelling c;
     isModifying := isModifying c; selectedBooking := sel;
     showModifyDialog := show; errorMessage := errorMessage c;
     successMessage := successMessage c; modifyForm := f;
     session_userId := session_userId c |}.

Definition set_messages (err ok : string) (c : Component) : Component :=
  {| allBookings := allBookings c; upcomingBookings := upcomingBookings c;
     pastBookings := pastBookings c; currentBookings := currentBookings c;
     isLoading := isLoading c; isCancelling := isCancelling c;
     isModifying := isModifying c; selectedBooking := selectedBooking c;
     showModifyDialog := showModifyDialog c; errorMessage := err;
     successMessage := ok; modifyForm := modifyForm c;
     session_userId := session_userId c |}.

Definition set_errorMessage (err : string) (c : Component) : Component :=
  set_messages err (successMessage c) c.

Section Methods.
Context {host : Host}.

Local Open Scope action_scope.

(** [private dateRangeValidator(form: FormGroup)], run when the clock
    reads [now]. *)
Definition dateRangeValidator (now : Z) (form : ModifyFormValue)
  : option ValidationErrors :=
  match checkinDate form, checkoutDate form with
  | Some checkin, Some checkout =>
      let checkinDate := checkin in
      let checkoutDate := checkout in
      if Date_le checkoutDate checkinDate then Some invalidDateRange
      else
        let today := today_of now in
        if Date_lt checkinDate today then Some pastDate else None
  | _, _ => None
  end.

(** [modifyForm.patchValue({...})]: new value, validators re-run. *)
Definition FormGroup_patchValue (now : Z) (v : ModifyFormValue) (f : FormGroup)
  : FormGroup :=
  {| value := v; errors := dateRangeValidator now v; touched := touched f |}.

(** [modifyForm.reset()]: every control [null], nothing touched. *)
Definition FormGroup_reset : FormGroup :=
  {| value := {| checkinDate := None; checkoutDate := None;
                 hasExtraCot := None; hasDeepClean := None |};
     errors := None; touched := false |}.

(** [private markFormGroupTouched(formGroup)] *)
Definition markFormGroupTouched (f : FormGroup) : FormGroup :=
  {| value := value f; errors := errors f; touched := true |}.

(** [modifyForm.invalid] *)
Definition FormGroup_invalid (f : FormGroup) : bool :=
  match checkinDate (value f), checkoutDate (value f), errors f with
  | Some _, Some _, None => false
  | _, _, _ => true
  end.

(** [private showError(message)] *)
Definition showError (msg : string) : Action Component Eff unit :=
  modify (set_messages msg "") ;;
  emit (SetTimeout 5000 ClearErrorMessage).

(** [private showSuccess(message)] *)
Definition showSuccess (msg : string) : Action Component Eff unit :=
  modify (set_messages "" msg) ;;
  emit (SetTimeout 3000 ClearSuccessMessage).

(** [private handleError(context, error)] *)
Definition handleError (context : string) (error : HttpErrorResponse)
  : Action Component Eff unit :=
  (if status error =? 0 then
     modify (set_errorMessage
       "Cannot connect to server. Please check if the backend is running.")
   else if status error =? 401 then
     modify (set_errorMessage "Unauthorized. Please login again.") ;;
     emit (SetTimeout 2000 (NavigateTo "/home"))
   else if status error =? 404 then
     modify (set_errorMessage "No bookings found.")
   else if 500 <=? status error then
     modify (set_errorMessage "Server error. Please try again later.")
   else
     modify (set_errorMessage
       (server_message_or error "An unexpected error occurred."))) ;;
  c <- get ;;
  showError (errorMessage c).

(** The comparators handed to [sort]. *)
Definition byCheckinAscending (a b : BookingResponse.t) : number :=
  num_sub (getTime (new_Date (BookingResponse.checkinDate a)))
          (getTime (new_Date (BookingResponse.checkinDate b))).

Definition byCheckinDescending (a b : BookingResponse.t) : number :=
  num_sub (getTime (new_Date (BookingResponse.checkinDate b)))
          (getTime (new_Date (BookingResponse.checkinDate a))).

(** The body of [allBookings.forEach((booking) => ...)] in
    [processBookings]. *)
Definition processBookings_each (today : Date) (c : Component)
  (booking : BookingResponse.t) : Component :=
  let checkinDate := setHours0 (new_Date (BookingResponse.checkinDate booking)) in
  let checkoutDate := setHours0 (new_Date (BookingResponse.checkoutDate booking)) in
  if String.eqb (BookingResponse.isBookingStatus booking) "CONFIRMED"
     || String.eqb (BookingResponse.isBookingStatus booking) "PENDING"
  then
    if Date_gt checkinDate today then
      set_buckets (upcomingBookings c ++ [booking]) (pastBookings c)
        (currentBookings c) c
    else if Date_le checkinDate today && Date_ge checkoutDate today then
      set_buckets (upcomingBookings c) (pastBookings c)
        (currentBookings c ++ [booking]) c
    else
      set_buckets (upcomingBookings c) (pastBookings c ++ [booking])
        (currentBookings c) c
  else
    set_buckets (upcomingBookings c) (pastBookings c ++ [booking])
      (currentBookings c) c.

(** [private processBookings()], run when the clock reads [now]. *)
Definition processBookings (now : Z) (c : Component) : Component :=
  let today := today_of now in
  let c0 := set_buckets [] [] [] c in
  let c1 := fold_left (processBookings_each today) (allBookings c0) c0 in
  set_buckets
    (Array_sort byCheckinAscending (upcomingBookings c1))
    (Array_sort byCheckinDescending (pastBookings c1))
    (Array_sort byCheckinAscending (currentBookings c1))
    c1.

(** [loadBookings()] up to the fetch. *)
Definition loadBookings : Action Component Eff unit :=
  modify (set_isLoading true) ;;
  modify (set_errorMessage "") ;;
  c <- get ;;
  match session_userId c with
  | None | Some "" =>
      showError "Please login first" ;;
      emit (Navigate "/home")
  | Some userIdStr =>
      let userId := parseInt10 userIdStr in
      emit (Http (Get_viewBooking userId))
  end.

(** The [next] callback of the fetch; the clock reads [now]. *)
Definition loadBookings_next (now : Z)
  (response : ApiResponse (list BookingResponse.t)) : Action Component Eff unit :=
  (match success response, data response with
   | true, Some bookings =>
       modify (set_allBookings bookings) ;;
       modify (processBookings now) ;;
       showSuccess "Bookings loaded successfully"
   | _, _ => showError "Failed to load bookings"
   end) ;;
  modify (set_isLoading false).

(** The [error] callback of the fetch. *)
Definition loadBookings_error (error : HttpErrorResponse)
  : Action Component Eff unit :=
  handleError "Failed to load bookings" error ;;
  modify (set_isLoading false).

(** [cancelBooking(booking)]; [confirmed] is the answer to the [confirm]
    dialog. *)
Definition cancelBooking (booking : BookingResponse.t) (confirmed : bool)
  : Action Component Eff unit :=
  if negb confirmed then ret tt
  else
    modify (set_isCancelling true) ;;
    modify (set_errorMessage "") ;;
    emit (Http (Delete_cancelBooking (BookingResponse.bookingId booking))).

(** The [next] callback of the cancel call. *)
Definition cancelBooking_next (response : ApiResponse unit)
  : Action Component Eff unit :=
  (if success response then
     showSuccess "Booking cancelled successfully" ;;
     loadBookings
   else showError (str_or (message response) "Failed to cancel booking")) ;;
  modify (set_isCancelling false).

(** The [error] callback of the cancel call. *)
Definition cancelBooking_error (error : HttpErrorResponse)
  : Action Component Eff unit :=
  handleError "Failed to cancel booking" error ;;
  modify (set_isCancelling false).

(** [modifyBooking(booking)]: opens the dialog with the booking's data. *)
Definition modifyBooking (now : Z) (booking : BookingResponse.t)
  : Action Component Eff unit :=
  modify (fun c =>
    set_dialog (Some booking) true
      (FormGroup_patchValue now
         {| checkinDate := Some (new_Date (BookingResponse.checkinDate booking));
            checkoutDate := Some (new_Date (BookingResponse.checkoutDate booking));
            hasExtraCot := Some (BookingResponse.hasExtraCot booking);
            hasDeepClean := Some (BookingResponse.hasDeepClean booking) |}
         (modifyForm c)) c).

(** [closeModifyDialog()] *)
Definition closeModifyDialog : Action Component Eff unit :=
  modify (set_dialog None false FormGroup_reset) ;;
  modify (set_errorMessage "").

(** [private formatDateForAPI(date)]: [''] for an empty control,
    [None] where [toISOString] throws. *)
Definition formatDateForAPI (date : option Date) : option string :=
  match date with
  | None => Some ""
  | Some d =>
      match getTime d with
      | Num t => Some (toISODate t)
      | NaN => None
      end
  end.

(** [submitModifyBooking()] up to the modify call. *)
Definition submitModifyBooking : Action Component Eff unit :=
  c <- get ;;
  match FormGroup_invalid (modifyForm c), selectedBooking c with
  | false, Some selected =>
      modify (set_isModifying true) ;;
      modify (set_errorMessage "") ;;
      let fv := value (modifyForm c) in
      match formatDateForAPI (checkinDate fv), formatDateForAPI (checkoutDate fv) with
      | Some cin, Some cout =>
          let modifyRequest :=
            {| mr_bookingId := BookingResponse.bookingId selected;
               mr_checkinDate := cin;
               mr_checkoutDate := cout;
               mr_hasExtraCot := hasExtraCot fv;
               mr_hasDeepClean := hasDeepClean fv |} in
          emit (Http (Put_modifyBooking modifyRequest))
      | _, _ => emit (Throw "RangeError")
      end
  | _, _ =>
      modify (fun c => set_dialog (selectedBooking c) (showModifyDialog c)
                         (markFormGroupTouched (modifyForm c)) c)
  end.

(** The [next] callback of the modify call. *)
Definition submitModifyBooking_next (response : ApiResponse unit)
  : Action Component Eff unit :=
  (if success response then
     showSuccess "Booking modified successfully" ;;
     closeModifyDialog ;;
     loadBookings
   else showError (str_or (message response) "Failed to modify booking")) ;;
  modify (set_isModifying false).

(** The [error] callback of the modify call. *)
Definition submitModifyBooking_error (error : HttpErrorResponse)
  : Action Component Eff unit :=
  handleError "Failed to modify booking" error ;;
  modify (set_isModifying false).

(** [calculateNights(checkinDate: string, checkoutDate: string)], the
    copy of the bookings view. *)
Definition calculateNights (checkinDate checkoutDate : string) : number :=
  let checkin := new_Date checkinDate in
  let checkout := new_Date checkoutDate in
  let diffTime := num_sub (getTime checkout) (getTime checkin) in
  Math_ceil_div diffTime (1000 * 60 * 60 * 24).

(** [isBookingActionable(booking)], asked when the clock reads [now];
    here [today] is the clock as it is, not the start of the day. *)
Definition isBookingActionable (now : Z) (booking : BookingResponse.t) : bool :=
  let today := Date_now now in
  let checkinDate := new_Date (BookingResponse.checkinDate booking) in
  let checkoutDate := new_Date (BookingResponse.checkoutDate booking) in
  String.eqb (BookingResponse.isBookingStatus booking) "CONFIRMED"
  && Date_gt checkinDate today
  && Date_gt checkoutDate today.

End Methods.

End MyBookingsComponent.

(* ====================================================================== *)
(** * client-dashboard.component.ts                                        *)
(* ====================================================================== *)

Module ClientDashboardComponent.

(** The booking lists of the dashboard. *)
Record Component : Type := {
  allBookings : list BookingResponse.t;
  upcomingBookings : list BookingResponse.t;
  pastBookings : list BookingResponse.t;
  recentBookings : list BookingResponse.t
}.

Definition set_buckets (up past : list BookingResponse.t) (c : Component)
  : Component :=
  {| allBookings := allBookings c; upcomingBookings := up;
     pastBookings := past; recentBookings := recentBookings c |}.

Definition set_recentBookings (l : list BookingResponse.t) (c : Component)
  : Component :=
  {| allBookings := allBookings c; upcomingBookings := upcomingBookings c;
     pastBookings := pastBookings c; recentBookings := l |}.

Section Methods.
Context {host : Host}.

Definition byCheckinAscending (a b : BookingResponse.t) : number :=
  num_sub (getTime (new_Date (BookingResponse.checkinDate a)))
          (getTime (new_Date (BookingResponse.checkinDate b))).

Definition byCheckinDescending (a b : BookingResponse.t) : number :=
  num_sub (getTime (new_Date (BookingResponse.checkinDate b)))
          (getTime (new_Date (BookingResponse.checkinDate a))).

(** The body of [allBookings.forEach((booking) => ...)] in
    [processBookings]. *)
Definition processBookings_each (today : Date) (c : Component)
  (booking : BookingResponse.t) : Component :=
  let checkinDate := setHours0 (new_Date (BookingResponse.checkinDate booking)) in
  if (String.eqb (BookingResponse.isBookingStatus booking) "CONFIRMED"
      || String.eqb (BookingResponse.isBookingStatus booking) "PENDING")
     && Date_ge checkinDate today
  then set_buckets (upcomingBookings c ++ [booking]) (pastBookings c) c
  else set_buckets (upcomingBookings c) (pastBookings c ++ [booking]) c.

(** [private processBookings()], run when the clock reads [now]. *)
Definition processBookings (now : Z) (c : Component) : Component :=
  let today := today_of now in
  let c0 := set_buckets [] [] c in
  let c1 := fold_left (processBookings_each today) (allBookings c0) c0 in
  let c2 :=
    set_buckets
      (Array_sort byCheckinAscending (upcomingBookings c1))
      (Array_sort byCheckinDescending (pastBookings c1))
      c1 in
  set_recentBookings
    (Array_slice0 5 (Array_sort byCheckinDescending (allBookings c2)))
    c2.

End Methods.

(** [interface ComplaintResponse] *)
Module ComplaintResponse.
Record t : Type := {
  complaintId : Z;
  userId : Z;
  username : string;
  bookingId : Z;
  complaintDescription : string;
  complaintStatus : string;
  complaintType : string;
  complaintDate : string
}.
End ComplaintResponse.

(** [interface DashboardStats] *)
Module DashboardStats.
Record t : Type := {
  totalBookings : Z;
  upcomingBookings : Z;
  pastBookings : Z;
  completedBookings : Z;
  cancelledBookings : Z;
  activeComplaints : Z;
  resolvedComplaints : Z
}.
End DashboardStats.

(** The fields of the dashboard beside the booking lists: the complaints
    and the statistics. *)
Record Summary : Type := {
  allComplaints : list ComplaintResponse.t;
  activeComplaints : list ComplaintResponse.t;
  stats : DashboardStats.t
}.

(** [arr.length] *)
Definition Array_length {A : Type} (l : list A) : Z := Z.of_nat (List.length l).

(** [private calculateBookingStats()] *)
Definition calculateBookingStats (c : Component) (s : Summary) : Summary :=
  {| allComplaints := allComplaints s;
     activeComplaints := activeComplaints s;
     stats :=
       {| DashboardStats.totalBookings := Array_length (allBookings c);
          DashboardStats.upcomingBookings := Array_length (upcomingBookings c);
          DashboardStats.pastBookings := Array_length (pastBookings c);
          DashboardStats.completedBookings :=
            Array_length
              (filter (fun b => String.eqb (BookingResponse.isBookingStatus b)
                                  "COMPLETED")
                 (allBookings c));
          DashboardStats.cancelledBookings :=
            Array_length
              (filter (fun b => String.eqb (BookingResponse.isBookingStatus b)
                                  "CANCELLED")
                 (allBookings c));
          DashboardStats.activeComplaints :=
            DashboardStats.activeComplaints (stats s);
          DashboardStats.resolvedComplaints :=
            DashboardStats.resolvedComplaints (stats s) |} |}.



(** The [next] callback of the bookings fetch, for a response with
    [success] and [data]: the list is stored, classified and counted. *)
Definition loadBookings_stored {host : Host} (now : Z)
  (bookings : list BookingResponse.t) (c : Component) (s : Summary)
  : Component * Summary :=
  let c1 := {| allBookings := bookings;
               upcomingBookings := upcomingBookings c;
               pastBookings := pastBookings c;
               recentBookings := recentBookings c |} in
  let c2 := processBookings now c1 in
  (c2, calculateBookingStats c2 s).


End ClientDashboardComponent.

(* ====================================================================== *)
(** * Vocabulary of the properties, and sample data                        *)
(* ====================================================================== *)

(** [x] comes no later than [y] in the order of the integer key [key]. *)
Definition key_le {A : Type} (key : A -> Z) (x y : A) : Prop := key x <= key y.

(** The validator's verdict stored in a form group is the verdict on the
    group's value at some moment: every way of changing the value re-runs
    the validator. *)
Definition FormGroup_validated {host : Host} (tv : Z)
  (f : PropertyDetailsComponent.FormGroup) : Prop :=
  PropertyDetailsComponent.errors f
  = PropertyDetailsComponent.dateRangeValidator tv
      (PropertyDetailsComponent.value f).

(** The payment form can go out: an account number that is not blank, and
    payment data from the property page. *)
Definition ready (c : PaymentPageComponent.Component) : Prop :=
  String.eqb (PaymentPageComponent.accountNumber c) "" = false
  /\ String.eqb (trim (PaymentPageComponent.accountNumber c)) "" = false
  /\ PaymentPageComponent.paymentData c <> None.

(** The text the payment page's [handleError] leaves in the error banner
    (lemma [handleError_errorMessage]). *)
Definition handleError_text (e : HttpErrorResponse) : string :=
  if status e =? 0 then
    "Cannot connect to server. Please check if the backend is running."
  else if status e =? 401 then "Unauthorized. Please login again."
  else if 500 <=? status e then "Server error. Please try again later."
  else server_message_or e "An unexpected error occurred.".

Section BucketTests.
Context {host : Host}.

(** The tests of the [forEach] body of the bookings view, one per bucket
    (lemma [processBookings_each_cases]). *)
Definition activeStatus (b : BookingResponse.t) : bool :=
  String.eqb (BookingResponse.isBookingStatus b) "CONFIRMED"
  || String.eqb (BookingResponse.isBookingStatus b) "PENDING".

Definition startedBy (today : Date) (b : BookingResponse.t) : bool :=
  Date_le (setHours0 (new_Date (BookingResponse.checkinDate b))) today.

Definition goesUpcoming (today : Date) (b : BookingResponse.t) : bool :=
  activeStatus b
  && Date_gt (setHours0 (new_Date (BookingResponse.checkinDate b))) today.

Definition goesCurrent (today : Date) (b : BookingResponse.t) : bool :=
  activeStatus b
  && negb (Date_gt (setHours0 (new_Date (BookingResponse.checkinDate b))) today)
  && (startedBy today b
      && Date_ge (setHours0 (new_Date (BookingResponse.checkoutDate b))) today).

Definition goesPast (today : Date) (b : BookingResponse.t) : bool :=
  negb (goesUpcoming today b) && negb (goesCurrent today b).

(** The test of the [forEach] body of the dashboard (lemma
    [dashboard_forEach]). *)
Definition goesUpcomingOnDashboard (today : Date) (b : BookingResponse.t) : bool :=
  activeStatus b
  && Date_ge (setHours0 (new_Date (BookingResponse.checkinDate b))) today.

(** [x] does not check in before [y]: the order of a list sorted
    descending by check-in. *)
Definition checkin_not_before (x y : BookingResponse.t) : Prop :=
  num_ge (getTime (new_Date (BookingResponse.checkinDate x)))
         (getTime (new_Date (BookingResponse.checkinDate y))) = true.

End BucketTests.

(** The booking with its status replaced by [g] of it. *)
Definition with_status (g : BookingResponse.t -> string) (b : BookingResponse.t)
  : BookingResponse.t :=
  {| BookingResponse.bookingId := BookingResponse.bookingId b;
     BookingResponse.propertyId := BookingResponse.propertyId b;
     BookingResponse.propertyName := BookingResponse.propertyName b;
     BookingResponse.propertyImage := BookingResponse.propertyImage b;
     BookingResponse.city := BookingResponse.city b;
     BookingResponse.userId := BookingResponse.userId b;
     BookingResponse.username := BookingResponse.username b;
     BookingResponse.checkinDate := BookingResponse.checkinDate b;
     BookingResponse.checkoutDate := BookingResponse.checkoutDate b;
     BookingResponse.isPaymentStatus := BookingResponse.isPaymentStatus b;
     BookingResponse.isBookingStatus := g b;
     BookingResponse.hasExtraCot := BookingResponse.hasExtraCot b;
     BookingResponse.hasDeepClean := BookingResponse.hasDeepClean b |}.

(** The dashboard holding the bookings [l], nothing classified yet. *)
Definition dashboardOf (l : list BookingResponse.t)
  : ClientDashboardComponent.Component :=
  {| ClientDashboardComponent.allBookings := l;
     ClientDashboardComponent.upcomingBookings := [];
     ClientDashboardComponent.pastBookings := [];
     ClientDashboardComponent.recentBookings := [] |}.

(** A calendar day at UTC midnight. *)
Definition utc_day (y m d : Z) : Date :=
  DateOf (Num (days_from_civil y m d * msPerDay)).

(** Nine in the morning (UTC) of 2025-06-01. *)
Definition morningOf20250601 : Z := 1748736000000 + 9 * 3600000.

(** A payment page ready to submit: data for a three-night stay and a
    typed account number. *)
Definition samplePaymentData : PaymentData.t :=
  {| PaymentData.propertyId := 12;
     PaymentData.propertyName := "Lake House";
     PaymentData.propertyImage := "lake.jpg";
     PaymentData.propertyLocation := "Ooty, Tamil Nadu";
     PaymentData.pricePerNight := 2000;
     PaymentData.bookingId := None;
     PaymentData.checkinDate := "2025-01-10";
     PaymentData.checkoutDate := "2025-01-13";
     PaymentData.numberOfNights := Num 3;
     PaymentData.maxGuests := 4;
     PaymentData.hasExtraCot := false;
     PaymentData.hasDeepClean := false;
     PaymentData.totalAmount := Num 6000;
     PaymentData.userId := Num 7 |}.

Definition samplePaymentPage : PaymentPageComponent.Component :=
  {| PaymentPageComponent.paymentData := Some samplePaymentData;
     PaymentPageComponent.accountNumber := "ACC-1001";
     PaymentPageComponent.isProcessing := false;
     PaymentPageComponent.errorMessage := "";
     PaymentPageComponent.successMessage := "" |}.

(** An HTTP error with status 0: the server could not be reached. *)
Definition serverUnreachable : HttpErrorResponse :=
  {| status := 0; error_message := None |}.

(** A booking with the given identifier, stay and status. *)
Definition sampleBooking (id : Z) (checkin checkout status : string)
  : BookingResponse.t :=
  {| BookingResponse.bookingId := id;
     BookingResponse.propertyId := 12;
     BookingResponse.propertyName := "Lake House";
     BookingResponse.propertyImage := "lake.jpg";
     BookingResponse.city := "Ooty";
     BookingResponse.userId := 7;
     BookingResponse.username := "asha";
     BookingResponse.checkinDate := checkin;
     BookingResponse.checkoutDate := checkout;
     BookingResponse.isPaymentStatus := true;
     BookingResponse.isBookingStatus := status;
     BookingResponse.hasExtraCot := false;
     BookingResponse.hasDeepClean := false |}.

(** The bookings page holding the bookings [l], nothing classified yet. *)
Definition sampleBookingsPage (l : list BookingResponse.t)
  : MyBookingsComponent.Component :=
  {| MyBookingsComponent.allBookings := l;
     MyBookingsComponent.upcomingBookings := [];
     MyBookingsComponent.pastBookings := [];
     MyBookingsComponent.currentBookings := [];
     MyBookingsComponent.isLoading := false;
     MyBookingsComponent.isCancelling := false;
     MyBookingsComponent.isModifying := false;
     MyBookingsComponent.selectedBooking := None;
     MyBookingsComponent.showModifyDialog := false;
     MyBookingsComponent.errorMessage := "";
     MyBookingsComponent.successMessage := "";
     MyBookingsComponent.modifyForm := MyBookingsComponent.FormGroup_reset;
     MyBookingsComponent.session_userId := Some "7" |}.

Definition fourStays : list BookingResponse.t :=
  [ sampleBooking 1 "2025-06-05" "2025-06-08" "CONFIRMED";
    sampleBooking 2 "2025-05-28" "2025-06-03" "CONFIRMED";
    sampleBooking 3 "2025-05-01" "2025-05-05" "CONFIRMED";
    sampleBooking 4 "2030-01-01" "2030-01-05" "CANCELLED" ].

Definition sevenStays : list BookingResponse.t :=
  [ sampleBooking 1 "2025-06-05" "2025-06-08" "CONFIRMED";
    sampleBooking 2 "2025-05-28" "2025-06-03" "CONFIRMED";
    sampleBooking 3 "2025-05-01" "2025-05-05" "COMPLETED";
    sampleBooking 4 "2030-01-01" "2030-01-05" "CANCELLED";
    sampleBooking 5 "2025-06-05" "2025-06-06" "PENDING";
    sampleBooking 6 "2024-12-24" "2024-12-27" "COMPLETED";
    sampleBooking 7 "2025-07-15" "2025-07-20" "PENDING" ].

Definition stayToCancel : BookingResponse.t :=
  sampleBooking 1 "2025-06-05" "2025-06-08" "CONFIRMED".

(** The bookings page while a cancellation and a modification of booking 1
    are outstanding: both flags are up, the dialog still holds the valid
    dates it was opened with. *)
Definition busyBookingsPage : MyBookingsComponent.Component :=
  {| MyBookingsComponent.allBookings := fourStays;
     MyBookingsComponent.upcomingBookings := [stayToCancel];
     MyBookingsComponent.pastBookings := [];
     MyBookingsComponent.currentBookings := [];
     MyBookingsComponent.isLoading := false;
     MyBookingsComponent.isCancelling := true;
     MyBookingsComponent.isModifying := true;
     MyBookingsComponent.selectedBooking := Some stayToCancel;
     MyBookingsComponent.showModifyDialog := true;
     MyBookingsComponent.errorMessage := "";
     MyBookingsComponent.successMessage := "";
     MyBookingsComponent.modifyForm :=
       MyBookingsComponent.FormGroup_patchValue (host := utcHost)
         morningOf20250601
         {| MyBookingsComponent.checkinDate := Some (utc_day 2025 6 6);
            MyBookingsComponent.checkoutDate := Some (utc_day 2025 6 9);
            MyBookingsComponent.hasExtraCot := Some false;
            MyBookingsComponent.hasDeepClean := Some false |}
         MyBookingsComponent.FormGroup_reset;
     MyBookingsComponent.session_userId := Some "7" |}.

(** What the user can do with the booking form of the property page. *)
Inductive StepperEvent : Type :=
| OpensForm (now : Z)
| ClosesForm (now : Z)
| EditsForm (now : Z) (v : PropertyDetailsComponent.BookingFormValue)
| PressesNext
| PressesBack.

Section StepperRuns.
Context {host : Host}.

Definition stepper_handler (e : StepperEvent)
  : Action PropertyDetailsComponent.Component PropertyDetailsComponent.Eff unit :=
  match e with
  | OpensForm now => PropertyDetailsComponent.openBookingForm now
  | ClosesForm now => PropertyDetailsComponent.closeBookingForm now
  | EditsForm now v => PropertyDetailsComponent.userEditsForm now v
  | PressesNext => PropertyDetailsComponent.nextStep
  | PressesBack => PropertyDetailsComponent.previousStep
  end.

(** The component after the events [es], first to last. *)
Definition stepper_run (es : list StepperEvent)
  (c : PropertyDetailsComponent.Component) : PropertyDetailsComponent.Component :=
  fold_left (fun c e => state_after (stepper_handler e c)) es c.

(** [x] does not check in after [y]: the order of a list sorted
    ascending by check-in. *)
Definition checkin_not_after (x y : BookingResponse.t) : Prop :=
  num_le (getTime (new_Date (BookingResponse.checkinDate x)))
         (getTime (new_Date (BookingResponse.checkinDate y))) = true.

(** Every check-in string of [l] parses. *)
Definition checkins_parse (l : list BookingResponse.t) : Prop :=
  Forall (fun b => exists t, Date_parse (BookingResponse.checkinDate b) = Num t) l.

End StepperRuns.

(** The four booking lists of the bookings view. *)
Definition booking_lists (c : MyBookingsComponent.Component)
  : list BookingResponse.t * list BookingResponse.t
    * list BookingResponse.t * list BookingResponse.t :=
  (MyBookingsComponent.allBookings c, MyBookingsComponent.upcomingBookings c,
   MyBookingsComponent.currentBookings c, MyBookingsComponent.pastBookings c).

(** The bookings checking in on the date string [d]. *)
Definition checks_in_on (d : string) (b : BookingResponse.t) : bool :=
  String.eqb (BookingResponse.checkinDate b) d.

(** Only white space. *)
Fixpoint all_space (s : string) : bool :=
  match s with
  | String c rest => is_space c && all_space rest
  | EmptyString => true
  end.

(** The error objects of the two copies of the validator, matched. *)
Definition same_error (e : MyBookingsComponent.ValidationErrors)
  : PropertyDetailsComponent.ValidationErrors :=
  match e with
  | MyBookingsComponent.invalidDateRange => PropertyDetailsComponent.invalidDateRange
  | MyBookingsComponent.pastDate => PropertyDetailsComponent.pastDate
  end.

(** The payment page is asked to navigate with [pd] in the router state. *)
Definition goes_to_payment (pd : PaymentData.t)
  : PropertyDetailsComponent.Eff :=
  Navigate {| PropertyDetailsComponent.route := "/client/payment-page";
              PropertyDetailsComponent.nav_paymentData := Some pd |}.

(** The effect is an HTTP call or a navigation to the payment page. *)
Definition is_http_call {R T N : Type} (e : Effect R T N) : bool :=
  match e with
  | Http _ => true
  | _ => false
  end.

Definition is_payment_navigation (e : PropertyDetailsComponent.Eff) : bool :=
  match e with
  | Navigate n =>
      String.eqb (PropertyDetailsComponent.route n) "/client/payment-page"
  | _ => false
  end.

(** The complaint with the given identifier and status. *)
Definition sampleComplaint (id : Z) (status : string)
  : ClientDashboardComponent.ComplaintResponse.t :=
  {| ClientDashboardComponent.ComplaintResponse.complaintId := id;
     ClientDashboardComponent.ComplaintResponse.userId := 7;
     ClientDashboardComponent.ComplaintResponse.username := "asha";
     ClientDashboardComponent.ComplaintResponse.bookingId := 2;
     ClientDashboardComponent.ComplaintResponse.complaintDescription := "No hot water";
     ClientDashboardComponent.ComplaintResponse.complaintStatus := status;
     ClientDashboardComponent.ComplaintResponse.complaintType := "PROPERTY";
     ClientDashboardComponent.ComplaintResponse.complaintDate := "2025-05-30" |}.

(** The property of the sample stays, and a property page in step 2
    (Confirm) holding the valid stay 2025-06-06 to 2025-06-09 with deep
    clean chosen. *)
Definition sampleProperty : PropertyDetails.t :=
  {| PropertyDetails.propertyId := 12;
     PropertyDetails.propertyName := "Lake House";
     PropertyDetails.maxNoOfGuests := 4;
     PropertyDetails.pricePerDay := 2000;
     PropertyDetails.imageURL := "lake.jpg";
     PropertyDetails.city := "Ooty";
     PropertyDetails.state := "Tamil Nadu" |}.

Definition confirmPage : PropertyDetailsComponent.Component :=
  {| PropertyDetailsComponent.property := Some sampleProperty;
     PropertyDetailsComponent.propertyId := Some 12;
     PropertyDetailsComponent.currentStep := 2;
     PropertyDetailsComponent.showBookingForm := true;
     PropertyDetailsComponent.isLoading := false;
     PropertyDetailsComponent.isBooking := false;
     PropertyDetailsComponent.errorMessage := "";
     PropertyDetailsComponent.successMessage := "";
     PropertyDetailsComponent.bookingForm :=
       PropertyDetailsComponent.FormGroup_reset (host := utcHost)
         morningOf20250601
         {| PropertyDetailsComponent.checkinDate := Some (utc_day 2025 6 6);
            PropertyDetailsComponent.checkoutDate := Some (utc_day 2025 6 9);
            PropertyDetailsComponent.hasExtraCot := false;
            PropertyDetailsComponent.hasDeepClean := true |};
     PropertyDetailsComponent.session_userId := Some "7" |}.

(* ====================================================================== *)
(** * Properties                                                           *)
(* ====================================================================== *)

(** ** Arithmetic of the host *)

Lemma ceil_div_bounds (n d : Z) :
  0 < d -> d * (ceil_div n d - 1) < n <= d * ceil_div n d.
Proof.
  intros Hd. unfold ceil_div.
  pose proof (Z.div_mod (- n) d ltac:(lia)) as Hdm.
  pose proof (Z.mod_pos_bound (- n) d Hd) as Hmod.
  nia.
Qed.

Lemma num_lt_le (a b : number) : num_lt a b = true -> num_le a b = true.
Proof.
  destruct a, b; cbn; try discriminate.
  intros H. apply Z.ltb_lt in H. apply Z.leb_le. lia.
Qed.

Lemma num_le_antisym (a b : number) :
  num_le a b = true -> num_le b a = true -> a = b.
Proof.
  destruct a, b; cbn; try discriminate.
  intros H1 H2. apply Z.leb_le in H1, H2. f_equal. lia.
Qed.

Lemma num_le_lt_false (a b : number) :
  num_le a b = true -> num_lt b a = false.
Proof.
  destruct a, b; simpl; try reflexivity; try discriminate.
  intros H. apply Z.leb_le in H. apply Z.ltb_ge. exact H.
Qed.

(** ** The stable sort *)

Section StableSortFacts.
Context {A : Type}.
Variable cmp : A -> A -> number.

Lemma sort_insert_Permutation (x : A) (l : list A) :
  Permutation (sort_insert cmp x l) (x :: l).
Proof.
  induction l as [|y l IH]; simpl.
  - apply Permutation_refl.
  - destruct (sortCompare_sign (cmp x y) <=? 0).
    + apply Permutation_refl.
    + eapply perm_trans; [apply perm_skip, IH | apply perm_swap].
Qed.

Lemma Array_sort_Permutation (l : list A) :
  Permutation (Array_sort cmp l) l.
Proof.
  induction l as [|x l IH]; simpl.
  - apply perm_nil.
  - eapply perm_trans; [apply sort_insert_Permutation | apply perm_skip, IH].
Qed.

Lemma Array_sort_In (x : A) (l : list A) :
  In x (Array_sort cmp l) <-> In x l.
Proof.
  split; apply Permutation_in.
  - apply Array_sort_Permutation.
  - apply Permutation_sym, Array_sort_Permutation.
Qed.

Lemma Array_sort_length (l : list A) :
  List.length (Array_sort cmp l) = List.length l.
Proof. apply Permutation_length, Array_sort_Permutation. Qed.

(** When the comparator is the difference of an integer key on the
    elements at hand, the result is in key order. *)
Variable key : A -> Z.

Lemma sort_insert_sorted (x : A) (l : list A) :
  (forall y, In y l -> sortCompare_sign (cmp x y) = key x - key y) ->
  StronglySorted (key_le key) l ->
  StronglySorted (key_le key) (sort_insert cmp x l).
Proof.
  intros Hcmp Hs. induction Hs as [|y l Hs IH Hall]; simpl.
  - constructor; [constructor | constructor].
  - rewrite (Hcmp y (or_introl eq_refl)).
    destruct (key x - key y <=? 0) eqn:E.
    + apply Z.leb_le in E.
      constructor; [constructor; assumption |].
      constructor; [unfold key_le; lia |].
      eapply Forall_impl; [| exact Hall].
      unfold key_le. intros z Hz. lia.
    + apply Z.leb_gt in E.
      constructor.
      * apply IH. intros z Hz. apply Hcmp. right. exact Hz.
      * eapply Permutation_Forall.
        { apply Permutation_sym, sort_insert_Permutation. }
        constructor; [unfold key_le; lia | exact Hall].
Qed.

Lemma Array_sort_sorted (l : list A) :
  (forall x y, In x l -> In y l ->
     sortCompare_sign (cmp x y) = key x - key y) ->
  StronglySorted (key_le key) (Array_sort cmp l).
Proof.
  induction l as [|x l IH]; intros Hcmp; simpl.
  - constructor.
  - apply sort_insert_sorted.
    + intros y Hy. apply Hcmp; [left; reflexivity |].
      right. exact (proj1 (Array_sort_In y l) Hy).
    + apply IH. intros a b Ha Hb. apply Hcmp; right; assumption.
Qed.

End StableSortFacts.

Lemma StronglySorted_app_cross {A : Type} (R : A -> A -> Prop) (l1 l2 : list A) :
  StronglySorted R (l1 ++ l2) ->
  forall x y, In x l1 -> In y l2 -> R x y.
Proof.
  induction l1 as [|a l1 IH]; simpl; intros Hs x y Hx Hy.
  - contradiction.
  - inversion Hs as [|? ? Hs' Hall]; subst.
    destruct Hx as [<- | Hx].
    + rewrite Forall_forall in Hall. apply Hall, in_or_app. right. exact Hy.
    + apply (IH Hs' x y Hx Hy).
Qed.

Lemma firstn_In {A : Type} (n : nat) (l : list A) (x : A) :
  In x (firstn n l) -> In x l.
Proof.
  revert n. induction l as [|a l IH]; intros [|n]; simpl; try contradiction.
  intros [<- | Hx]; [left; reflexivity | right; apply (IH n Hx)].
Qed.

Lemma StronglySorted_firstn {A : Type} (R : A -> A -> Prop) (n : nat) (l : list A) :
  StronglySorted R l -> StronglySorted R (firstn n l).
Proof.
  intros Hs. revert n. induction Hs as [|a l Hs IH Hall]; intros [|n]; simpl;
    try constructor.
  - apply IH.
  - rewrite Forall_forall in *. intros x Hx. apply Hall.
    eapply firstn_In. exact Hx.
Qed.

(** Relabelling the elements without changing how they compare commutes
    with the sort. *)
Lemma Array_sort_map {A : Type} (cmp : A -> A -> number) (f : A -> A) (l : list A) :
  (forall a b, cmp (f a) (f b) = cmp a b) ->
  Array_sort cmp (map f l) = map f (Array_sort cmp l).
Proof.
  intros Hf. induction l as [|x l IH]; simpl; [reflexivity |].
  rewrite IH. generalize (Array_sort cmp l) as s.
  induction s as [|y s IHs]; simpl; [reflexivity |].
  rewrite Hf. destruct (sortCompare_sign (cmp x y) <=? 0); simpl.
  - reflexivity.
  - rewrite IHs. reflexivity.
Qed.


(** ** DateRangeRules and PriceCalculator (property-details) *)

Section PropertyDetailsFacts.
Import PropertyDetailsComponent.

(** C6. For date strings that parse, [calculateNights] is the ceiling of
    the millisecond difference (check-out minus check-in) over
    86,400,000: the one integer [n] with
    [86400000 * (n - 1) < diff <= 86400000 * n]; it is at least 1 when
    check-out is strictly after check-in; and [calculateTotalPrice] is
    the nightly rate times the night count. *)
Theorem C6_nights_ceiling_and_total {host : Host}
  (cin cout : string) (a b rate : Z) :
  Date_parse cin = Num a ->
  Date_parse cout = Num b ->
  exists n : Z,
    calculateNights cin cout = Num n
    /\ 86400000 * (n - 1) < b - a <= 86400000 * n
    /\ (a < b -> 1 <= n)
    /\ calculateTotalPrice (Num rate) (calculateNights cin cout) = Num (rate * n).
Proof.
  intros Ha Hb. unfold calculateNights, calculateTotalPrice, new_Date.
  cbn [getTime]. rewrite Ha, Hb. cbn [num_sub Math_ceil_div num_mul].
  change (1000 * 60 * 60 * 24) with 86400000.
  exists (ceil_div (b - a) 86400000).
  pose proof (ceil_div_bounds (b - a) 86400000 ltac:(lia)) as Hbnd.
  repeat split; try lia.
Qed.

(** The instance of the specification: three nights from 2025-01-10 to
    2025-01-13, and 6000 for three nights at 2000. *)
Lemma C6_nights_ceiling_and_total_witness :
  Date_parse (Host := utcHost) "2025-01-10" = Num 1736467200000
  /\ Date_parse (Host := utcHost) "2025-01-13" = Num 1736726400000
  /\ calculateNights (host := utcHost) "2025-01-10" "2025-01-13" = Num 3
  /\ calculateTotalPrice (Num 2000)
       (calculateNights (host := utcHost) "2025-01-10" "2025-01-13") = Num 6000.
Proof.
  split; [reflexivity | split; [reflexivity |]].
  destruct (C6_nights_ceiling_and_total (host := utcHost)
              "2025-01-10" "2025-01-13" 1736467200000 1736726400000 2000
              eq_refl eq_refl) as (n & Hn & Hbnd & _ & Htot).
  assert (n = 3) as -> by lia.
  split; assumption.
Defined.

(** C3 (as the code has it). With both dates present, the validator
    reports [invalidDateRange] exactly when check-out <= check-in; it
    reports [pastDate] exactly when the range is in order and check-in is
    before the start of today; it reports nothing exactly when neither
    holds.  The range check comes first and ends the validation, so one
    violation at most is reported. *)
Theorem C3_range_check_decides_first {host : Host}
  (now : Z) (cin cout : Date) (cot clean : bool) :
  let form := {| checkinDate := Some cin; checkoutDate := Some cout;
                 hasExtraCot := cot; hasDeepClean := clean |} in
  let r := dateRangeValidator now form in
  (r = Some invalidDateRange <-> Date_le cout cin = true)
  /\ (r = Some pastDate <->
        Date_le cout cin = false /\ Date_lt cin (today_of now) = true)
  /\ (r = None <->
        Date_le cout cin = false /\ Date_lt cin (today_of now) = false).
Proof.
  cbv zeta. unfold dateRangeValidator. cbn [checkinDate checkoutDate].
  destruct (Date_le cout cin); destruct (Date_lt cin (today_of now));
    repeat split; intros; try discriminate; try reflexivity;
    try (destruct H; discriminate); auto.
Qed.

(** C3, the claim as worded fails: on 2025-06-01 a stay from 2025-05-20
    to 2025-05-18 is both inverted and in the past, and the validator
    reports the range violation only. *)
Lemma C3_counterexample_both_violations_one_report :
  let now := 1748736000000 + 43200000 in
  let cin := utc_day 2025 5 20 in
  let cout := utc_day 2025 5 18 in
  let form := {| checkinDate := Some cin; checkoutDate := Some cout;
                 hasExtraCot := false; hasDeepClean := false |} in
  Date_le cout cin = true
  /\ Date_lt cin (today_of (host := utcHost) now) = true
  /\ dateRangeValidator (host := utcHost) now form = Some invalidDateRange
  /\ dateRangeValidator (host := utcHost) now form <> Some pastDate.
Proof.
  cbv zeta. repeat split; try reflexivity. discriminate.
Qed.


Lemma FormGroup_reset_validated {host : Host} (now : Z) (v : BookingFormValue) :
  FormGroup_validated now (FormGroup_reset now v).
Proof. reflexivity. Qed.

Lemma FormGroup_setValue_validated {host : Host}
  (now : Z) (v : BookingFormValue) (f : FormGroup) :
  FormGroup_validated now (FormGroup_setValue now v f).
Proof. reflexivity. Qed.

Lemma markDatesTouched_validated {host : Host} (tv : Z) (f : FormGroup) :
  FormGroup_validated tv f -> FormGroup_validated tv (markDatesTouched f).
Proof. intros H. exact H. Qed.

(** C5. In step 0 (Dates), [nextStep] moves to step 1 (Add-ons) exactly
    when both dates are present and the validator found no violation.
    With a date missing, with an inverted range or with a check-in in the
    past, the step stays 0 and the form's value is untouched; each of the
    three cases puts its own message in the error banner. *)
Theorem C5_dates_step_guard {host : Host} (tv : Z) (c : Component) :
  currentStep c = 0 ->
  FormGroup_validated tv (bookingForm c) ->
  let c' := state_after (nextStep c) in
  let v := value (bookingForm c) in
  value (bookingForm c') = v
  /\ (checkinDate v = None \/ checkoutDate v = None ->
        currentStep c' = 0
        /\ errorMessage c' = "Please select both check-in and check-out dates")
  /\ (dateRangeValidator tv v = Some invalidDateRange ->
        currentStep c' = 0
        /\ errorMessage c' = "Check-out date must be after check-in date")
  /\ (dateRangeValidator tv v = Some pastDate ->
        currentStep c' = 0
        /\ errorMessage c' = "Check-in date cannot be in the past")
  /\ (forall cin cout,
        checkinDate v = Some cin -> checkoutDate v = Some cout ->
        Date_le cout cin = true \/ Date_lt cin (today_of tv) = true ->
        currentStep c' = 0)
  /\ (currentStep c' = 1 <->
        checkinDate v <> None /\ checkoutDate v <> None
        /\ dateRangeValidator tv v = None).
Proof.
  intros Hstep Hval. unfold FormGroup_validated in Hval. cbv zeta.
  destruct c as [prop pid step show ld bk err ok form uid].
  destruct form as [v er t1 t2 t3 t4]. destruct v as [ci co cot clean].
  cbn [bookingForm value errors checkinDate checkoutDate currentStep] in *.
  subst step er.
  unfold nextStep, state_after, bind, get.
  cbn [fst snd currentStep bookingForm value errors checkinDate checkoutDate
       Z.eqb].
  destruct ci as [cin|], co as [cout|].
  - unfold dateRangeValidator. cbn [checkinDate checkoutDate].
    destruct (Date_le cout cin) eqn:Ele;
      [| destruct (Date_lt cin (today_of tv)) eqn:Elt]; cbn -[today_of];
      repeat split; intros; try discriminate; try congruence; auto.
    all: try (intuition (try discriminate; congruence)).
  - cbn. repeat split; intros; try discriminate; try congruence; auto.
    all: try (intuition (try discriminate; congruence)).
  - cbn. repeat split; intros; try discriminate; try congruence; auto.
    all: try (intuition (try discriminate; congruence)).
  - cbn. repeat split; intros; try discriminate; try congruence; auto.
    all: try (intuition (try discriminate; congruence)).
Qed.

(** On 2025-06-01 the user opens the booking form and enters the
    inverted stay 2025-05-20 to 2025-05-18: the step to Add-ons is
    refused with the range message. *)
Lemma C5_dates_step_guard_witness :
  let now := morningOf20250601 in
  let v := {| checkinDate := Some (utc_day 2025 5 20);
              checkoutDate := Some (utc_day 2025 5 18);
              hasExtraCot := false; hasDeepClean := false |} in
  let c0 := {| property := None; propertyId := Some 12; currentStep := 2;
               showBookingForm := false; isLoading := false;
               isBooking := false; errorMessage := ""; successMessage := "";
               bookingForm := FormGroup_reset (host := utcHost) now emptyFormValue;
               session_userId := Some "7" |} in
  let c := state_after
             (userEditsForm (host := utcHost) now v
                (state_after (openBookingForm (host := utcHost) now c0))) in
  currentStep c = 0
  /\ FormGroup_validated (host := utcHost) now (bookingForm c)
  /\ currentStep (state_after (nextStep (host := utcHost) c)) = 0
  /\ errorMessage (state_after (nextStep (host := utcHost) c))
     = "Check-out date must be after check-in date".
Proof.
  cbv zeta.
  split; [reflexivity | split; [reflexivity |]].
  match goal with
  | |- currentStep (state_after (nextStep ?c)) = _ /\ _ =>
      pose proof (C5_dates_step_guard (host := utcHost) morningOf20250601 c
                    eq_refl eq_refl) as H
  end.
  cbv zeta in H.
  destruct H as (_ & _ & Hrange & _).
  apply Hrange. reflexivity.
Defined.

End PropertyDetailsFacts.

(** ** PaymentOrchestrator (payment page) *)

Section PaymentPageFacts.
Import PaymentPageComponent.


Lemma processPayment_no_reserve_call (c : Component) :
  existsb is_reserve_call (effects_of (processPayment c)) = false.
Proof.
  unfold processPayment, effects_of, bind, get. cbn [fst snd].
  destruct (String.eqb (accountNumber c) "" || String.eqb (trim (accountNumber c)) "");
    [reflexivity |].
  destruct (paymentData c); reflexivity.
Qed.

Lemma handleError_no_reserve_call (ctx : string) (e : HttpErrorResponse) (c : Component) :
  existsb is_reserve_call (effects_of (handleError ctx e c)) = false.
Proof.
  unfold handleError.
  destruct (status e =? 0); [reflexivity |].
  destruct (status e =? 401); [reflexivity |].
  destruct (500 <=? status e); reflexivity.
Qed.

Lemma onCharge_reserve_call (charge : ChargeOutcome) (c : Component) :
  existsb is_reserve_call (effects_of (onCharge charge c)) = true ->
  charge = ChargeResult true.
Proof.
  destruct charge as [[|] | e]; cbn [onCharge].
  - reflexivity.
  - cbn. discriminate.
  - unfold processPayment_error, effects_of, bind. cbn [fst snd].
    pose proof (handleError_no_reserve_call "Payment processing failed" e c) as H.
    unfold effects_of in H. rewrite existsb_app, H. cbn. discriminate.
Qed.

Lemma attempt_effects_reserve_call (charge : ChargeOutcome)
  (reserve : ReserveOutcome) (c : Component) :
  existsb is_reserve_call (effects_of (attempt charge reserve c)) = true ->
  exists c1,
    existsb is_reserve_call (effects_of (onCharge charge c1)) = true.
Proof.
  unfold attempt. unfold then_on at 1.
  set (r := then_on is_charge_call processPayment (onCharge charge) c).
  destruct (existsb is_reserve_call (effects_of r)) eqn:E.
  - intros _. subst r. unfold then_on in E.
    destruct (existsb is_charge_call (effects_of (processPayment c))).
    + unfold effects_of in E at 1. cbn [snd] in E.
      rewrite existsb_app in E.
      rewrite processPayment_no_reserve_call in E. cbn [orb] in E.
      exists (state_after (processPayment c)). exact E.
    + rewrite processPayment_no_reserve_call in E. discriminate.
  - intros H. rewrite E in H. discriminate.
Qed.

(** C2. When the charge call reports [false], its callback issues no
    reservation-creation call, and neither does the attempt as a whole;
    a reservation-creation call appears among the effects of an attempt
    only when the charge call returned [true]. *)
Theorem C2_no_reservation_without_successful_charge
  (c : Component) (charge : ChargeOutcome) (reserve : ReserveOutcome) :
  existsb is_reserve_call (effects_of (processPayment_next false c)) = false
  /\ existsb is_reserve_call
       (effects_of (attempt (ChargeResult false) reserve c)) = false
  /\ (existsb is_reserve_call (effects_of (attempt charge reserve c)) = true ->
      charge = ChargeResult true).
Proof.
  split; [reflexivity |]. split.
  - destruct (existsb is_reserve_call
                (effects_of (attempt (ChargeResult false) reserve c))) eqn:E;
      [| reflexivity].
    apply attempt_effects_reserve_call in E. destruct E as [c1 E].
    apply onCharge_reserve_call in E. discriminate.
  - intros H. apply attempt_effects_reserve_call in H. destruct H as [c1 H].
    apply onCharge_reserve_call in H. exact H.
Qed.


Lemma handleError_errorMessage (ctx : string) (e : HttpErrorResponse) (c : Component) :
  errorMessage (state_after (handleError ctx e c)) = handleError_text e.
Proof.
  unfold handleError, handleError_text.
  destruct (status e =? 0); [reflexivity |].
  destruct (status e =? 401); [reflexivity |].
  destruct (500 <=? status e); reflexivity.
Qed.

Lemma str_or_nonempty (x d : string) : d <> "" -> str_or x d <> "".
Proof.
  intros Hd. unfold str_or. destruct (String.eqb x "") eqn:E; [exact Hd |].
  intros ->. discriminate.
Qed.

Lemma handleError_text_nonempty (e : HttpErrorResponse) : handleError_text e <> "".
Proof.
  unfold handleError_text, server_message_or.
  destruct (status e =? 0); [discriminate |].
  destruct (status e =? 401); [discriminate |].
  destruct (500 <=? status e); [discriminate |].
  destruct (error_message e); [apply str_or_nonempty |]; discriminate.
Qed.

Lemma attempt_ready_charge_ok (reserve : ReserveOutcome) (c : Component) :
  ready c ->
  exists c2,
    attempt (ChargeResult true) reserve c
    = (tt, state_after (onReserve reserve c2),
       effects_of (processPayment c)
       ++ effects_of (processPayment_next true (state_after (processPayment c)))
       ++ effects_of (onReserve reserve c2))
    /\ c2 = state_after (processPayment_next true (state_after (processPayment c))).
Proof.
  intros (Ha & Hb & Hpd).
  destruct (paymentData c) as [pd|] eqn:Epd; [| congruence].
  eexists. split; [| reflexivity].
  unfold attempt, then_on, processPayment, processPayment_next, makeBooking,
    showSuccess, state_after, effects_of, bind, get, modify, emit.
  cbn [fst snd]. rewrite Ha, Hb. cbn [orb]. rewrite Epd. cbn.
  rewrite ?Epd. cbn. rewrite ?Epd. cbn. reflexivity.
Qed.

Lemma attempt_ready_charge_error (e : HttpErrorResponse)
  (reserve : ReserveOutcome) (c : Component) :
  ready c ->
  errorMessage (state_after (attempt (ChargeError e) reserve c))
  = handleError_text e.
Proof.
  intros (Ha & Hb & Hpd).
  destruct (paymentData c) as [pd|] eqn:Epd; [| congruence].
  unfold attempt. unfold then_on at 1.
  assert (Hinner :
    then_on is_charge_call processPayment (onCharge (ChargeError e)) c
    = (tt, state_after (processPayment_error e (state_after (processPayment c))),
       effects_of (processPayment c)
       ++ effects_of (processPayment_error e (state_after (processPayment c))))).
  { unfold then_on, processPayment, state_after, effects_of, bind, get, modify, emit.
    cbn [fst snd]. rewrite Ha, Hb. cbn [orb]. rewrite Epd. cbn. reflexivity. }
  rewrite Hinner.
  assert (Hnone : existsb is_reserve_call
            (effects_of
               (tt, state_after (processPayment_error e (state_after (processPayment c))),
                effects_of (processPayment c)
                ++ effects_of (processPayment_error e (state_after (processPayment c)))))
          = false).
  { unfold effects_of at 1. cbn [snd]. rewrite existsb_app.
    rewrite processPayment_no_reserve_call. cbn [orb].
    destruct (existsb is_reserve_call
                (effects_of (processPayment_error e (state_after (processPayment c)))))
      eqn:E; [| reflexivity].
    apply (onCharge_reserve_call (ChargeError e)) in E. discriminate. }
  rewrite Hnone.
  unfold state_after at 1. cbn [fst snd].
  unfold processPayment_error, state_after, bind, modify. cbn [fst snd].
  cbn [set_isProcessing errorMessage].
  apply (handleError_errorMessage "Payment processing failed" e).
Qed.


(** C1, the claim as worded fails: the charge succeeds, the reservation
    call is issued and fails for want of a connection, and the error
    banner carries the connectivity text, the very text shown when the
    charge call itself cannot reach the server.  A later attempt whose
    charge fails that way leaves both banners as the partial commit left
    them. *)
Lemma C1_counterexample_partial_commit_reads_as_connectivity :
  let run := attempt (ChargeResult true) (ReserveError serverUnreachable)
               samplePaymentPage in
  let chargeDown := attempt (ChargeError serverUnreachable)
                      (ReserveError serverUnreachable) samplePaymentPage in
  let retry := attempt (ChargeError serverUnreachable)
                 (ReserveError serverUnreachable)
                 (state_after (userTypesAccount "ACC-1001" (state_after run))) in
  existsb is_charge_call (effects_of run) = true
  /\ existsb is_reserve_call (effects_of run) = true
  /\ existsb is_reserve_call (effects_of chargeDown) = false
  /\ errorMessage (state_after run)
     = "Cannot connect to server. Please check if the backend is running."
  /\ errorMessage (state_after run) = errorMessage (state_after chargeDown)
  /\ errorMessage (state_after retry) = errorMessage (state_after run)
  /\ successMessage (state_after retry) = successMessage (state_after run).
Proof.
  cbv zeta. repeat split; reflexivity.
Qed.

Lemma handleError_text_only_server_words (e : HttpErrorResponse) (m : string) :
  m <> "Cannot connect to server. Please check if the backend is running." ->
  m <> "Unauthorized. Please login again." ->
  m <> "Server error. Please try again later." ->
  m <> "An unexpected error occurred." ->
  handleError_text e = m -> error_message e = Some m.
Proof.
  intros H1 H2 H3 H4. unfold handleError_text, server_message_or.
  destruct (status e =? 0); [congruence |].
  destruct (status e =? 401); [congruence |].
  destruct (500 <=? status e); [congruence |].
  destruct (error_message e) as [s|]; [| congruence].
  unfold str_or. destruct (String.eqb s ""); congruence.
Qed.

(** C1 (as the code has it). When the charge succeeded and the
    reservation was not created, the error banner is never left empty:
    - a reservation response with [success = false] puts
      "Booking confirmation failed." in it and clears the success banner;
      [handleError] produces that text for no HTTP error except by
      relaying it from the server's own message;
    - a reservation call that fails at the HTTP level puts the text
      [handleError] derives from the status in it: the text a failed
      charge call with the same error produces. *)
Theorem C1_partial_commit_error_banner
  (c : Component) (r : ApiResponse unit) (e : HttpErrorResponse)
  (other : ReserveOutcome) :
  ready c ->
  let refused := state_after (attempt (ChargeResult true) (ReserveResponse r) c) in
  let failed := state_after (attempt (ChargeResult true) (ReserveError e) c) in
  (success r = false ->
     errorMessage refused = "Booking confirmation failed."
     /\ successMessage refused = "")
  /\ (forall e', handleError_text e' = "Booking confirmation failed." ->
        error_message e' = Some "Booking confirmation failed.")
  /\ errorMessage failed = handleError_text e
  /\ errorMessage failed
     = errorMessage (state_after (attempt (ChargeError e) other c))
  /\ errorMessage failed <> "".
Proof.
  intros Hready. cbv zeta.
  destruct (attempt_ready_charge_ok (ReserveResponse r) c Hready) as (c2 & Hr & _).
  destruct (attempt_ready_charge_ok (ReserveError e) c Hready) as (c3 & He & _).
  rewrite Hr, He. unfold state_after at 1 2 3 4 5. cbn [fst snd].
  split; [| split; [| split; [| split]]].
  - intros Hs. cbn [onReserve]. unfold makeBooking_next. rewrite Hs.
    split; reflexivity.
  - intros e' He'. apply handleError_text_only_server_words; try discriminate.
    exact He'.
  - apply (handleError_errorMessage "Failed to confirm booking" e).
  - rewrite (attempt_ready_charge_error e other c Hready).
    apply (handleError_errorMessage "Failed to confirm booking" e).
  - cbn [onReserve]. unfold makeBooking_error.
    change (errorMessage (state_after (handleError "Failed to confirm booking" e c3)) <> "").
    rewrite handleError_errorMessage. apply handleError_text_nonempty.
Qed.

(** A refused reservation after a successful charge, and one that died
    with a 503. *)
Lemma C1_partial_commit_error_banner_witness :
  let r := {| success := false; message := "Dates no longer available";
              data := None |} in
  let e := {| status := 503; error_message := None |} in
  ready samplePaymentPage
  /\ errorMessage (state_after
       (attempt (ChargeResult true) (ReserveResponse r) samplePaymentPage))
     = "Booking confirmation failed."
  /\ errorMessage (state_after
       (attempt (ChargeResult true) (ReserveError e) samplePaymentPage))
     = errorMessage (state_after
         (attempt (ChargeError e) (ReserveError e) samplePaymentPage)).
Proof.
  cbv zeta.
  assert (Hready : ready samplePaymentPage).
  { unfold ready. repeat split; try reflexivity. discriminate. }
  split; [exact Hready |].
  pose proof (C1_partial_commit_error_banner samplePaymentPage
    {| success := false; message := "Dates no longer available"; data := None |}
    {| status := 503; error_message := None |}
    (ReserveError {| status := 503; error_message := None |}) Hready) as H.
  cbv zeta in H. destruct H as (Hrefused & _ & _ & Hsame & _).
  split; [apply Hrefused; reflexivity | exact Hsame].
Defined.

End PaymentPageFacts.

(** ** BookingClassifier (my-bookings) *)

Section MyBookingsFacts.
Import MyBookingsComponent.
Context {host : Host}.


Lemma processBookings_each_cases (today : Date) (c : Component)
  (b : BookingResponse.t) :
  processBookings_each today c b
  = set_buckets
      (upcomingBookings c ++ (if goesUpcoming today b then [b] else []))
      (pastBookings c ++ (if goesPast today b then [b] else []))
      (currentBookings c ++ (if goesCurrent today b then [b] else []))
      c.
Proof.
  unfold processBookings_each, goesPast, goesUpcoming, goesCurrent, startedBy,
    activeStatus.
  destruct (String.eqb (BookingResponse.isBookingStatus b) "CONFIRMED"
            || String.eqb (BookingResponse.isBookingStatus b) "PENDING");
    cbn [andb negb].
  - destruct (Date_gt (setHours0 (new_Date (BookingResponse.checkinDate b))) today);
      cbn [andb negb]; rewrite ?app_nil_r; [reflexivity |].
    destruct (Date_le (setHours0 (new_Date (BookingResponse.checkinDate b))) today
              && Date_ge (setHours0 (new_Date (BookingResponse.checkoutDate b))) today);
      cbn [andb negb]; rewrite ?app_nil_r; reflexivity.
  - rewrite ?app_nil_r. reflexivity.
Qed.

Lemma processBookings_forEach (today : Date) (l : list BookingResponse.t)
  (c : Component) :
  fold_left (processBookings_each today) l c
  = set_buckets
      (upcomingBookings c ++ filter (goesUpcoming today) l)
      (pastBookings c ++ filter (goesPast today) l)
      (currentBookings c ++ filter (goesCurrent today) l)
      c.
Proof.
  revert c. induction l as [|b l IH]; intros c; cbn [fold_left filter].
  - rewrite !app_nil_r. destruct c; reflexivity.
  - rewrite IH, processBookings_each_cases.
    destruct c; unfold set_buckets;
      cbn [upcomingBookings pastBookings currentBookings allBookings isLoading
           isCancelling isModifying selectedBooking showModifyDialog
           errorMessage successMessage modifyForm session_userId].
    rewrite <- !app_assoc.
    destruct (goesUpcoming today b), (goesPast today b), (goesCurrent today b);
      reflexivity.
Qed.

(** [processBookings] in closed form: three filters of the full list,
    each sorted. *)
Lemma processBookings_closed_form (now : Z) (c : Component) :
  processBookings now c
  = set_buckets
      (Array_sort byCheckinAscending
         (filter (goesUpcoming (today_of now)) (allBookings c)))
      (Array_sort byCheckinDescending
         (filter (goesPast (today_of now)) (allBookings c)))
      (Array_sort byCheckinAscending
         (filter (goesCurrent (today_of now)) (allBookings c)))
      c.
Proof.
  unfold processBookings. cbv zeta. rewrite processBookings_forEach.
  destruct c; reflexivity.
Qed.

(** C9. Running the classifier again on its own result changes nothing:
    the buckets are emptied and rebuilt from [allBookings], which the
    classifier does not touch; and whatever the buckets held before the
    run has no influence on the result. *)
Theorem C9_classifier_rerun_identical (now : Z) (c : Component)
  (staleUpcoming stalePast staleCurrent : list BookingResponse.t) :
  processBookings now (processBookings now c) = processBookings now c
  /\ allBookings (processBookings now c) = allBookings c
  /\ processBookings now (set_buckets staleUpcoming stalePast staleCurrent c)
     = processBookings now c.
Proof.
  rewrite !processBookings_closed_form. destruct c; repeat split; reflexivity.
Qed.

Lemma processBookings_membership (now : Z) (c : Component) (b : BookingResponse.t) :
  In b (allBookings c) ->
  (In b (upcomingBookings (processBookings now c))
     <-> goesUpcoming (today_of now) b = true)
  /\ (In b (currentBookings (processBookings now c))
     <-> goesCurrent (today_of now) b = true)
  /\ (In b (pastBookings (processBookings now c))
     <-> goesPast (today_of now) b = true).
Proof.
  intros Hin. rewrite processBookings_closed_form.
  destruct c; cbn [set_buckets upcomingBookings currentBookings pastBookings
                   allBookings] in *.
  repeat split; intros H.
  - apply Array_sort_In, filter_In in H. apply H.
  - apply Array_sort_In, filter_In. split; assumption.
  - apply Array_sort_In, filter_In in H. apply H.
  - apply Array_sort_In, filter_In. split; assumption.
  - apply Array_sort_In, filter_In in H. apply H.
  - apply Array_sort_In, filter_In. split; assumption.
Qed.

Lemma activeStatus_true (b : BookingResponse.t) :
  BookingResponse.isBookingStatus b = "CONFIRMED"
  \/ BookingResponse.isBookingStatus b = "PENDING" ->
  activeStatus b = true.
Proof. unfold activeStatus. intros [-> | ->]; reflexivity. Qed.

Lemma activeStatus_false (b : BookingResponse.t) :
  BookingResponse.isBookingStatus b = "CANCELLED"
  \/ BookingResponse.isBookingStatus b = "COMPLETED" ->
  activeStatus b = false.
Proof. unfold activeStatus. intros [-> | ->]; reflexivity. Qed.

(** C4. Each booking of the list lands in exactly one bucket of the
    bookings view.  With status CONFIRMED or PENDING: in upcoming when
    its check-in day is after today; in current when
    check-in day <= today <= check-out day; in past in every other case.
    With status CANCELLED or COMPLETED: in past, whatever its dates.
    ("Day" is the date after [setHours(0, 0, 0, 0)]; today is taken once,
    before the loop.) *)
Theorem C4_three_bucket_rule (now : Z) (c : Component) (b : BookingResponse.t) :
  In b (allBookings c) ->
  let c' := processBookings now c in
  let today := today_of now in
  let checkin := setHours0 (new_Date (BookingResponse.checkinDate b)) in
  let checkout := setHours0 (new_Date (BookingResponse.checkoutDate b)) in
  let inUpcoming := In b (upcomingBookings c') /\ ~ In b (currentBookings c')
                    /\ ~ In b (pastBookings c') in
  let inCurrent := In b (currentBookings c') /\ ~ In b (upcomingBookings c')
                   /\ ~ In b (pastBookings c') in
  let inPast := In b (pastBookings c') /\ ~ In b (upcomingBookings c')
                /\ ~ In b (currentBookings c') in
  (BookingResponse.isBookingStatus b = "CONFIRMED"
   \/ BookingResponse.isBookingStatus b = "PENDING" ->
     (Date_gt checkin today = true -> inUpcoming)
     /\ (Date_le checkin today = true -> Date_le today checkout = true ->
         inCurrent)
     /\ (Date_gt checkin today = false ->
         Date_le checkin today && Date_le today checkout = false ->
         inPast))
  /\ (BookingResponse.isBookingStatus b = "CANCELLED"
      \/ BookingResponse.isBookingStatus b = "COMPLETED" -> inPast).
Proof.
  intros Hin. cbv zeta.
  destruct (processBookings_membership now c b Hin) as (Hu & Hc & Hp).
  rewrite Hu, Hc, Hp.
  unfold goesPast, goesCurrent, goesUpcoming, startedBy.
  change (Date_ge (setHours0 (new_Date (BookingResponse.checkoutDate b)))
            (today_of now))
    with (Date_le (today_of now)
            (setHours0 (new_Date (BookingResponse.checkoutDate b)))).
  split.
  - intros Hst. rewrite (activeStatus_true b Hst). cbn [andb].
    pose proof (num_le_lt_false
                  (getTime (setHours0 (new_Date (BookingResponse.checkinDate b))))
                  (getTime (today_of now))) as Hexcl.
    unfold Date_gt, num_gt, Date_le in *.
    destruct (num_lt (getTime (today_of now))
                (getTime (setHours0 (new_Date (BookingResponse.checkinDate b)))));
      destruct (num_le
                  (getTime (setHours0 (new_Date (BookingResponse.checkinDate b))))
                  (getTime (today_of now)));
      destruct (num_le (getTime (today_of now))
                  (getTime (setHours0 (new_Date (BookingResponse.checkoutDate b)))));
      cbn; repeat split; intros;
      try discriminate; try reflexivity;
      try (specialize (Hexcl eq_refl); discriminate);
      try (intros Hf; discriminate Hf).
  - intros Hst. rewrite (activeStatus_false b Hst). cbn.
    repeat split; try reflexivity; intros Hf; discriminate Hf.
Qed.

End MyBookingsFacts.


(** The buckets of the specification's examples, on 2025-06-01. *)
Example processBookings_on_20250601 :
  let c' := MyBookingsComponent.processBookings (host := utcHost)
              morningOf20250601 (sampleBookingsPage fourStays) in
  MyBookingsComponent.upcomingBookings c'
  = [sampleBooking 1 "2025-06-05" "2025-06-08" "CONFIRMED"]
  /\ MyBookingsComponent.currentBookings c'
     = [sampleBooking 2 "2025-05-28" "2025-06-03" "CONFIRMED"]
  /\ MyBookingsComponent.pastBookings c'
     = [sampleBooking 4 "2030-01-01" "2030-01-05" "CANCELLED";
        sampleBooking 3 "2025-05-01" "2025-05-05" "CONFIRMED"].
Proof. cbv zeta. repeat split; vm_compute; reflexivity. Qed.

(** The cancelled stay of January 2030 is in the past bucket and in no
    other. *)
Lemma C4_three_bucket_rule_witness :
  let b := sampleBooking 4 "2030-01-01" "2030-01-05" "CANCELLED" in
  let c' := MyBookingsComponent.processBookings (host := utcHost)
              morningOf20250601 (sampleBookingsPage fourStays) in
  In b (MyBookingsComponent.allBookings (sampleBookingsPage fourStays))
  /\ In b (MyBookingsComponent.pastBookings c')
  /\ ~ In b (MyBookingsComponent.upcomingBookings c')
  /\ ~ In b (MyBookingsComponent.currentBookings c').
Proof.
  cbv zeta.
  assert (Hin : In (sampleBooking 4 "2030-01-01" "2030-01-05" "CANCELLED")
                  (MyBookingsComponent.allBookings (sampleBookingsPage fourStays))).
  { cbn. right. right. right. left. reflexivity. }
  split; [exact Hin |].
  pose proof (C4_three_bucket_rule (host := utcHost) morningOf20250601
                (sampleBookingsPage fourStays) _ Hin) as H.
  cbv zeta in H. destruct H as (_ & Hgone).
  apply Hgone. left. reflexivity.
Defined.

(** ** CancellationManager and ModificationManager (my-bookings) *)

Section ManagersFacts.
Import MyBookingsComponent.
Context {host : Host}.

(** C7 (as the code has it). Each manager raises its busy flag before
    the request goes out and lowers it in both callbacks of the request.
    Neither method reads the flag: [cancelBooking], once the confirmation
    is accepted, issues exactly one cancel request for the booking, and
    [submitModifyBooking], with a valid form and a selected booking whose
    dates format, issues exactly one modify request, whether the flag is
    up or down when they are invoked.  A declined confirmation issues
    nothing and changes nothing. *)
Theorem C7_busy_flag_raised_and_lowered
  (c : Component) (booking : BookingResponse.t) (busy : bool)
  (r : ApiResponse unit) (e : HttpErrorResponse) :
  effects_of (cancelBooking booking true (set_isCancelling busy c))
  = [Http (Delete_cancelBooking (BookingResponse.bookingId booking))]
  /\ isCancelling (state_after (cancelBooking booking true (set_isCancelling busy c)))
     = true
  /\ cancelBooking booking false c = (tt, c, [])
  /\ isCancelling (state_after (cancelBooking_next r c)) = false
  /\ isCancelling (state_after (cancelBooking_error e c)) = false
  /\ (forall selected cin cout,
        FormGroup_invalid (modifyForm c) = false ->
        selectedBooking c = Some selected ->
        formatDateForAPI (checkinDate (value (modifyForm c))) = Some cin ->
        formatDateForAPI (checkoutDate (value (modifyForm c))) = Some cout ->
        effects_of (submitModifyBooking (set_isModifying busy c))
        = [Http (Put_modifyBooking
                   {| mr_bookingId := BookingResponse.bookingId selected;
                      mr_checkinDate := cin;
                      mr_checkoutDate := cout;
                      mr_hasExtraCot := hasExtraCot (value (modifyForm c));
                      mr_hasDeepClean := hasDeepClean (value (modifyForm c)) |})]
        /\ isModifying (state_after (submitModifyBooking (set_isModifying busy c)))
           = true)
  /\ isModifying (state_after (submitModifyBooking_next r c)) = false
  /\ isModifying (state_after (submitModifyBooking_error e c)) = false.
Proof.
  repeat split; try reflexivity.
  - unfold submitModifyBooking, effects_of, bind, get. cbn [fst snd].
    destruct c; cbn in *. rewrite H, H0. cbn. rewrite H1, H2. reflexivity.
  - unfold submitModifyBooking, state_after, bind, get. cbn [fst snd].
    destruct c; cbn in *. rewrite H, H0. cbn. rewrite H1, H2. reflexivity.
Qed.

End ManagersFacts.


(** C7, the claim as worded fails: with the busy flags up, a second
    [cancelBooking] (confirmation accepted) issues a second cancel
    request for the same booking, and a second [submitModifyBooking]
    issues a second modify request. *)
Lemma C7_counterexample_reentry_issues_second_request :
  MyBookingsComponent.isCancelling busyBookingsPage = true
  /\ effects_of (MyBookingsComponent.cancelBooking stayToCancel true busyBookingsPage)
     = [Http (MyBookingsComponent.Delete_cancelBooking 1)]
  /\ MyBookingsComponent.isModifying busyBookingsPage = true
  /\ effects_of (MyBookingsComponent.submitModifyBooking (host := utcHost)
                   busyBookingsPage)
     = [Http (MyBookingsComponent.Put_modifyBooking
                {| MyBookingsComponent.mr_bookingId := 1;
                   MyBookingsComponent.mr_checkinDate := "2025-06-06";
                   MyBookingsComponent.mr_checkoutDate := "2025-06-09";
                   MyBookingsComponent.mr_hasExtraCot := Some false;
                   MyBookingsComponent.mr_hasDeepClean := Some false |})].
Proof.
  repeat split; vm_compute; reflexivity.
Qed.

(** A modification submitted from the busy page: one request, flag up. *)
Lemma C7_busy_flag_raised_and_lowered_witness :
  MyBookingsComponent.FormGroup_invalid
    (MyBookingsComponent.modifyForm busyBookingsPage) = false
  /\ MyBookingsComponent.selectedBooking busyBookingsPage = Some stayToCancel
  /\ List.length
       (effects_of (MyBookingsComponent.submitModifyBooking (host := utcHost)
          (MyBookingsComponent.set_isModifying true busyBookingsPage))) = 1%nat
  /\ MyBookingsComponent.isModifying
       (state_after (MyBookingsComponent.submitModifyBooking (host := utcHost)
          (MyBookingsComponent.set_isModifying true busyBookingsPage))) = true.
Proof.
  split; [reflexivity | split; [reflexivity |]].
  pose proof (C7_busy_flag_raised_and_lowered (host := utcHost)
                busyBookingsPage stayToCancel true
                {| success := true; message := ""; data := None |}
                serverUnreachable) as H.
  destruct H as (_ & _ & _ & _ & _ & Hmod & _).
  destruct (Hmod stayToCancel "2025-06-06" "2025-06-09"
              eq_refl eq_refl eq_refl eq_refl) as (Heff & Hflag).
  split; [rewrite Heff; reflexivity | exact Hflag].
Defined.

(** ** The dashboard: the two-bucket classifier and the recent list *)


Section DashboardFacts.
Import ClientDashboardComponent.
Context {host : Host}.


Lemma dashboard_forEach (today : Date) (l : list BookingResponse.t)
  (c : Component) :
  fold_left (processBookings_each today) l c
  = set_buckets
      (upcomingBookings c ++ filter (goesUpcomingOnDashboard today) l)
      (pastBookings c
       ++ filter (fun b => negb (goesUpcomingOnDashboard today b)) l)
      c.
Proof.
  revert c. induction l as [|b l IH]; intros c; cbn [fold_left filter].
  - rewrite !app_nil_r. destruct c; reflexivity.
  - rewrite IH. unfold processBookings_each, goesUpcomingOnDashboard, activeStatus.
    destruct ((String.eqb (BookingResponse.isBookingStatus b) "CONFIRMED"
               || String.eqb (BookingResponse.isBookingStatus b) "PENDING")
              && Date_ge (setHours0 (new_Date (BookingResponse.checkinDate b))) today);
      destruct c; unfold set_buckets;
      cbn [upcomingBookings pastBookings allBookings recentBookings negb];
      rewrite <- ?app_assoc; reflexivity.
Qed.

Lemma dashboard_closed_form (now : Z) (c : Component) :
  processBookings now c
  = {| allBookings := allBookings c;
       upcomingBookings :=
         Array_sort byCheckinAscending
           (filter (goesUpcomingOnDashboard (today_of now)) (allBookings c));
       pastBookings :=
         Array_sort byCheckinDescending
           (filter (fun b => negb (goesUpcomingOnDashboard (today_of now) b))
              (allBookings c));
       recentBookings :=
         firstn 5 (Array_sort byCheckinDescending (allBookings c)) |}.
Proof.
  unfold processBookings. cbv zeta. rewrite dashboard_forEach.
  destruct c; reflexivity.
Qed.

Lemma filter_split_Permutation {A : Type} (f : A -> bool) (l : list A) :
  Permutation (filter f l ++ filter (fun x => negb (f x)) l) l.
Proof.
  induction l as [|x l IH]; cbn [filter]; [apply perm_nil |].
  destruct (f x); cbn [negb app].
  - apply perm_skip, IH.
  - apply Permutation_sym. eapply perm_trans.
    + apply perm_skip, Permutation_sym, IH.
    + apply Permutation_middle.
Qed.

Lemma byCheckinDescending_key (l : list BookingResponse.t) :
  Forall (fun b => exists t, Date_parse (BookingResponse.checkinDate b) = Num t) l ->
  exists key : BookingResponse.t -> Z,
    (forall x y, In x l -> In y l ->
       sortCompare_sign (byCheckinDescending x y) = key x - key y)
    /\ (forall x y, In x l -> In y l -> key x <= key y -> checkin_not_before x y).
Proof.
  intros Hall. rewrite Forall_forall in Hall.
  exists (fun b => match Date_parse (BookingResponse.checkinDate b) with
                   | Num t => - t
                   | NaN => 0
                   end).
  split; intros x y Hx Hy; destruct (Hall x Hx) as [tx Ex];
    destruct (Hall y Hy) as [ty Ey];
    unfold byCheckinDescending, checkin_not_before, new_Date, num_ge;
    cbn [getTime]; rewrite Ex, Ey; cbn [num_sub sortCompare_sign num_le].
  - lia.
  - intros H. apply Z.leb_le. lia.
Qed.

(** C8. The recent list is the first five entries of the full booking
    list sorted descending by check-in; it has min(5, n) entries, so five
    for a list of seven; it is itself in descending check-in order and no
    booking left out checks in after one that is kept.  It does not
    depend on the day of the run, and rewriting the statuses of the
    bookings (hence their buckets) leaves the same bookings in the same
    places. *)
Theorem C8_recent_is_top_five (now : Z) (c : Component) :
  let recent := recentBookings (processBookings now c) in
  let sorted := Array_sort byCheckinDescending (allBookings c) in
  recent = firstn 5 sorted
  /\ Permutation sorted (allBookings c)
  /\ List.length recent = Nat.min 5 (List.length (allBookings c))
  /\ (List.length (allBookings c) = 7%nat -> List.length recent = 5%nat)
  /\ (Forall (fun b => exists t,
                Date_parse (BookingResponse.checkinDate b) = Num t)
        (allBookings c) ->
      StronglySorted checkin_not_before sorted
      /\ StronglySorted checkin_not_before recent
      /\ (forall x y, In x recent -> In y (skipn 5 sorted) ->
            checkin_not_before x y))
  /\ (forall now', recentBookings (processBookings now' c) = recent)
  /\ (forall g,
        recentBookings
          (processBookings now (dashboardOf (map (with_status g) (allBookings c))))
        = map (with_status g) recent).
Proof.
  cbv zeta. rewrite dashboard_closed_form. cbn [recentBookings].
  split; [reflexivity |].
  split; [apply Array_sort_Permutation |].
  split; [rewrite length_firstn, Array_sort_length; reflexivity |].
  split.
  { intros H7. rewrite length_firstn, Array_sort_length, H7. reflexivity. }
  split.
  { intros Hvalid.
    destruct (byCheckinDescending_key (allBookings c) Hvalid) as (key & Hkey & Hord).
    assert (Hsorted : StronglySorted checkin_not_before
                        (Array_sort byCheckinDescending (allBookings c))).
    { pose proof (Array_sort_sorted byCheckinDescending key (allBookings c) Hkey)
        as Hs.
      assert (Hin : forall x, In x (Array_sort byCheckinDescending (allBookings c)) ->
                              In x (allBookings c)).
      { intros x. apply Array_sort_In. }
      revert Hs Hin.
      generalize (Array_sort byCheckinDescending (allBookings c)) as s.
      induction s as [|a s IHs]; intros Hs Hin; [constructor |].
      inversion Hs as [|? ? Hs' Hall']; subst.
      constructor.
      - apply IHs; [exact Hs' |]. intros x Hx. apply Hin. right. exact Hx.
      - rewrite Forall_forall in *. intros y Hy.
        apply Hord; [apply Hin; left; reflexivity | apply Hin; right; exact Hy |].
        apply Hall'. exact Hy. }
    split; [exact Hsorted |].
    split; [apply StronglySorted_firstn; exact Hsorted |].
    intros x y Hx Hy.
    apply (StronglySorted_app_cross checkin_not_before
             (firstn 5 (Array_sort byCheckinDescending (allBookings c)))
             (skipn 5 (Array_sort byCheckinDescending (allBookings c))));
      [rewrite firstn_skipn; exact Hsorted | exact Hx | exact Hy]. }
  split.
  { intros now'. rewrite dashboard_closed_form. reflexivity. }
  intros g. rewrite dashboard_closed_form. cbn [recentBookings allBookings dashboardOf].
  rewrite Array_sort_map; [| intros a b; reflexivity].
  rewrite firstn_map. reflexivity.
Qed.

Lemma dashboard_membership (now : Z) (c : Component) (b : BookingResponse.t) :
  In b (allBookings c) ->
  (In b (upcomingBookings (processBookings now c))
     <-> goesUpcomingOnDashboard (today_of now) b = true)
  /\ (In b (pastBookings (processBookings now c))
     <-> goesUpcomingOnDashboard (today_of now) b = false).
Proof.
  intros Hin. rewrite dashboard_closed_form.
  cbn [upcomingBookings pastBookings].
  repeat split; intros H.
  - apply Array_sort_In, filter_In in H. apply H.
  - apply Array_sort_In, filter_In. split; assumption.
  - apply Array_sort_In, filter_In in H. destruct H as [_ H].
    apply negb_true_iff in H. exact H.
  - apply Array_sort_In, filter_In. split; [assumption |].
    apply negb_true_iff. exact H.
Qed.

(** C10. On the dashboard every booking of the list is in exactly one of
    upcoming and past, and the two lists together are a rearrangement of
    the full list.  A CONFIRMED or PENDING booking is upcoming there
    exactly when its check-in day is today or later.  When its check-in
    day is today, the dashboard lists it as upcoming, while the bookings
    view, given the same booking and the same clock, lists it as current
    and not as upcoming (its check-out day not being before today). *)
Theorem C10_views_disagree_on_checkin_day
  (now : Z) (c : Component) (m : MyBookingsComponent.Component)
  (b : BookingResponse.t) :
  In b (allBookings c) ->
  let c' := processBookings now c in
  let m' := MyBookingsComponent.processBookings now m in
  let today := today_of now in
  let checkin := setHours0 (new_Date (BookingResponse.checkinDate b)) in
  let checkout := setHours0 (new_Date (BookingResponse.checkoutDate b)) in
  ((In b (upcomingBookings c') /\ ~ In b (pastBookings c'))
   \/ (In b (pastBookings c') /\ ~ In b (upcomingBookings c')))
  /\ Permutation (upcomingBookings c' ++ pastBookings c') (allBookings c)
  /\ (BookingResponse.isBookingStatus b = "CONFIRMED"
      \/ BookingResponse.isBookingStatus b = "PENDING" ->
      (In b (upcomingBookings c') <-> Date_ge checkin today = true)
      /\ (getTime checkin = getTime today ->
          In b (upcomingBookings c')
          /\ (In b (MyBookingsComponent.allBookings m) ->
              Date_le today checkout = true ->
              In b (MyBookingsComponent.currentBookings m')
              /\ ~ In b (MyBookingsComponent.upcomingBookings m')))).
Proof.
  intros Hin. cbv zeta.
  destruct (dashboard_membership now c b Hin) as (Hu & Hp).
  split; [| split].
  - rewrite Hu, Hp.
    destruct (goesUpcomingOnDashboard (today_of now) b);
      [left | right]; split; try reflexivity; discriminate.
  - rewrite dashboard_closed_form. cbn [upcomingBookings pastBookings].
    eapply perm_trans; [| apply (filter_split_Permutation
                                   (goesUpcomingOnDashboard (today_of now)))].
    apply Permutation_app; apply Array_sort_Permutation.
  - intros Hst. rewrite Hu. unfold goesUpcomingOnDashboard.
    rewrite (activeStatus_true b Hst). cbn [andb].
    split; [reflexivity |].
    intros Heq.
    assert (Hge : Date_ge (setHours0 (new_Date (BookingResponse.checkinDate b)))
                    (today_of now) = true).
    { unfold Date_ge, num_ge. rewrite Heq. cbn. apply Z.leb_refl. }
    split; [exact Hge |].
    intros Hm Hout.
    destruct (processBookings_membership now m b Hm) as (Hmu & Hmc & _).
    rewrite Hmu, Hmc. unfold goesCurrent, goesUpcoming, startedBy.
    rewrite (activeStatus_true b Hst). cbn [andb].
    change (Date_ge (setHours0 (new_Date (BookingResponse.checkoutDate b)))
              (today_of now))
      with (Date_le (today_of now)
              (setHours0 (new_Date (BookingResponse.checkoutDate b)))).
    rewrite Hout.
    unfold Date_gt, num_gt, Date_le. rewrite Heq. cbn.
    rewrite Z.ltb_irrefl, Z.leb_refl. cbn. split; [reflexivity | discriminate].
Qed.

End DashboardFacts.


Lemma sevenStays_dates_parse :
  Forall (fun b => exists t,
            Date_parse (Host := utcHost) (BookingResponse.checkinDate b) = Num t)
    sevenStays.
Proof.
  repeat constructor; eexists; vm_compute; reflexivity.
Qed.

(** Seven bookings of every status: five are kept, latest check-in first,
    the two stays of 2025-06-05 in their order of arrival. *)
Lemma C8_recent_is_top_five_witness :
  List.length (ClientDashboardComponent.allBookings (dashboardOf sevenStays)) = 7%nat
  /\ List.length
       (ClientDashboardComponent.recentBookings
          (ClientDashboardComponent.processBookings (host := utcHost)
             morningOf20250601 (dashboardOf sevenStays))) = 5%nat
  /\ StronglySorted (checkin_not_before (host := utcHost))
       (ClientDashboardComponent.recentBookings
          (ClientDashboardComponent.processBookings (host := utcHost)
             morningOf20250601 (dashboardOf sevenStays)))
  /\ map BookingResponse.bookingId
       (ClientDashboardComponent.recentBookings
          (ClientDashboardComponent.processBookings (host := utcHost)
             morningOf20250601 (dashboardOf sevenStays)))
     = [4; 7; 1; 5; 2].
Proof.
  pose proof (C8_recent_is_top_five (host := utcHost) morningOf20250601
                (dashboardOf sevenStays)) as H.
  cbv zeta in H. destruct H as (_ & _ & _ & Hfive & Hsorted & _).
  split; [reflexivity |].
  split; [apply Hfive; reflexivity |].
  split; [apply (Hsorted sevenStays_dates_parse) |].
  vm_compute. reflexivity.
Defined.

(** On 2025-06-01 a confirmed stay that starts that day is upcoming on
    the dashboard and current in the bookings view. *)
Lemma C10_views_disagree_on_checkin_day_witness :
  let b := sampleBooking 8 "2025-06-01" "2025-06-03" "CONFIRMED" in
  let c := dashboardOf (b :: fourStays) in
  let m := sampleBookingsPage (b :: fourStays) in
  In b (ClientDashboardComponent.allBookings c)
  /\ In b (ClientDashboardComponent.upcomingBookings
             (ClientDashboardComponent.processBookings (host := utcHost)
                morningOf20250601 c))
  /\ In b (MyBookingsComponent.currentBookings
             (MyBookingsComponent.processBookings (host := utcHost)
                morningOf20250601 m))
  /\ ~ In b (MyBookingsComponent.upcomingBookings
               (MyBookingsComponent.processBookings (host := utcHost)
                  morningOf20250601 m)).
Proof.
  cbv zeta.
  assert (Hin : In (sampleBooking 8 "2025-06-01" "2025-06-03" "CONFIRMED")
                  (ClientDashboardComponent.allBookings
                     (dashboardOf
                        (sampleBooking 8 "2025-06-01" "2025-06-03" "CONFIRMED"
                         :: fourStays)))).
  { left. reflexivity. }
  split; [exact Hin |].
  pose proof (C10_views_disagree_on_checkin_day (host := utcHost)
                morningOf20250601 _
                (sampleBookingsPage
                   (sampleBooking 8 "2025-06-01" "2025-06-03" "CONFIRMED"
                    :: fourStays))
                _ Hin) as H.
  cbv zeta in H. destruct H as (_ & _ & Hact).
  destruct (Hact (or_introl eq_refl)) as (_ & Hday).
  destruct (Hday eq_refl) as (Hup & Hview).
  split; [exact Hup |].
  apply Hview; [left; reflexivity | reflexivity].
Defined.

(* ====================================================================== *)
(** * Further properties of the four components                            *)
(* ====================================================================== *)

(** ** The stepper of the property page *)

Section StepperFacts.
Import PropertyDetailsComponent.
Context {host : Host}.

Lemma submitBooking_keeps_step_and_value (c : Component) :
  currentStep (state_after (submitBooking c)) = currentStep c
  /\ value (bookingForm (state_after (submitBooking c))) = value (bookingForm c).
Proof.
  unfold submitBooking, state_after, bind, get. cbn [fst snd].
  destruct (FormGroup_invalid (bookingForm c)); [split; reflexivity |].
  destruct (property c) as [prop|]; [| split; reflexivity].
  destruct (session_userId c) as [[|ch uid]|]; try (split; reflexivity).
  destruct (checkinDate (value (bookingForm c))) as [din|]; [| split; reflexivity].
  destruct (checkoutDate (value (bookingForm c))) as [dout|]; [| split; reflexivity].
  destruct (Date_toISODate din); [| split; reflexivity].
  destruct (Date_toISODate dout); [| split; reflexivity].
  unfold bookRoomService. cbn [PaymentData.hasDeepClean].
  destruct (hasDeepClean (value (bookingForm c))); split; reflexivity.
Qed.

Lemma nextStep_step_in_range (c : Component) :
  0 <= currentStep c <= 2 ->
  0 <= currentStep (state_after (nextStep c)) <= 2.
Proof.
  intros Hr.
  pose proof (submitBooking_keeps_step_and_value c) as [Hs _].
  destruct c as [prop pid step show ld bk err ok form uid].
  cbn [currentStep] in *.
  unfold state_after in *. unfold nextStep, bind, get.
  cbn [fst snd currentStep bookingForm].
  destruct (step =? 0) eqn:E0.
  - destruct (checkinDate (value form)); destruct (checkoutDate (value form));
      try (cbn; lia).
    destruct (errors form) as [[|]|]; cbn; lia.
  - destruct (step =? 1) eqn:E1; [cbn; lia |].
    destruct (step =? 2) eqn:E2; [| cbn; lia].
    rewrite Hs. lia.
Qed.

Lemma stepper_handler_step_in_range (e : StepperEvent) (c : Component) :
  0 <= currentStep c <= 2 ->
  0 <= currentStep (state_after (stepper_handler e c)) <= 2.
Proof.
  intros Hr. destruct e; cbn [stepper_handler].
  - cbn. lia.
  - cbn. lia.
  - cbn. lia.
  - apply nextStep_step_in_range. exact Hr.
  - unfold previousStep, state_after, bind, get. cbn [fst snd].
    destruct (0 <? currentStep c) eqn:E; cbn; [| lia].
    apply Z.ltb_lt in E. lia.
Qed.

(** X1. Whatever the user does with the booking form (open, close, edit,
    Next, Back, in any order and any number of times), the step index
    stays one of 0, 1, 2 once it is. *)
Theorem X1_stepper_stays_in_range (es : list StepperEvent) (c : Component) :
  0 <= currentStep c <= 2 ->
  0 <= currentStep (stepper_run es c) <= 2.
Proof.
  revert c. induction es as [|e es IH]; intros c Hr; cbn [stepper_run fold_left].
  - exact Hr.
  - apply IH. apply stepper_handler_step_in_range. exact Hr.
Qed.

(** X2. Back undoes Next: from step 0 with both dates present and no
    violation stored, or from step 1, pressing Next and then Back gives
    the component back as it was, and neither press requests anything
    from the browser.  From any state, Back leaves the form and both
    banners as they are. *)
Theorem X2_back_undoes_next (c : Component) :
  (currentStep c = 0
   /\ checkinDate (value (bookingForm c)) <> None
   /\ checkoutDate (value (bookingForm c)) <> None
   /\ errors (bookingForm c) = None)
  \/ currentStep c = 1 ->
  state_after (previousStep (state_after (nextStep c))) = c
  /\ effects_of (nextStep c) = []
  /\ effects_of (previousStep (state_after (nextStep c))) = []
  /\ (forall d : Component,
        bookingForm (state_after (previousStep d)) = bookingForm d
        /\ errorMessage (state_after (previousStep d)) = errorMessage d
        /\ successMessage (state_after (previousStep d)) = successMessage d
        /\ currentStep (state_after (previousStep d))
           = (if 0 <? currentStep d then currentStep d - 1 else currentStep d)).
Proof.
  intros H.
  assert (Hgen : forall d : Component,
            bookingForm (state_after (previousStep d)) = bookingForm d
            /\ errorMessage (state_after (previousStep d)) = errorMessage d
            /\ successMessage (state_after (previousStep d)) = successMessage d
            /\ currentStep (state_after (previousStep d))
               = (if 0 <? currentStep d then currentStep d - 1 else currentStep d)).
  { intros d. unfold previousStep, state_after, bind, get. cbn [fst snd].
    destruct (0 <? currentStep d); repeat split; reflexivity. }
  destruct c as [prop pid step show ld bk err ok form uid].
  cbn [currentStep bookingForm] in H.
  destruct H as [(Hs & Hci & Hco & Herr) | Hs]; subst step.
  - destruct form as [v er t1 t2 t3 t4]. destruct v as [ci co cot clean].
    cbn in Hci, Hco, Herr. subst er.
    destruct ci as [ci|]; [| congruence]. destruct co as [co|]; [| congruence].
    split; [reflexivity | split; [reflexivity | split; [reflexivity | exact Hgen]]].
  - split; [reflexivity | split; [reflexivity | split; [reflexivity | exact Hgen]]].
Qed.

End StepperFacts.

Section StepperInstances.
Import PropertyDetailsComponent.

Lemma X2_back_undoes_next_witness :
  let c := state_after
             (userEditsForm (host := utcHost) morningOf20250601
                {| checkinDate := Some (utc_day 2025 6 6);
                   checkoutDate := Some (utc_day 2025 6 9);
                   hasExtraCot := true; hasDeepClean := false |}
                (state_after (openBookingForm (host := utcHost)
                                morningOf20250601 confirmPage))) in
  currentStep c = 0
  /\ currentStep (state_after (nextStep (host := utcHost) c)) = 1
  /\ state_after (previousStep (state_after (nextStep (host := utcHost) c))) = c.
Proof.
  cbv zeta.
  split; [reflexivity | split; [reflexivity |]].
  match goal with
  | |- state_after (previousStep (state_after (nextStep ?c))) = _ =>
      destruct (X2_back_undoes_next (host := utcHost) c) as (Hround & _)
  end.
  - left. repeat split; try reflexivity; discriminate.
  - exact Hround.
Defined.

Lemma X1_stepper_stays_in_range_witness :
  let es := [ OpensForm morningOf20250601; PressesBack; PressesNext;
              EditsForm morningOf20250601
                {| checkinDate := Some (utc_day 2025 6 6);
                   checkoutDate := Some (utc_day 2025 6 9);
                   hasExtraCot := false; hasDeepClean := false |};
              PressesNext; PressesNext; PressesNext; PressesNext ] in
  0 <= currentStep confirmPage <= 2
  /\ currentStep (stepper_run (host := utcHost) es confirmPage) = 2
  /\ 0 <= currentStep (stepper_run (host := utcHost) es confirmPage) <= 2.
Proof.
  cbv zeta.
  assert (Hr : 0 <= currentStep confirmPage <= 2) by (cbn; lia).
  split; [exact Hr |].
  split; [vm_compute; reflexivity |].
  apply (X1_stepper_stays_in_range (host := utcHost)). exact Hr.
Defined.

End StepperInstances.

Section SubmitFacts.
Import PropertyDetailsComponent.
Context {host : Host}.

(** X3. [submitBooking] sends the user to the payment page only from a
    form that passed validation: a property is loaded, a user is in the
    session, both dates are valid dates with check-in before check-out and
    not before the start of the day of validation.  The payment data it
    hands over carry the ISO dates of the form, the night count of those
    dates, the nightly rate times that count as the amount, the add-on
    choices of the form, and no booking identifier. *)
Theorem X3_payment_page_reached_only_validated
  (tv : Z) (c : Component) (n : Navigation) :
  In (Navigate n) (effects_of (submitBooking c)) ->
  route n = "/client/payment-page" ->
  FormGroup_validated tv (bookingForm c) ->
  exists prop tin tout uid pd,
    property c = Some prop
    /\ checkinDate (value (bookingForm c)) = Some (DateOf (Num tin))
    /\ checkoutDate (value (bookingForm c)) = Some (DateOf (Num tout))
    /\ tin < tout
    /\ startOfDay tv <= tin
    /\ session_userId c = Some uid /\ uid <> ""
    /\ nav_paymentData n = Some pd
    /\ PaymentData.checkinDate pd = toISODate tin
    /\ PaymentData.checkoutDate pd = toISODate tout
    /\ PaymentData.numberOfNights pd
       = calculateNights (toISODate tin) (toISODate tout)
    /\ PaymentData.totalAmount pd
       = num_mul (Num (PropertyDetails.pricePerDay prop))
           (PaymentData.numberOfNights pd)
    /\ PaymentData.userId pd = parseInt10 uid
    /\ PaymentData.bookingId pd = None
    /\ PaymentData.hasExtraCot pd = hasExtraCot (value (bookingForm c))
    /\ PaymentData.hasDeepClean pd = hasDeepClean (value (bookingForm c)).
Proof.
  intros Hin Hroute Hval. unfold FormGroup_validated in Hval.
  destruct c as [prop pid step show ld bk err ok form uid].
  destruct form as [v er t1 t2 t3 t4]. destruct v as [ci co cot clean].
  cbn [bookingForm value errors checkinDate checkoutDate property
       session_userId hasExtraCot hasDeepClean] in *.
  unfold submitBooking, effects_of, bind, get in Hin.
  cbn [fst snd bookingForm value errors checkinDate checkoutDate property
       session_userId FormGroup_invalid] in Hin.
  destruct ci as [[tci]|]; [| cbn in Hin; contradiction].
  destruct co as [[tco]|]; [| cbn in Hin; contradiction].
  destruct er as [e|]; [cbn in Hin; contradiction |].
  destruct prop as [prop|]; [| cbn in Hin; contradiction].
  destruct uid as [[|ch uid]|].
  - cbn in Hin. destruct Hin as [Hin | [Hin | []]]; [discriminate |].
    inversion Hin; subst n. discriminate.
  - destruct tci as [|tin]; [cbn in Hin; destruct Hin as [Hin | []]; discriminate |].
    destruct tco as [|tout]; [cbn in Hin; destruct Hin as [Hin | []]; discriminate |].
    unfold dateRangeValidator in Hval. cbn [checkinDate checkoutDate] in Hval.
    unfold Date_le, Date_lt, today_of, setHours0, Date_now in Hval.
    cbn [getTime num_le num_lt] in Hval.
    destruct (tout <=? tin) eqn:Ele; [discriminate |].
    destruct (tin <? startOfDay tv) eqn:Elt; [discriminate |].
    apply Z.leb_gt in Ele. apply Z.ltb_ge in Elt.
    cbn [Date_toISODate getTime hasDeepClean hasExtraCot] in Hin.
    unfold bookRoomService in Hin. cbn [PaymentData.hasDeepClean] in Hin.
    exists prop, tin, tout, (String ch uid).
    destruct clean; cbn in Hin.
    + destruct Hin as [Hin | [Hin | []]]; [discriminate |].
      inversion Hin; subst n. eexists.
      repeat split; try reflexivity; try assumption. discriminate.
    + destruct Hin as [Hin | []].
      inversion Hin; subst n. eexists.
      repeat split; try reflexivity; try assumption. discriminate.
  - cbn in Hin. destruct Hin as [Hin | [Hin | []]]; [discriminate |].
    inversion Hin; subst n. discriminate.
Qed.

Lemma submitBooking_http_call (c : Component) :
  existsb is_http_call (effects_of (submitBooking c)) = true ->
  hasDeepClean (value (bookingForm c)) = true
  /\ FormGroup_invalid (bookingForm c) = false
  /\ existsb is_payment_navigation (effects_of (submitBooking c)) = true
  /\ List.length (filter is_http_call (effects_of (submitBooking c))) = 1%nat.
Proof.
  unfold submitBooking, effects_of, bind, get. cbn [fst snd].
  destruct (FormGroup_invalid (bookingForm c)); [cbn; discriminate |].
  destruct (property c) as [prop|]; [| cbn; discriminate].
  destruct (session_userId c) as [[|ch uid]|]; try (cbn; discriminate).
  destruct (checkinDate (value (bookingForm c))) as [din|]; [| cbn; discriminate].
  destruct (checkoutDate (value (bookingForm c))) as [dout|]; [| cbn; discriminate].
  destruct (Date_toISODate din); [| cbn; discriminate].
  destruct (Date_toISODate dout); [| cbn; discriminate].
  unfold bookRoomService. cbn [PaymentData.hasDeepClean].
  destruct (hasDeepClean (value (bookingForm c))); cbn.
  - intros _. repeat split; reflexivity.
  - discriminate.
Qed.

(** X4. Pressing Next issues an HTTP call in one situation only: in
    step 2 (Confirm), with a valid form in which deep clean is chosen, on
    the way to the payment page; it is then a single call.  Steps 0 and 1
    never reach the network. *)
Theorem X4_next_reaches_network_only_for_deep_clean (c : Component) :
  existsb is_http_call (effects_of (nextStep c)) = true ->
  currentStep c = 2
  /\ hasDeepClean (value (bookingForm c)) = true
  /\ FormGroup_invalid (bookingForm c) = false
  /\ existsb is_payment_navigation (effects_of (nextStep c)) = true
  /\ List.length (filter is_http_call (effects_of (nextStep c))) = 1%nat.
Proof.
  pose proof (submitBooking_http_call c) as Hsub.
  destruct c as [prop pid step show ld bk err ok form uid].
  unfold effects_of in *. unfold nextStep, bind, get.
  cbn [fst snd currentStep bookingForm] in *.
  destruct (step =? 0) eqn:E0.
  - destruct (checkinDate (value form)); destruct (checkoutDate (value form));
      try (cbn; discriminate).
    destruct (errors form) as [[|]|]; cbn; discriminate.
  - destruct (step =? 1) eqn:E1; [cbn; discriminate |].
    destruct (step =? 2) eqn:E2; [| cbn; discriminate].
    apply Z.eqb_eq in E2. cbn [app]. intros H.
    split; [exact E2 |]. apply Hsub. exact H.
Qed.



End SubmitFacts.

Section SubmitInstances.
Import PropertyDetailsComponent.

(** From the Confirm step of the sample page: three nights at 2000. *)
Lemma X3_payment_page_reached_only_validated_witness :
  let pd := {| PaymentData.propertyId := 12;
               PaymentData.propertyName := "Lake House";
               PaymentData.propertyImage := "lake.jpg";
               PaymentData.propertyLocation := "Ooty, Tamil Nadu";
               PaymentData.pricePerNight := 2000;
               PaymentData.bookingId := None;
               PaymentData.checkinDate := "2025-06-06";
               PaymentData.checkoutDate := "2025-06-09";
               PaymentData.numberOfNights := Num 3;
               PaymentData.maxGuests := 4;
               PaymentData.hasExtraCot := false;
               PaymentData.hasDeepClean := true;
               PaymentData.totalAmount := Num 6000;
               PaymentData.userId := Num 7 |} in
  In (goes_to_payment pd) (effects_of (submitBooking (host := utcHost) confirmPage))
  /\ FormGroup_validated (host := utcHost) morningOf20250601
       (bookingForm confirmPage)
  /\ exists tin tout,
       tin < tout
       /\ PaymentData.checkinDate pd = toISODate (Host := utcHost) tin
       /\ PaymentData.checkoutDate pd = toISODate (Host := utcHost) tout.
Proof.
  cbv zeta.
  match goal with
  | |- In ?e ?l /\ _ => assert (Hin : In e l)
  end.
  { vm_compute. right. left. reflexivity. }
  split; [exact Hin |].
  split; [reflexivity |].
  destruct (X3_payment_page_reached_only_validated (host := utcHost)
              morningOf20250601 confirmPage _ Hin eq_refl eq_refl)
    as (prop & tin & tout & uid & pd & _ & _ & _ & Hlt & _ & _ & _ & Hnav
        & Hci & Hco & _).
  cbn in Hnav. inversion Hnav; subst pd.
  exists tin, tout. split; [exact Hlt | split; [exact Hci | exact Hco]].
Defined.

Lemma X4_next_reaches_network_only_for_deep_clean_witness :
  existsb is_http_call (effects_of (nextStep (host := utcHost) confirmPage)) = true
  /\ currentStep confirmPage = 2
  /\ hasDeepClean (value (bookingForm confirmPage)) = true
  /\ List.length (filter is_http_call
                    (effects_of (nextStep (host := utcHost) confirmPage))) = 1%nat.
Proof.
  assert (H : existsb is_http_call
                (effects_of (nextStep (host := utcHost) confirmPage)) = true)
    by (vm_compute; reflexivity).
  split; [exact H |].
  destruct (X4_next_reaches_network_only_for_deep_clean (host := utcHost)
              confirmPage H) as (Hs & Hd & _ & _ & Hl).
  split; [exact Hs | split; [exact Hd | exact Hl]].
Defined.


End SubmitInstances.

(** ** The payment page *)

Section PaymentFlowFacts.
Import PaymentPageComponent.

Lemma trimStart_all_space (s : string) :
  all_space s = true -> trimStart s = "".
Proof.
  induction s as [|ch s IH]; cbn [all_space trimStart]; [reflexivity |].
  intros H. apply andb_true_iff in H. destruct H as [Hc Hs].
  rewrite Hc. apply IH. exact Hs.
Qed.

Lemma trim_all_space (s : string) : all_space s = true -> trim s = "".
Proof.
  intros H. unfold trim. rewrite (trimStart_all_space s H). reflexivity.
Qed.

Lemma processPayment_ready (c : Component) (pd : PaymentData.t) :
  ready c -> paymentData c = Some pd ->
  processPayment c
  = (tt, set_errorMessage "" (set_isProcessing true c),
     [Http (Post_alwaysTrue
              {| pr_bookingId := match PaymentData.bookingId pd with
                                 | Some 0 => None
                                 | other => other
                                 end;
                 pr_userId := PaymentData.userId pd;
                 pr_accountNumber := trim (accountNumber c);
                 pr_amount := PaymentData.totalAmount pd |})]).
Proof.
  intros (Ha & Hb & _) Hpd.
  unfold processPayment, bind, get, modify, emit. cbn [fst snd].
  rewrite Ha, Hb. cbn [orb]. rewrite Hpd. reflexivity.
Qed.

Lemma processPayment_not_ready (c : Component) :
  ~ ready c ->
  existsb is_charge_call (effects_of (processPayment c)) = false
  /\ existsb is_reserve_call (effects_of (processPayment c)) = false
  /\ isProcessing (state_after (processPayment c)) = isProcessing c
  /\ accountNumber (state_after (processPayment c)) = accountNumber c
  /\ paymentData (state_after (processPayment c)) = paymentData c
  /\ (errorMessage (state_after (processPayment c))
        = "Please enter your account number"
      \/ errorMessage (state_after (processPayment c))
        = "Payment data is missing").
Proof.
  intros Hn. unfold ready in Hn.
  unfold processPayment, effects_of, state_after, bind, get. cbn [fst snd].
  destruct (String.eqb (accountNumber c) "") eqn:Ea; cbn [orb].
  - repeat split; try reflexivity. left. reflexivity.
  - destruct (String.eqb (trim (accountNumber c)) "") eqn:Eb.
    + repeat split; try reflexivity. left. reflexivity.
    + destruct (paymentData c) as [pd|] eqn:Epd.
      * exfalso. apply Hn. repeat split; congruence.
      * repeat split; try reflexivity; try exact Epd. right. reflexivity.
Qed.

(** X6. The charge call goes out exactly when the account number has a
    character left after trimming and payment data are present.  It then
    carries the trimmed account number, the user and the total amount of
    the payment data, and never the booking identifier 0; the processing
    flag is raised.  An account number of white space only is refused
    with "Please enter your account number": nothing is sent and the
    flag, the field and the payment data stay as they were. *)
Theorem X6_charge_needs_account_and_data (c : Component) :
  (existsb is_charge_call (effects_of (processPayment c)) = true <-> ready c)
  /\ (all_space (accountNumber c) = true ->
      effects_of (processPayment c) = [SetTimeout 5000 ClearErrorMessage]
      /\ errorMessage (state_after (processPayment c))
         = "Please enter your account number"
      /\ isProcessing (state_after (processPayment c)) = isProcessing c
      /\ accountNumber (state_after (processPayment c)) = accountNumber c
      /\ paymentData (state_after (processPayment c)) = paymentData c)
  /\ (forall pd, ready c -> paymentData c = Some pd ->
      exists req,
        effects_of (processPayment c) = [Http (Post_alwaysTrue req)]
        /\ pr_accountNumber req = trim (accountNumber c)
        /\ pr_amount req = PaymentData.totalAmount pd
        /\ pr_userId req = PaymentData.userId pd
        /\ pr_bookingId req <> Some 0
        /\ isProcessing (state_after (processPayment c)) = true
        /\ errorMessage (state_after (processPayment c)) = "").
Proof.
  split; [| split].
  - split.
    + intros H.
      destruct (String.eqb (accountNumber c) "") eqn:Ea;
        [| destruct (String.eqb (trim (accountNumber c)) "") eqn:Eb;
           [| destruct (paymentData c) as [pd|] eqn:Epd]].
      4: { assert (Hn : ~ ready c) by (intros (_ & _ & Hp); congruence).
           destruct (processPayment_not_ready c Hn) as (Hno & _). congruence. }
      3: { repeat split; congruence. }
      * assert (Hn : ~ ready c) by (intros (Hx & _); congruence).
        destruct (processPayment_not_ready c Hn) as (Hno & _). congruence.
      * assert (Hn : ~ ready c) by (intros (_ & Hx & _); congruence).
        destruct (processPayment_not_ready c Hn) as (Hno & _). congruence.
    + intros Hr. destruct (paymentData c) as [pd|] eqn:Epd.
      * rewrite (processPayment_ready c pd Hr Epd). reflexivity.
      * destruct Hr as (_ & _ & Hp). congruence.
  - intros Hsp. pose proof (trim_all_space _ Hsp) as Ht.
    unfold processPayment, effects_of, state_after, bind, get. cbn [fst snd].
    rewrite Ht. cbn [String.eqb]. rewrite orb_true_r.
    repeat split; reflexivity.
  - intros pd Hr Hpd. rewrite (processPayment_ready c pd Hr Hpd).
    eexists. split; [reflexivity |].
    cbn [pr_accountNumber pr_amount pr_userId pr_bookingId state_after fst snd].
    repeat split; try reflexivity.
    destruct (PaymentData.bookingId pd) as [[|p|p]|]; discriminate.
Qed.

Lemma onReserve_keeps (o : ReserveOutcome) (c : Component) :
  isProcessing (state_after (onReserve o c)) = isProcessing c
  /\ accountNumber (state_after (onReserve o c)) = accountNumber c
  /\ paymentData (state_after (onReserve o c)) = paymentData c.
Proof.
  destruct o as [r | e]; cbn [onReserve].
  - unfold makeBooking_next. destruct (success r); repeat split; reflexivity.
  - unfold makeBooking_error, handleError.
    destruct (status e =? 0); [repeat split; reflexivity |].
    destruct (status e =? 401); [repeat split; reflexivity |].
    destruct (500 <=? status e); repeat split; reflexivity.
Qed.

Lemma handleError_keeps (ctx : string) (e : HttpErrorResponse) (c : Component) :
  isProcessing (state_after (handleError ctx e c)) = isProcessing c
  /\ accountNumber (state_after (handleError ctx e c)) = accountNumber c
  /\ paymentData (state_after (handleError ctx e c)) = paymentData c
  /\ successMessage (state_after (handleError ctx e c)) = successMessage c.
Proof.
  unfold handleError.
  destruct (status e =? 0); [repeat split; reflexivity |].
  destruct (status e =? 401); [repeat split; reflexivity |].
  destruct (500 <=? status e); repeat split; reflexivity.
Qed.

Lemma onCharge_clears_flag (o : ChargeOutcome) (c : Component) :
  isProcessing (state_after (onCharge o c)) = false
  /\ paymentData (state_after (onCharge o c)) = paymentData c.
Proof.
  destruct o as [[|] | e]; cbn [onCharge].
  - destruct c as [[pd|] acc pr em sm]; split; reflexivity.
  - split; reflexivity.
  - unfold processPayment_error, state_after, bind. cbn [fst snd].
    destruct (handleError_keeps "Payment processing failed" e c) as (_ & _ & Hp & _).
    unfold state_after in Hp. split; [reflexivity | exact Hp].
Qed.

Lemma onCharge_failure_keeps_account (o : ChargeOutcome) (c : Component) :
  o <> ChargeResult true ->
  accountNumber (state_after (onCharge o c)) = accountNumber c.
Proof.
  destruct o as [[|] | e]; cbn [onCharge]; intros Ho.
  - congruence.
  - reflexivity.
  - unfold processPayment_error, state_after, bind. cbn [fst snd].
    destruct (handleError_keeps "Payment processing failed" e c) as (_ & Ha & _).
    exact Ha.
Qed.

Lemma charge_phase_ready (k : Action Component Eff unit) (c : Component) :
  ready c ->
  then_on is_charge_call processPayment k c
  = (tt, state_after (k (state_after (processPayment c))),
     effects_of (processPayment c)
     ++ effects_of (k (state_after (processPayment c)))).
Proof.
  intros Hr. destruct (paymentData c) as [pd|] eqn:Epd.
  - unfold then_on. rewrite (processPayment_ready c pd Hr Epd). reflexivity.
  - destruct Hr as (_ & _ & Hp). congruence.
Qed.

Lemma attempt_ready_state (charge : ChargeOutcome) (reserve : ReserveOutcome)
  (c : Component) :
  ready c ->
  let c2 := state_after (onCharge charge (state_after (processPayment c))) in
  state_after (attempt charge reserve c) = c2
  \/ state_after (attempt charge reserve c) = state_after (onReserve reserve c2).
Proof.
  intros Hr. cbv zeta.
  remember (state_after (attempt charge reserve c)) as s eqn:Hs.
  unfold attempt in Hs. unfold then_on at 1 in Hs.
  rewrite (charge_phase_ready (onCharge charge) c Hr) in Hs.
  cbv zeta in Hs.
  match type of Hs with
  | context [if ?b then _ else _] => destruct b
  end; subst s; [right | left]; reflexivity.
Qed.

Lemma processPayment_keeps (c : Component) :
  accountNumber (state_after (processPayment c)) = accountNumber c
  /\ paymentData (state_after (processPayment c)) = paymentData c.
Proof.
  destruct c as [pd acc pr em sm].
  unfold processPayment, state_after, bind, get.
  cbn [fst snd accountNumber paymentData].
  destruct (String.eqb acc "" || String.eqb (trim acc) "");
    [split; reflexivity |].
  destruct pd; split; reflexivity.
Qed.

Lemma attempt_keeps_paymentData
  (c : Component) (charge : ChargeOutcome) (reserve : ReserveOutcome) :
  ready c ->
  paymentData (state_after (attempt charge reserve c)) = paymentData c.
Proof.
  intros Hr.
  destruct (onCharge_clears_flag charge (state_after (processPayment c)))
    as (_ & Hpd).
  destruct (processPayment_keeps c) as (_ & Hpd0).
  destruct (attempt_ready_state charge reserve c Hr) as [-> | ->].
  - congruence.
  - destruct (onReserve_keeps reserve
                (state_after (onCharge charge (state_after (processPayment c)))))
      as (_ & _ & H3).
    congruence.
Qed.

(** X7. The processing flag is never left up: it is raised when the
    charge call goes out and it is down again after the attempt, however
    the charge call and the reservation call end. *)
Theorem X7_processing_flag_never_stuck
  (c : Component) (charge : ChargeOutcome) (reserve : ReserveOutcome) :
  ready c ->
  isProcessing (state_after (processPayment c)) = true
  /\ isProcessing (state_after (attempt charge reserve c)) = false
  /\ paymentData (state_after (attempt charge reserve c)) = paymentData c.
Proof.
  intros Hr.
  destruct (onCharge_clears_flag charge (state_after (processPayment c)))
    as (Hflag & Hpd).
  destruct (processPayment_keeps c) as (_ & Hpd0).
  split.
  - destruct (paymentData c) as [pd|] eqn:Epd.
    + rewrite (processPayment_ready c pd Hr Epd). reflexivity.
    + destruct Hr as (_ & _ & Hp). congruence.
  - destruct (attempt_ready_state charge reserve c Hr) as [-> | ->].
    + split; [exact Hflag | congruence].
    + destruct (onReserve_keeps reserve
                  (state_after (onCharge charge (state_after (processPayment c)))))
        as (H1 & _ & H3).
      split; congruence.
Qed.

Lemma processPayment_effects_determined (c1 c2 : Component) :
  accountNumber c1 = accountNumber c2 ->
  paymentData c1 = paymentData c2 ->
  effects_of (processPayment c1) = effects_of (processPayment c2).
Proof.
  intros Ha Hp. unfold processPayment, effects_of, bind, get. cbn [fst snd].
  rewrite Ha, Hp.
  destruct (String.eqb (accountNumber c2) "" || String.eqb (trim (accountNumber c2)) "");
    [reflexivity |].
  destruct (paymentData c2); reflexivity.
Qed.

(** X8. Pressing Pay again.  After a charge that succeeded the account
    field has been emptied, so a second press sends no charge, whatever
    became of the reservation.  After a charge that was refused or that
    failed the field is kept, and a second press sends the same charge
    request as the first. *)
Theorem X8_pay_again
  (c : Component) (charge : ChargeOutcome) (reserve : ReserveOutcome) :
  ready c ->
  (charge = ChargeResult true ->
     existsb is_charge_call
       (effects_of (processPayment (state_after (attempt charge reserve c))))
     = false)
  /\ (charge <> ChargeResult true ->
      effects_of (processPayment (state_after (attempt charge reserve c)))
      = effects_of (processPayment c)).
Proof.
  intros Hr. split.
  - intros ->.
    assert (Hacc : accountNumber
                     (state_after (attempt (ChargeResult true) reserve c)) = "").
    { destruct (attempt_ready_state (ChargeResult true) reserve c Hr) as [-> | ->].
      - cbn [onCharge].
        destruct (state_after (processPayment c)) as [[pd|] acc pr em sm];
          reflexivity.
      - destruct (onReserve_keeps reserve
                    (state_after (onCharge (ChargeResult true)
                                    (state_after (processPayment c)))))
          as (_ & Ha & _).
        rewrite Ha. cbn [onCharge].
        destruct (state_after (processPayment c)) as [[pd|] acc pr em sm];
          reflexivity. }
    unfold processPayment, effects_of, bind, get. cbn [fst snd].
    rewrite Hacc. reflexivity.
  - intros Hne. apply processPayment_effects_determined.
    + destruct (processPayment_keeps c) as (Ha0 & _).
      pose proof (onCharge_failure_keeps_account charge
                    (state_after (processPayment c)) Hne) as Ha1.
      destruct (attempt_ready_state charge reserve c Hr) as [-> | ->].
      * congruence.
      * destruct (onReserve_keeps reserve
                    (state_after (onCharge charge (state_after (processPayment c)))))
          as (_ & Ha & _).
        congruence.
    + apply attempt_keeps_paymentData. exact Hr.
Qed.

(** X9. When both phases succeed, the attempt requests, in this order,
    the charge, the reservation and, two seconds later, the move to the
    bookings list.  The reservation request carries the property, user,
    dates and add-on choices of the payment data; the success banner
    reads "Booking confirmed successfully!", the error banner is empty
    and the account field has been emptied. *)
Theorem X9_both_phases_succeed
  (c : Component) (pd : PaymentData.t) (r : ApiResponse unit) :
  ready c -> paymentData c = Some pd -> success r = true ->
  let run := attempt (ChargeResult true) (ReserveResponse r) c in
  (exists req,
     effects_of run
     = [ Http (Post_alwaysTrue req);
         Http (Post_makeBooking
                 {| br_propertyId := PaymentData.propertyId pd;
                    br_userId := PaymentData.userId pd;
                    br_checkinDate := PaymentData.checkinDate pd;
                    br_checkoutDate := PaymentData.checkoutDate pd;
                    br_hasExtraCot := PaymentData.hasExtraCot pd;
                    br_hasDeepClean := PaymentData.hasDeepClean pd |});
         SetTimeout 2000 (NavigateTo "/client/my-bookings") ]
     /\ pr_amount req = PaymentData.totalAmount pd)
  /\ successMessage (state_after run) = "Booking confirmed successfully!"
  /\ errorMessage (state_after run) = ""
  /\ accountNumber (state_after run) = ""
  /\ isProcessing (state_after run) = false.
Proof.
  intros Hr Hpd Hs. cbv zeta.
  destruct (attempt_ready_charge_ok (ReserveResponse r) c Hr) as (c2 & Hrun & Hc2).
  rewrite Hrun. subst c2.
  rewrite (processPayment_ready c pd Hr Hpd).
  destruct c as [pd0 acc pr em sm]. cbn [paymentData] in Hpd. subst pd0.
  unfold state_after at 1 2 3 4, effects_of at 1. cbn [fst snd].
  cbn [onReserve]. unfold makeBooking_next. rewrite Hs.
  split; [| repeat split; reflexivity].
  eexists. split; reflexivity.
Qed.

End PaymentFlowFacts.

Section PaymentFlowInstances.
Import PaymentPageComponent.

Lemma samplePaymentPage_ready : ready samplePaymentPage.
Proof. unfold ready. repeat split; try reflexivity. discriminate. Qed.

(** A field of three blanks is refused; the sample page is charged. *)
Example processPayment_blank_account :
  effects_of (processPayment (set_accountNumber "   " samplePaymentPage))
  = [SetTimeout 5000 ClearErrorMessage]
  /\ existsb is_charge_call (effects_of (processPayment samplePaymentPage)) = true.
Proof. split; reflexivity. Qed.

Lemma X7_processing_flag_never_stuck_witness :
  ready samplePaymentPage
  /\ isProcessing (state_after (processPayment samplePaymentPage)) = true
  /\ isProcessing
       (state_after
          (attempt (ChargeResult true) (ReserveError serverUnreachable)
             samplePaymentPage)) = false.
Proof.
  split; [exact samplePaymentPage_ready |].
  destruct (X7_processing_flag_never_stuck samplePaymentPage
              (ChargeResult true) (ReserveError serverUnreachable)
              samplePaymentPage_ready) as (Hup & Hdown & _).
  split; assumption.
Defined.

Lemma X8_pay_again_witness :
  ready samplePaymentPage
  /\ existsb is_charge_call
       (effects_of
          (processPayment
             (state_after
                (attempt (ChargeResult true) (ReserveError serverUnreachable)
                   samplePaymentPage)))) = false.
Proof.
  split; [exact samplePaymentPage_ready |].
  destruct (X8_pay_again samplePaymentPage (ChargeResult true)
              (ReserveError serverUnreachable) samplePaymentPage_ready)
    as (Hno & _).
  apply Hno. reflexivity.
Defined.

Lemma X9_both_phases_succeed_witness :
  let r := {| success := true; message := "Booked"; data := None |} in
  ready samplePaymentPage
  /\ paymentData samplePaymentPage = Some samplePaymentData
  /\ successMessage
       (state_after (attempt (ChargeResult true) (ReserveResponse r)
                       samplePaymentPage))
     = "Booking confirmed successfully!"
  /\ List.length
       (effects_of (attempt (ChargeResult true) (ReserveResponse r)
                      samplePaymentPage)) = 3%nat.
Proof.
  cbv zeta.
  split; [exact samplePaymentPage_ready | split; [reflexivity |]].
  pose proof (X9_both_phases_succeed samplePaymentPage samplePaymentData
                {| success := true; message := "Booked"; data := None |}
                samplePaymentPage_ready eq_refl eq_refl) as H.
  cbv zeta in H. destruct H as ((req & Heff & _) & Hok & _).
  split; [exact Hok | rewrite Heff; reflexivity].
Defined.

End PaymentFlowInstances.

(** ** Sorting by check-in *)

Section CheckinOrderFacts.
Context {host : Host}.

Lemma sort_insert_filter {A : Type} (cmp : A -> A -> number) (p : A -> bool)
  (x : A) (l : list A) :
  (forall a b, p a = true -> p b = true -> sortCompare_sign (cmp a b) <= 0) ->
  filter p (sort_insert cmp x l) = filter p (x :: l).
Proof.
  intros Hp. induction l as [|y l IH]; [reflexivity |].
  cbn [sort_insert].
  destruct (sortCompare_sign (cmp x y) <=? 0) eqn:E; [reflexivity |].
  apply Z.leb_gt in E. cbn [filter] in *.
  destruct (p x) eqn:Ex.
  - destruct (p y) eqn:Ey.
    + specialize (Hp x y Ex Ey). lia.
    + exact IH.
  - rewrite IH. reflexivity.
Qed.

(** The sort is stable: elements that the comparator never puts in
    order keep the order they came in. *)
Lemma Array_sort_stable {A : Type} (cmp : A -> A -> number) (p : A -> bool)
  (l : list A) :
  (forall a b, p a = true -> p b = true -> sortCompare_sign (cmp a b) <= 0) ->
  filter p (Array_sort cmp l) = filter p l.
Proof.
  intros Hp. induction l as [|x l IH]; [reflexivity |].
  cbn [Array_sort]. rewrite (sort_insert_filter cmp p x _ Hp).
  cbn [filter]. rewrite IH. reflexivity.
Qed.

Lemma same_checkin_never_ordered (cmp : BookingResponse.t -> BookingResponse.t -> number)
  (d : string) :
  (forall a b, cmp a b = num_sub (getTime (new_Date (BookingResponse.checkinDate a)))
                                 (getTime (new_Date (BookingResponse.checkinDate b)))
               \/ cmp a b = num_sub (getTime (new_Date (BookingResponse.checkinDate b)))
                                    (getTime (new_Date (BookingResponse.checkinDate a)))) ->
  forall a b, checks_in_on d a = true -> checks_in_on d b = true ->
              sortCompare_sign (cmp a b) <= 0.
Proof.
  intros Hcmp a b Ha Hb. unfold checks_in_on in *.
  apply String.eqb_eq in Ha. apply String.eqb_eq in Hb.
  destruct (Hcmp a b) as [-> | ->]; rewrite Ha, Hb;
    destruct (getTime (new_Date d)); cbn; lia.
Qed.

Lemma checkins_parse_filter (p : BookingResponse.t -> bool)
  (l : list BookingResponse.t) :
  checkins_parse l -> checkins_parse (filter p l).
Proof.
  unfold checkins_parse. rewrite !Forall_forall. intros H x Hx.
  apply filter_In in Hx. apply H, Hx.
Qed.

Lemma sorted_by_key_is_sorted_by (R : BookingResponse.t -> BookingResponse.t -> Prop)
  (key : BookingResponse.t -> Z) (l s : list BookingResponse.t) :
  (forall x, In x s -> In x l) ->
  (forall x y, In x l -> In y l -> key x <= key y -> R x y) ->
  StronglySorted (key_le key) s -> StronglySorted R s.
Proof.
  intros Hin Hord Hs. induction Hs as [|a s Hs IH Hall]; [constructor |].
  constructor.
  - apply IH. intros x Hx. apply Hin. right. exact Hx.
  - rewrite Forall_forall in *. intros y Hy.
    apply Hord; [apply Hin; left; reflexivity | apply Hin; right; exact Hy |].
    apply Hall. exact Hy.
Qed.

Lemma Array_sort_ascending (cmp : BookingResponse.t -> BookingResponse.t -> number)
  (l : list BookingResponse.t) :
  (forall a b, cmp a b = num_sub (getTime (new_Date (BookingResponse.checkinDate a)))
                                 (getTime (new_Date (BookingResponse.checkinDate b)))) ->
  checkins_parse l ->
  StronglySorted checkin_not_after (Array_sort cmp l).
Proof.
  intros Hcmp Hall. unfold checkins_parse in Hall. rewrite Forall_forall in Hall.
  set (key := fun b => match Date_parse (BookingResponse.checkinDate b) with
                       | Num t => t
                       | NaN => 0
                       end).
  apply (sorted_by_key_is_sorted_by checkin_not_after key l).
  - intros x. apply Array_sort_In.
  - intros x y Hx Hy. destruct (Hall x Hx) as [tx Ex]. destruct (Hall y Hy) as [ty Ey].
    unfold key, checkin_not_after, new_Date. cbn [getTime]. rewrite Ex, Ey.
    cbn [num_le]. intros H. apply Z.leb_le. exact H.
  - apply Array_sort_sorted. intros x y Hx Hy.
    destruct (Hall x Hx) as [tx Ex]. destruct (Hall y Hy) as [ty Ey].
    rewrite Hcmp. unfold key, new_Date. cbn [getTime]. rewrite Ex, Ey.
    reflexivity.
Qed.

Lemma Array_sort_descending (cmp : BookingResponse.t -> BookingResponse.t -> number)
  (l : list BookingResponse.t) :
  (forall a b, cmp a b = num_sub (getTime (new_Date (BookingResponse.checkinDate b)))
                                 (getTime (new_Date (BookingResponse.checkinDate a)))) ->
  checkins_parse l ->
  StronglySorted checkin_not_before (Array_sort cmp l).
Proof.
  intros Hcmp Hall. unfold checkins_parse in Hall. rewrite Forall_forall in Hall.
  set (key := fun b => match Date_parse (BookingResponse.checkinDate b) with
                       | Num t => - t
                       | NaN => 0
                       end).
  apply (sorted_by_key_is_sorted_by checkin_not_before key l).
  - intros x. apply Array_sort_In.
  - intros x y Hx Hy. destruct (Hall x Hx) as [tx Ex]. destruct (Hall y Hy) as [ty Ey].
    unfold key, checkin_not_before, num_ge, new_Date. cbn [getTime]. rewrite Ex, Ey.
    cbn [num_le]. intros H. apply Z.leb_le. lia.
  - apply Array_sort_sorted. intros x y Hx Hy.
    destruct (Hall x Hx) as [tx Ex]. destruct (Hall y Hy) as [ty Ey].
    rewrite Hcmp. unfold key, new_Date. cbn [getTime]. rewrite Ex, Ey.
    cbn [num_sub sortCompare_sign]. lia.
Qed.

End CheckinOrderFacts.

(** ** The bookings view *)

Section BookingsViewFacts.
Import MyBookingsComponent.
Context {host : Host}.

Lemma upcoming_excludes_current (today : Date) (b : BookingResponse.t) :
  goesUpcoming today b = true -> goesCurrent today b = false.
Proof.
  unfold goesUpcoming, goesCurrent. intros H.
  apply andb_true_iff in H. destruct H as [Ha Hg]. rewrite Ha, Hg. reflexivity.
Qed.

Lemma three_filters_Permutation (today : Date) (l : list BookingResponse.t) :
  Permutation
    (filter (goesUpcoming today) l ++ filter (goesCurrent today) l
     ++ filter (goesPast today) l)
    l.
Proof.
  induction l as [|x l IH]; cbn [filter]; [apply perm_nil |].
  unfold goesPast at 1.
  destruct (goesUpcoming today x) eqn:Eu.
  - rewrite (upcoming_excludes_current today x Eu). cbn [negb andb app].
    apply perm_skip, IH.
  - destruct (goesCurrent today x) eqn:Ec; cbn [negb andb].
    + apply Permutation_sym. eapply perm_trans;
        [apply perm_skip, Permutation_sym, IH |].
      apply Permutation_middle.
    + apply Permutation_sym. eapply perm_trans;
        [apply perm_skip, Permutation_sym, IH |].
      rewrite !app_assoc. apply Permutation_middle.
Qed.

Lemma processBookings_partition (now : Z) (c : Component) :
  Permutation
    (upcomingBookings (processBookings now c)
     ++ currentBookings (processBookings now c)
     ++ pastBookings (processBookings now c))
    (allBookings c).
Proof.
  rewrite processBookings_closed_form.
  destruct c; cbn [set_buckets upcomingBookings currentBookings pastBookings
                   allBookings].
  eapply perm_trans; [| apply (three_filters_Permutation (today_of now))].
  repeat apply Permutation_app; apply Array_sort_Permutation.
Qed.

(** X10. The three buckets of the bookings view are a rearrangement of
    the booking list: no booking is lost, none appears twice, and the
    three counts add up to the number of bookings.  The list itself is
    left as it was received. *)
Theorem X10_buckets_partition_the_list (now : Z) (c : Component) :
  let c' := processBookings now c in
  Permutation
    (upcomingBookings c' ++ currentBookings c' ++ pastBookings c')
    (allBookings c)
  /\ (List.length (upcomingBookings c') + List.length (currentBookings c')
      + List.length (pastBookings c') = List.length (allBookings c))%nat
  /\ allBookings c' = allBookings c.
Proof.
  cbv zeta. pose proof (processBookings_partition now c) as Hp.
  split; [exact Hp |]. split.
  - apply Permutation_length in Hp. rewrite !length_app in Hp. lia.
  - rewrite processBookings_closed_form. destruct c; reflexivity.
Qed.

(** X11. Order inside the buckets, when the check-in strings parse:
    upcoming and current are in ascending check-in order and past is in
    descending check-in order, and bookings of one bucket that check in
    on the same date [d] appear in the order in which the list had
    them. *)
Theorem X11_bucket_order (now : Z) (c : Component) (d : string) :
  checkins_parse (allBookings c) ->
  let c' := processBookings now c in
  let today := today_of now in
  StronglySorted checkin_not_after (upcomingBookings c')
  /\ StronglySorted checkin_not_after (currentBookings c')
  /\ StronglySorted checkin_not_before (pastBookings c')
  /\ filter (checks_in_on d) (upcomingBookings c')
     = filter (checks_in_on d) (filter (goesUpcoming today) (allBookings c))
  /\ filter (checks_in_on d) (currentBookings c')
     = filter (checks_in_on d) (filter (goesCurrent today) (allBookings c))
  /\ filter (checks_in_on d) (pastBookings c')
     = filter (checks_in_on d) (filter (goesPast today) (allBookings c)).
Proof.
  intros Hv. cbv zeta. rewrite processBookings_closed_form.
  destruct c as [all up past cur ld cn md sel dlg err ok form uid].
  cbn [set_buckets upcomingBookings currentBookings pastBookings allBookings] in *.
  split; [| split; [| split; [| split; [| split]]]].
  - apply Array_sort_ascending; [intros; reflexivity |].
    apply checkins_parse_filter. exact Hv.
  - apply Array_sort_ascending; [intros; reflexivity |].
    apply checkins_parse_filter. exact Hv.
  - apply Array_sort_descending; [intros; reflexivity |].
    apply checkins_parse_filter. exact Hv.
  - apply Array_sort_stable. apply same_checkin_never_ordered.
    intros a b. left. reflexivity.
  - apply Array_sort_stable. apply same_checkin_never_ordered.
    intros a b. left. reflexivity.
  - apply Array_sort_stable. apply same_checkin_never_ordered.
    intros a b. right. reflexivity.
Qed.

End BookingsViewFacts.

Section BookingsCallbacksFacts.
Import MyBookingsComponent.
Context {host : Host}.

Lemma handleError_lists (ctx : string) (e : HttpErrorResponse) (c : Component) :
  booking_lists (state_after (handleError ctx e c)) = booking_lists c
  /\ existsb is_http_call (effects_of (handleError ctx e c)) = false
  /\ errorMessage (state_after (handleError ctx e c)) <> ""
  /\ successMessage (state_after (handleError ctx e c)) = "".
Proof.
  unfold handleError, server_message_or.
  destruct (status e =? 0); [repeat split; try reflexivity; discriminate |].
  destruct (status e =? 401); [repeat split; try reflexivity; discriminate |].
  destruct (status e =? 404); [repeat split; try reflexivity; discriminate |].
  destruct (500 <=? status e); [repeat split; try reflexivity; discriminate |].
  repeat split; try reflexivity.
  cbn. destruct (error_message e) as [m|]; [| discriminate].
  unfold str_or. destruct (String.eqb m "") eqn:E; [discriminate |].
  intros ->. discriminate.
Qed.

(** X12. Cancelling and modifying never patch the lists on the page:
    whatever the server answers, the booking list and the three buckets
    are exactly what they were when the callback started.  A successful
    answer asks for the bookings again (one fetch, for the user of the
    session); a refused or failed one asks for nothing and leaves a
    non-empty error banner. *)
Theorem X12_mutations_reload_never_patch
  (c : Component) (r : ApiResponse unit) (e : HttpErrorResponse) :
  booking_lists (state_after (cancelBooking_next r c)) = booking_lists c
  /\ booking_lists (state_after (cancelBooking_error e c)) = booking_lists c
  /\ booking_lists (state_after (submitModifyBooking_next r c)) = booking_lists c
  /\ booking_lists (state_after (submitModifyBooking_error e c)) = booking_lists c
  /\ (forall uid, success r = true -> session_userId c = Some uid -> uid <> "" ->
        filter is_http_call (effects_of (cancelBooking_next r c))
        = [Http (Get_viewBooking (parseInt10 uid))]
        /\ filter is_http_call (effects_of (submitModifyBooking_next r c))
           = [Http (Get_viewBooking (parseInt10 uid))])
  /\ (success r = false ->
        existsb is_http_call (effects_of (cancelBooking_next r c)) = false
        /\ existsb is_http_call (effects_of (submitModifyBooking_next r c)) = false
        /\ errorMessage (state_after (cancelBooking_next r c))
           = str_or (message r) "Failed to cancel booking"
        /\ errorMessage (state_after (submitModifyBooking_next r c))
           = str_or (message r) "Failed to modify booking")
  /\ existsb is_http_call (effects_of (cancelBooking_error e c)) = false
  /\ existsb is_http_call (effects_of (submitModifyBooking_error e c)) = false
  /\ errorMessage (state_after (cancelBooking_error e c)) <> ""
  /\ errorMessage (state_after (submitModifyBooking_error e c)) <> "".
Proof.
  pose proof (handleError_lists "Failed to cancel booking" e c)
    as (Hcl & Hch & Hce & _).
  pose proof (handleError_lists "Failed to modify booking" e c)
    as (Hml & Hmh & Hme & _).
  assert (Hcs : state_after (cancelBooking_error e c)
                = set_isCancelling false
                    (state_after (handleError "Failed to cancel booking" e c)))
    by reflexivity.
  assert (Hms : state_after (submitModifyBooking_error e c)
                = set_isModifying false
                    (state_after (handleError "Failed to modify booking" e c)))
    by reflexivity.
  assert (Hcf : effects_of (cancelBooking_error e c)
                = effects_of (handleError "Failed to cancel booking" e c) ++ [])
    by reflexivity.
  assert (Hmf : effects_of (submitModifyBooking_error e c)
                = effects_of (handleError "Failed to modify booking" e c) ++ [])
    by reflexivity.
  rewrite Hcs, Hms, Hcf, Hmf, !app_nil_r.
  repeat match goal with
         | |- _ /\ _ => split
         end; try assumption.
  - unfold cancelBooking_next.
    destruct c as [all up past cur ld cn md sel dlg err ok form uid].
    destruct (success r); [| reflexivity].
    destruct uid as [[|ch uid]|]; reflexivity.
  - unfold submitModifyBooking_next.
    destruct c as [all up past cur ld cn md sel dlg err ok form uid].
    destruct (success r); [| reflexivity].
    destruct uid as [[|ch uid]|]; reflexivity.
  - intros u Hs Hu Hne. unfold cancelBooking_next, submitModifyBooking_next.
    rewrite Hs.
    destruct c as [all up past cur ld cn md sel dlg err ok form uid].
    cbn [session_userId] in Hu. subst uid.
    destruct u as [|ch u]; [congruence |]. split; reflexivity.
  - intros Hs. unfold cancelBooking_next, submitModifyBooking_next. rewrite Hs.
    repeat split; reflexivity.
Qed.

(** X13. What a fetch of the bookings leaves behind.  A successful
    answer with data replaces the list by the data and classifies all of
    it; an answer without success or without data, and a failed fetch,
    keep the list and the buckets that were on the page and put a
    message in the error banner.  The loading flag is down in every
    case. *)
Theorem X13_fetch_outcomes
  (now : Z) (c : Component) (r : ApiResponse (list BookingResponse.t))
  (e : HttpErrorResponse) :
  isLoading (state_after (loadBookings_next now r c)) = false
  /\ isLoading (state_after (loadBookings_error e c)) = false
  /\ (forall bookings, success r = true -> data r = Some bookings ->
        let c' := state_after (loadBookings_next now r c) in
        allBookings c' = bookings
        /\ Permutation
             (upcomingBookings c' ++ currentBookings c' ++ pastBookings c')
             bookings
        /\ successMessage c' = "Bookings loaded successfully"
        /\ errorMessage c' = "")
  /\ (success r = false \/ data r = None ->
        booking_lists (state_after (loadBookings_next now r c)) = booking_lists c
        /\ errorMessage (state_after (loadBookings_next now r c))
           = "Failed to load bookings")
  /\ booking_lists (state_after (loadBookings_error e c)) = booking_lists c
  /\ errorMessage (state_after (loadBookings_error e c)) <> "".
Proof.
  pose proof (handleError_lists "Failed to load bookings" e c)
    as (Hl & _ & He & _).
  split; [reflexivity |]. split; [reflexivity |].
  split; [| split; [| split]].
  - intros bookings Hs Hd. cbv zeta.
    unfold loadBookings_next. rewrite Hs, Hd.
    unfold state_after, bind, modify, showSuccess. cbn [fst snd].
    pose proof (processBookings_partition now (set_allBookings bookings c)) as Hp.
    destruct c as [all up past cur ld cn md sel dlg err ok form uid].
    cbn [set_allBookings allBookings] in Hp.
    rewrite processBookings_closed_form in *.
    cbn [set_allBookings set_buckets set_messages set_isLoading allBookings
         upcomingBookings currentBookings pastBookings successMessage
         errorMessage] in *.
    repeat split; try reflexivity. exact Hp.
  - intros H. unfold loadBookings_next.
    destruct (success r); [destruct (data r) |].
    + destruct H; discriminate.
    + split; reflexivity.
    + split; reflexivity.
  - unfold loadBookings_error, state_after, bind in *. cbn [fst snd]. exact Hl.
  - unfold loadBookings_error, state_after, bind in *. cbn [fst snd]. exact He.
Qed.

(** X14. A modification reaches the network only with a selected
    booking and a form that is not invalid.  A form whose dates are
    inverted or whose check-in is before today is invalid, so it is
    turned away with nothing sent and the busy flag untouched; so is any
    submission after the dialog was closed, or after a modification that
    succeeded. *)
Theorem X14_modify_turned_away_before_network
  (now : Z) (c : Component) (r : ApiResponse unit)
  (cin cout : Date) (cot clean : option bool) :
  (FormGroup_invalid (modifyForm c) = true \/ selectedBooking c = None ->
     effects_of (submitModifyBooking c) = []
     /\ isModifying (state_after (submitModifyBooking c)) = isModifying c
     /\ booking_lists (state_after (submitModifyBooking c)) = booking_lists c)
  /\ (Date_le cout cin = true \/ Date_lt cin (today_of now) = true ->
      FormGroup_invalid
        (FormGroup_patchValue now
           {| checkinDate := Some cin; checkoutDate := Some cout;
              hasExtraCot := cot; hasDeepClean := clean |}
           (modifyForm c)) = true)
  /\ effects_of (submitModifyBooking (state_after (closeModifyDialog c))) = []
  /\ (success r = true ->
      effects_of
        (submitModifyBooking (state_after (submitModifyBooking_next r c))) = []).
Proof.
  split; [| split; [| split]].
  - intros H.
    destruct c as [all up past cur ld cn md sel dlg err ok form uid].
    unfold submitModifyBooking, state_after, effects_of, bind, get.
    cbn [fst snd modifyForm selectedBooking] in *.
    destruct H as [H | H].
    + rewrite H. repeat split; reflexivity.
    + subst sel. destruct (FormGroup_invalid form); repeat split; reflexivity.
  - intros H. unfold FormGroup_invalid, FormGroup_patchValue.
    cbn [value errors checkinDate checkoutDate]. unfold dateRangeValidator.
    cbn [checkinDate checkoutDate].
    destruct (Date_le cout cin); [reflexivity |].
    destruct (Date_lt cin (today_of now)); [reflexivity |].
    destruct H; discriminate.
  - destruct c as [all up past cur ld cn md sel dlg err ok form uid].
    reflexivity.
  - intros Hs.
    destruct c as [all up past cur ld cn md sel dlg err ok form uid].
    unfold submitModifyBooking_next. rewrite Hs.
    destruct uid as [[|ch uid]|]; reflexivity.
Qed.

(** X15. A booking offered for cancel or modify is never one the page
    files under past.  On a host whose start of day does not decrease
    with time: when [isBookingActionable] holds for a booking of the list,
    at the moment of classification or later, the booking is CONFIRMED
    and sits in the upcoming or in the current bucket. *)
Theorem X15_actionable_is_not_past
  (now later : Z) (c : Component) (b : BookingResponse.t) :
  (forall x y, x <= y -> startOfDay x <= startOfDay y) ->
  now <= later ->
  In b (allBookings c) ->
  isBookingActionable later b = true ->
  BookingResponse.isBookingStatus b = "CONFIRMED"
  /\ (In b (upcomingBookings (processBookings now c))
      \/ In b (currentBookings (processBookings now c)))
  /\ ~ In b (pastBookings (processBookings now c)).
Proof.
  intros Hmono Hlater Hin Hact.
  unfold isBookingActionable in Hact. cbv zeta in Hact.
  apply andb_true_iff in Hact. destruct Hact as [Hact Hout].
  apply andb_true_iff in Hact. destruct Hact as [Hst Hcin].
  apply String.eqb_eq in Hst.
  destruct (processBookings_membership now c b Hin) as (Hu & Hc & Hp).
  rewrite Hu, Hc, Hp.
  unfold goesPast, goesCurrent, goesUpcoming, startedBy.
  rewrite (activeStatus_true b (or_introl Hst)). cbn [andb].
  unfold Date_gt, Date_ge, Date_le, num_gt, num_ge, today_of, setHours0,
    Date_now, new_Date in *.
  cbn [getTime] in *.
  destruct (Date_parse (BookingResponse.checkinDate b)) as [|tin];
    [discriminate |].
  destruct (Date_parse (BookingResponse.checkoutDate b)) as [|tout];
    [discriminate |].
  cbn [getTime num_lt num_le] in *.
  apply Z.ltb_lt in Hcin, Hout.
  pose proof (Hmono now tin ltac:(lia)) as H1.
  pose proof (Hmono now tout ltac:(lia)) as H2.
  split; [exact Hst |].
  destruct (startOfDay now <? startOfDay tin) eqn:E.
  - cbn. split; [left; reflexivity | discriminate].
  - apply Z.ltb_ge in E.
    assert (Hle : (startOfDay tin <=? startOfDay now) = true)
      by (apply Z.leb_le; lia).
    assert (Hge : (startOfDay now <=? startOfDay tout) = true)
      by (apply Z.leb_le; lia).
    rewrite Hle, Hge. cbn. split; [right; reflexivity | discriminate].
Qed.

(** X16. The two copies of the date rules agree: on the same dates and
    the same clock the validator of the modify dialog and the validator
    of the booking form report the same violation or none, and the two
    copies of [calculateNights] return the same count. *)
Theorem X16_copies_of_date_rules_agree
  (now : Z) (cin cout : option Date) (cot clean : option bool)
  (cot' clean' : bool) (s1 s2 : string) :
  option_map same_error
    (dateRangeValidator now
       {| checkinDate := cin; checkoutDate := cout;
          hasExtraCot := cot; hasDeepClean := clean |})
  = PropertyDetailsComponent.dateRangeValidator now
      {| PropertyDetailsComponent.checkinDate := cin;
         PropertyDetailsComponent.checkoutDate := cout;
         PropertyDetailsComponent.hasExtraCot := cot';
         PropertyDetailsComponent.hasDeepClean := clean' |}
  /\ calculateNights s1 s2 = PropertyDetailsComponent.calculateNights s1 s2.
Proof.
  split; [| reflexivity].
  unfold dateRangeValidator, PropertyDetailsComponent.dateRangeValidator.
  cbn [checkinDate checkoutDate PropertyDetailsComponent.checkinDate
       PropertyDetailsComponent.checkoutDate].
  destruct cin as [ci|]; [| reflexivity].
  destruct cout as [co|]; [| reflexivity].
  destruct (Date_le co ci); [reflexivity |].
  destruct (Date_lt ci (today_of now)); reflexivity.
Qed.

End BookingsCallbacksFacts.

Lemma utc_startOfDay_monotone (x y : Z) :
  x <= y -> startOfDay (Host := utcHost) x <= startOfDay (Host := utcHost) y.
Proof.
  intros H. cbn [startOfDay utcHost].
  assert (Hd : 0 < msPerDay) by reflexivity.
  pose proof (Z.div_mod x msPerDay ltac:(lia)) as Hx.
  pose proof (Z.div_mod y msPerDay ltac:(lia)) as Hy.
  pose proof (Z.div_le_mono x y msPerDay Hd H) as Hq.
  nia.
Qed.

(** On 2025-06-01 the confirmed stay of 2025-06-05 is actionable and
    listed as upcoming. *)
Lemma X15_actionable_is_not_past_witness :
  MyBookingsComponent.isBookingActionable (host := utcHost)
    (morningOf20250601 + 3600000) stayToCancel = true
  /\ In stayToCancel
       (MyBookingsComponent.allBookings (sampleBookingsPage fourStays))
  /\ ~ In stayToCancel
         (MyBookingsComponent.pastBookings
            (MyBookingsComponent.processBookings (host := utcHost)
               morningOf20250601 (sampleBookingsPage fourStays))).
Proof.
  assert (Hact : MyBookingsComponent.isBookingActionable (host := utcHost)
                   (morningOf20250601 + 3600000) stayToCancel = true)
    by (vm_compute; reflexivity).
  assert (Hin : In stayToCancel
                  (MyBookingsComponent.allBookings (sampleBookingsPage fourStays)))
    by (left; reflexivity).
  split; [exact Hact | split; [exact Hin |]].
  assert (Hlater : morningOf20250601 <= morningOf20250601 + 3600000) by lia.
  destruct (X15_actionable_is_not_past (host := utcHost) morningOf20250601
              (morningOf20250601 + 3600000) (sampleBookingsPage fourStays)
              stayToCancel utc_startOfDay_monotone Hlater Hin Hact)
    as (_ & _ & Hnot).
  exact Hnot.
Defined.

(** ** The dashboard: counts and the relation to the bookings view *)

Section DashboardCountFacts.
Import ClientDashboardComponent.
Context {host : Host}.

Lemma filter_disjoint_length {A : Type} (p q r : A -> bool) (l : list A) :
  (forall x, p x = true -> q x = false) ->
  (forall x, p x = true -> r x = true) ->
  (forall x, q x = true -> r x = true) ->
  (List.length (filter p l) + List.length (filter q l)
   <= List.length (filter r l))%nat.
Proof.
  intros Hpq Hpr Hqr. induction l as [|x l IH]; cbn [filter]; [cbn; lia |].
  destruct (p x) eqn:Ep.
  - rewrite (Hpq x Ep), (Hpr x Ep). cbn [List.length]. lia.
  - destruct (q x) eqn:Eq.
    + rewrite (Hqr x Eq). cbn [List.length]. lia.
    + destruct (r x); cbn [List.length]; lia.
Qed.

(** X17. The booking counts of the dashboard after a fetch.  Upcoming
    plus past is the total, which is the number of bookings received;
    completed plus cancelled never exceeds past, because every such
    booking is filed under past; the complaint counts are not touched. *)
Theorem X17_booking_counts_add_up
  (now : Z) (bookings : list BookingResponse.t) (c : Component) (s : Summary) :
  let st := stats (snd (loadBookings_stored now bookings c s)) in
  DashboardStats.totalBookings st = Array_length bookings
  /\ DashboardStats.upcomingBookings st + DashboardStats.pastBookings st
     = DashboardStats.totalBookings st
  /\ DashboardStats.completedBookings st + DashboardStats.cancelledBookings st
     <= DashboardStats.pastBookings st
  /\ 0 <= DashboardStats.upcomingBookings st
  /\ DashboardStats.activeComplaints st = DashboardStats.activeComplaints (stats s)
  /\ DashboardStats.resolvedComplaints st
     = DashboardStats.resolvedComplaints (stats s)
  /\ allBookings (fst (loadBookings_stored now bookings c s)) = bookings.
Proof.
  cbv zeta. unfold loadBookings_stored. cbv zeta. cbn [fst snd].
  rewrite dashboard_closed_form.
  cbn [calculateBookingStats stats allBookings upcomingBookings pastBookings
       DashboardStats.totalBookings DashboardStats.upcomingBookings
       DashboardStats.pastBookings DashboardStats.completedBookings
       DashboardStats.cancelledBookings DashboardStats.activeComplaints
       DashboardStats.resolvedComplaints].
  unfold Array_length. rewrite !Array_sort_length.
  pose proof (filter_split_Permutation
                (goesUpcomingOnDashboard (today_of now)) bookings) as Hp.
  apply Permutation_length in Hp. rewrite length_app in Hp.
  pose proof (filter_disjoint_length
                (fun b => String.eqb (BookingResponse.isBookingStatus b) "COMPLETED")
                (fun b => String.eqb (BookingResponse.isBookingStatus b) "CANCELLED")
                (fun b => negb (goesUpcomingOnDashboard (today_of now) b))
                bookings) as Hd.
  assert (Hle : (List.length
                   (filter (fun b => String.eqb (BookingResponse.isBookingStatus b)
                                       "COMPLETED") bookings)
                 + List.length
                     (filter (fun b => String.eqb (BookingResponse.isBookingStatus b)
                                         "CANCELLED") bookings)
                 <= List.length
                      (filter (fun b => negb (goesUpcomingOnDashboard
                                                (today_of now) b)) bookings))%nat).
  { apply Hd; intros x Hx; apply String.eqb_eq in Hx;
      unfold goesUpcomingOnDashboard, activeStatus; rewrite Hx; reflexivity. }
  repeat split; try reflexivity; lia.
Qed.


(** X19. Order on the dashboard, when the check-in strings parse:
    upcoming is in ascending and past in descending check-in order, and
    bookings of one list that check in on the same date [d] appear in
    the order in which they were received; those of them that made it
    into the recent list are the first received. *)
Theorem X19_dashboard_order (now : Z) (c : Component) (d : string) :
  checkins_parse (allBookings c) ->
  let c' := processBookings now c in
  let today := today_of now in
  StronglySorted checkin_not_after (upcomingBookings c')
  /\ StronglySorted checkin_not_before (pastBookings c')
  /\ filter (checks_in_on d) (upcomingBookings c')
     = filter (checks_in_on d)
         (filter (goesUpcomingOnDashboard today) (allBookings c))
  /\ filter (checks_in_on d) (pastBookings c')
     = filter (checks_in_on d)
         (filter (fun b => negb (goesUpcomingOnDashboard today b)) (allBookings c))
  /\ filter (checks_in_on d) (recentBookings c')
     = firstn (List.length (filter (checks_in_on d) (recentBookings c')))
         (filter (checks_in_on d) (allBookings c)).
Proof.
  intros Hv. cbv zeta. rewrite dashboard_closed_form.
  cbn [upcomingBookings pastBookings recentBookings].
  split; [| split; [| split; [| split]]].
  - apply Array_sort_ascending; [intros; reflexivity |].
    apply checkins_parse_filter. exact Hv.
  - apply Array_sort_descending; [intros; reflexivity |].
    apply checkins_parse_filter. exact Hv.
  - apply Array_sort_stable. apply same_checkin_never_ordered.
    intros a b. left. reflexivity.
  - apply Array_sort_stable. apply same_checkin_never_ordered.
    intros a b. right. reflexivity.
  - assert (Hst : filter (checks_in_on d)
                    (Array_sort byCheckinDescending (allBookings c))
                  = filter (checks_in_on d) (allBookings c)).
    { apply Array_sort_stable. apply same_checkin_never_ordered.
      intros a b. right. reflexivity. }
    rewrite <- Hst.
    generalize (Array_sort byCheckinDescending (allBookings c)) as s.
    generalize 5%nat as n.
    induction n as [|n IH]; intros s; [reflexivity |].
    destruct s as [|x s]; [reflexivity |].
    cbn [firstn filter]. destruct (checks_in_on d x); cbn [List.length firstn].
    + f_equal. apply IH.
    + apply IH.
Qed.

(** X20. How the dashboard and the bookings view file the same booking
    on the same clock.  What the bookings view calls upcoming the
    dashboard calls upcoming too; what the dashboard calls past the
    bookings view calls past or current; and a booking the bookings view
    calls current is upcoming on the dashboard exactly when its check-in
    day is today. *)
Theorem X20_dashboard_against_bookings_view
  (now : Z) (c : Component) (m : MyBookingsComponent.Component)
  (b : BookingResponse.t) :
  In b (allBookings c) ->
  In b (MyBookingsComponent.allBookings m) ->
  let c' := processBookings now c in
  let m' := MyBookingsComponent.processBookings now m in
  (In b (MyBookingsComponent.upcomingBookings m') -> In b (upcomingBookings c'))
  /\ (In b (pastBookings c') ->
      In b (MyBookingsComponent.pastBookings m')
      \/ In b (MyBookingsComponent.currentBookings m'))
  /\ (In b (MyBookingsComponent.currentBookings m') ->
      (In b (upcomingBookings c') <->
       getTime (setHours0 (new_Date (BookingResponse.checkinDate b)))
       = getTime (today_of now))).
Proof.
  intros Hc Hm. cbv zeta.
  destruct (dashboard_membership now c b Hc) as (Hdu & Hdp).
  destruct (processBookings_membership now m b Hm) as (Hmu & Hmc & Hmp).
  rewrite Hdu, Hdp, Hmu, Hmc, Hmp.
  unfold goesPast, goesCurrent, goesUpcoming, goesUpcomingOnDashboard, startedBy.
  unfold Date_gt, Date_ge, Date_le, num_gt, num_ge.
  set (tc := getTime (setHours0 (new_Date (BookingResponse.checkinDate b)))).
  set (td := getTime (today_of now)).
  set (tout := getTime (setHours0 (new_Date (BookingResponse.checkoutDate b)))).
  pose proof (num_lt_le td tc) as Hlt.
  pose proof (num_le_antisym tc td) as Hanti.
  assert (Hsym : tc = td -> num_le td tc = num_le tc td) by (intros ->; reflexivity).
  destruct (activeStatus b); cbn [andb negb].
  2: { repeat split; intros; try discriminate; auto. }
  destruct (num_lt td tc) eqn:E1; cbn [andb negb].
  - rewrite (Hlt eq_refl). repeat split; intros; try discriminate; auto.
  - destruct (num_le tc td) eqn:E3; destruct (num_le td tout) eqn:E4;
      cbn [andb negb].
    + split; [discriminate |]. split; [auto |]. intros _. split.
      * intros H. apply Hanti; [reflexivity | exact H].
      * intros H. rewrite (Hsym H). reflexivity.
    + split; [discriminate |]. split; [auto |]. discriminate.
    + split; [discriminate |]. split; [auto |]. discriminate.
    + split; [discriminate |]. split; [auto |]. discriminate.
Qed.

End DashboardCountFacts.

(** The counts of the seven sample stays on 2025-06-01, and of three
    complaints. *)
Example dashboard_counts_on_20250601 :
  let st := ClientDashboardComponent.stats
              (snd (ClientDashboardComponent.loadBookings_stored (host := utcHost)
                      morningOf20250601 sevenStays (dashboardOf [])
                      {| ClientDashboardComponent.allComplaints := [];
                         ClientDashboardComponent.activeComplaints := [];
                         ClientDashboardComponent.stats :=
                           {| ClientDashboardComponent.DashboardStats.totalBookings := 0;
                              ClientDashboardComponent.DashboardStats.upcomingBookings := 0;
                              ClientDashboardComponent.DashboardStats.pastBookings := 0;
                              ClientDashboardComponent.DashboardStats.completedBookings := 0;
                              ClientDashboardComponent.DashboardStats.cancelledBookings := 0;
                              ClientDashboardComponent.DashboardStats.activeComplaints := 0;
                              ClientDashboardComponent.DashboardStats.resolvedComplaints := 0 |} |})) in
  ClientDashboardComponent.DashboardStats.totalBookings st = 7
  /\ ClientDashboardComponent.DashboardStats.upcomingBookings st = 3
  /\ ClientDashboardComponent.DashboardStats.pastBookings st = 4
  /\ ClientDashboardComponent.DashboardStats.completedBookings st = 2
  /\ ClientDashboardComponent.DashboardStats.cancelledBookings st = 1.
Proof. cbv zeta. repeat split; vm_compute; reflexivity. Qed.

(** On 2025-06-01 the stay of 2025-06-05 is upcoming in both views. *)
Lemma X20_dashboard_against_bookings_view_witness :
  In stayToCancel (ClientDashboardComponent.allBookings (dashboardOf fourStays))
  /\ In stayToCancel
       (MyBookingsComponent.allBookings (sampleBookingsPage fourStays))
  /\ In stayToCancel
       (MyBookingsComponent.upcomingBookings
          (MyBookingsComponent.processBookings (host := utcHost)
             morningOf20250601 (sampleBookingsPage fourStays)))
  /\ In stayToCancel
       (ClientDashboardComponent.upcomingBookings
          (ClientDashboardComponent.processBookings (host := utcHost)
             morningOf20250601 (dashboardOf fourStays))).
Proof.
  assert (Hc : In stayToCancel
                 (ClientDashboardComponent.allBookings (dashboardOf fourStays)))
    by (left; reflexivity).
  assert (Hm : In stayToCancel
                 (MyBookingsComponent.allBookings (sampleBookingsPage fourStays)))
    by (left; reflexivity).
  assert (Hup : In stayToCancel
                  (MyBookingsComponent.upcomingBookings
                     (MyBookingsComponent.processBookings (host := utcHost)
                        morningOf20250601 (sampleBookingsPage fourStays)))).
  { vm_compute. left. reflexivity. }
  split; [exact Hc | split; [exact Hm | split; [exact Hup |]]].
  pose proof (X20_dashboard_against_bookings_view (host := utcHost)
                morningOf20250601 (dashboardOf fourStays)
                (sampleBookingsPage fourStays) stayToCancel Hc Hm) as H.
  cbv zeta in H. destruct H as (Hview & _).
  apply Hview. exact Hup.
Defined.

(** The seven sample stays on 2025-06-01: the two stays of 2025-06-05
    are upcoming in both views, booking 1 ahead of booking 5 as received. *)
Lemma X11_bucket_order_witness :
  checkins_parse (host := utcHost)
    (MyBookingsComponent.allBookings (sampleBookingsPage sevenStays))
  /\ map BookingResponse.bookingId
       (filter (checks_in_on "2025-06-05")
          (MyBookingsComponent.upcomingBookings
             (MyBookingsComponent.processBookings (host := utcHost)
                morningOf20250601 (sampleBookingsPage sevenStays))))
     = [1; 5]
  /\ StronglySorted (checkin_not_before (host := utcHost))
       (MyBookingsComponent.pastBookings
          (MyBookingsComponent.processBookings (host := utcHost)
             morningOf20250601 (sampleBookingsPage sevenStays))).
Proof.
  assert (Hv : checkins_parse (host := utcHost)
                 (MyBookingsComponent.allBookings (sampleBookingsPage sevenStays)))
    by exact sevenStays_dates_parse.
  split; [exact Hv |].
  pose proof (X11_bucket_order (host := utcHost) morningOf20250601
                (sampleBookingsPage sevenStays) "2025-06-05" Hv) as H.
  cbv zeta in H. destruct H as (_ & _ & Hpast & Hsame & _).
  split; [rewrite Hsame; vm_compute; reflexivity | exact Hpast].
Defined.

Lemma X19_dashboard_order_witness :
  checkins_parse (host := utcHost)
    (ClientDashboardComponent.allBookings (dashboardOf sevenStays))
  /\ map BookingResponse.bookingId
       (filter (checks_in_on "2025-06-05")
          (ClientDashboardComponent.upcomingBookings
             (ClientDashboardComponent.processBookings (host := utcHost)
                morningOf20250601 (dashboardOf sevenStays))))
     = [1; 5]
  /\ StronglySorted (checkin_not_after (host := utcHost))
       (ClientDashboardComponent.upcomingBookings
          (ClientDashboardComponent.processBookings (host := utcHost)
             morningOf20250601 (dashboardOf sevenStays))).
Proof.
  assert (Hv : checkins_parse (host := utcHost)
                 (ClientDashboardComponent.allBookings (dashboardOf sevenStays)))
    by exact sevenStays_dates_parse.
  split; [exact Hv |].
  pose proof (X19_dashboard_order (host := utcHost) morningOf20250601
                (dashboardOf sevenStays) "2025-06-05" Hv) as H.
  cbv zeta in H. destruct H as (Hup & _ & Hsame & _).
  split; [rewrite Hsame; vm_compute; reflexivity | exact Hup].
Defined.
